(** * USBasp parallel / high-voltage serial programmer: programming engine

    Shallow embedding of [software/firmware/isp.c] (transport, detection,
    flash / EEPROM / fuse access) and of the command state machine of
    [software/firmware/main.c] ([usbFunctionSetup], [usbFunctionRead],
    [usbFunctionWrite]) and of [software/firmware/clock.c] ([clockWait]),
    followed by the properties of the specification.

    Conventions.
    - C integers are [Z] with the wrap-around written out ([u8], [u16],
      [u32]); [int] is 16 bits wide on the AVR.
    - The firmware drives pins through macros of [isp.h]; every macro is one
      [event] appended to the [trace] of the machine.  The trace is kept
      newest-first; statements show it oldest-first through [rev].
    - What the firmware reads from a port comes from the environment: the
      n-th port read of a run returns [pin n].
    - A computation is a function [machine -> option (A * machine)]; [None]
      only arises when a loop uses up the [fuel] of the model. *)

From Stdlib Require Import ZArith List Bool Lia.
Import ListNotations.
Open Scope Z_scope.

(** ** Fixed-width integers *)

Definition u8 (x : Z) : Z := x mod 256.
Definition u16 (x : Z) : Z := x mod 65536.
Definition u32 (x : Z) : Z := x mod 4294967296.

(** An [int] (16 bits, two's complement) converted to [unsigned long]. *)
Definition int_to_ulong (x : Z) : Z :=
  let w := u16 x in if w <? 32768 then w else w + (4294967296 - 65536).

(** ** Pins, events and the machine *)

(** The lines that the macros of isp.h drive. *)
Inductive line : Type :=
| VPP | VDD | XTAIL | XA0 | XA1 | BS1 | BS2 | PAGEL | WR | OE
| SCI | SDI | SII | SDO.

Inductive level : Type := LOW | HIGH.

(** Entry points of the access layer; [Enter] events are instrumentation
    that records which entry point was called and with which address. *)
Inductive routine : Type :=
| R_ispReadFlash | R_ispWriteFlash | R_ispFlushPage
| R_ispReadEEPROM | R_ispWriteEEPROM.

(** The TPI collaborator (tpi.c) is outside the sources; its work is
    recorded as one event per call, and the assignment to its variable
    [tpi_dly_cnt] as one event too. *)
Inductive tpi_op : Type :=
| TPI_set_delay | TPI_init | TPI_send_byte | TPI_read_block | TPI_write_block.

(** The bits of the registers ISP_OUT and ISP_DDR that main.c names; their
    numbers are constants of usbasp.h, which is not among the sources. *)
Inductive isp_bit : Type := ISP_RST | ISP_SCK | ISP_MOSI.

Inductive event : Type :=
| Drive (l : line) (v : level)      (* VPP_HIGH, XA0_LOW, ... *)
| DataDir (out : bool)              (* DATA_OUT / DATA_IN *)
| DataPort (v : Z)                  (* DATA_PORT = v *)
| ControlPort (v : Z)               (* CONTROL_PORT = v *)
| ControlDDR (v : Z)                (* CONTROL_DDR = v *)
| PowerDDR (on : bool)              (* POWER_DDR |= / &= ~ (VDD|VPP) *)
| DelayUs (n : Z)
| DelayMs (n : Z)
| Sample (v : Z)                    (* value read from DATA_PIN *)
| SampleSck (v : Z)                 (* value read from SLOW_SCK_PIN *)
| Led (on : bool)                   (* ledRedOn / ledRedOff *)
| Tpi (op : tpi_op) (a b : Z)       (* work done by the TPI collaborator *)
| IspOut (bits : list isp_bit) (v : level) (* ISP_OUT |= / &= ~ the bits *)
| IspDDR (bits : list isp_bit) (out : bool) (* ISP_DDR |= / &= ~ the bits *)
| Signature (v : Z)                 (* instrumentation: avr_getId returned v *)
| Enter (r : routine) (a : Z).      (* instrumentation: entry point called *)

(** The states of usbasp.h ([PROG_STATE_...]); the header is not among the
    sources, the code only compares them. *)
Inductive prog_state : Type :=
| PROG_STATE_IDLE | PROG_STATE_WRITEFLASH | PROG_STATE_READFLASH
| PROG_STATE_READEEPROM | PROG_STATE_WRITEEEPROM
| PROG_STATE_TPI_READ | PROG_STATE_TPI_WRITE.

(** [ProgrammingState] of main.c. *)
Record ProgrammingState : Type := mkProg {
  state : prog_state;
  sck_option : Z;
  address_newmode : Z;
  address : Z;        (* unsigned long *)
  nbytes : Z;         (* unsigned int *)
  pagesize : Z;       (* unsigned int *)
  blockflags : Z;     (* uchar *)
  pagecounter : Z     (* uchar *)
}.

(** Globals of isp.c, the [prog] struct and reply buffer of main.c, and the
    environment. *)
Record machine : Type := mkMachine {
  dev_type : Z;
  isp_hiaddr : Z;
  prog_pagesize : Z;      (* isp.c: unsigned int prog_pagesize = 0 *)
  prog_pagecounter : Z;   (* isp.c: uchar prog_pagecounter = 0 *)
  low_byte : Z;
  prog : ProgrammingState;
  replyBuffer : list Z;
  pin : nat -> Z;         (* environment: value of the n-th port read *)
  reads : nat;            (* port reads done so far *)
  trace : list event      (* newest first *)
}.

Definition set_dev_type (v : Z) (s : machine) : machine :=
  mkMachine v (isp_hiaddr s) (prog_pagesize s) (prog_pagecounter s)
    (low_byte s) (prog s) (replyBuffer s) (pin s) (reads s) (trace s).
Definition set_isp_hiaddr (v : Z) (s : machine) : machine :=
  mkMachine (dev_type s) v (prog_pagesize s) (prog_pagecounter s)
    (low_byte s) (prog s) (replyBuffer s) (pin s) (reads s) (trace s).
Definition set_prog_pagecounter (v : Z) (s : machine) : machine :=
  mkMachine (dev_type s) (isp_hiaddr s) (prog_pagesize s) v
    (low_byte s) (prog s) (replyBuffer s) (pin s) (reads s) (trace s).
Definition set_low_byte (v : Z) (s : machine) : machine :=
  mkMachine (dev_type s) (isp_hiaddr s) (prog_pagesize s) (prog_pagecounter s)
    v (prog s) (replyBuffer s) (pin s) (reads s) (trace s).
Definition set_prog (p : ProgrammingState) (s : machine) : machine :=
  mkMachine (dev_type s) (isp_hiaddr s) (prog_pagesize s) (prog_pagecounter s)
    (low_byte s) p (replyBuffer s) (pin s) (reads s) (trace s).
Definition set_replyBuffer (b : list Z) (s : machine) : machine :=
  mkMachine (dev_type s) (isp_hiaddr s) (prog_pagesize s) (prog_pagecounter s)
    (low_byte s) (prog s) b (pin s) (reads s) (trace s).
Definition set_reads (n : nat) (s : machine) : machine :=
  mkMachine (dev_type s) (isp_hiaddr s) (prog_pagesize s) (prog_pagecounter s)
    (low_byte s) (prog s) (replyBuffer s) (pin s) n (trace s).
Definition set_trace (t : list event) (s : machine) : machine :=
  mkMachine (dev_type s) (isp_hiaddr s) (prog_pagesize s) (prog_pagecounter s)
    (low_byte s) (prog s) (replyBuffer s) (pin s) (reads s) t.

Definition set_state (v : prog_state) (p : ProgrammingState) :=
  mkProg v (sck_option p) (address_newmode p) (address p) (nbytes p)
    (pagesize p) (blockflags p) (pagecounter p).
Definition set_sck_option (v : Z) (p : ProgrammingState) :=
  mkProg (state p) v (address_newmode p) (address p) (nbytes p)
    (pagesize p) (blockflags p) (pagecounter p).
Definition set_address_newmode (v : Z) (p : ProgrammingState) :=
  mkProg (state p) (sck_option p) v (address p) (nbytes p)
    (pagesize p) (blockflags p) (pagecounter p).
Definition set_address (v : Z) (p : ProgrammingState) :=
  mkProg (state p) (sck_option p) (address_newmode p) v (nbytes p)
    (pagesize p) (blockflags p) (pagecounter p).
Definition set_nbytes (v : Z) (p : ProgrammingState) :=
  mkProg (state p) (sck_option p) (address_newmode p) (address p) v
    (pagesize p) (blockflags p) (pagecounter p).
Definition set_pagesize (v : Z) (p : ProgrammingState) :=
  mkProg (state p) (sck_option p) (address_newmode p) (address p) (nbytes p)
    v (blockflags p) (pagecounter p).
Definition set_blockflags (v : Z) (p : ProgrammingState) :=
  mkProg (state p) (sck_option p) (address_newmode p) (address p) (nbytes p)
    (pagesize p) v (pagecounter p).
Definition set_pagecounter (v : Z) (p : ProgrammingState) :=
  mkProg (state p) (sck_option p) (address_newmode p) (address p) (nbytes p)
    (pagesize p) (blockflags p) v.

(** ** The monad of firmware computations *)

Definition M (A : Type) : Type := machine -> option (A * machine).

Definition ret {A : Type} (a : A) : M A := fun s => Some (a, s).

Definition bind {A B : Type} (m : M A) (k : A -> M B) : M B :=
  fun s => match m s with
           | Some (a, s') => k a s'
           | None => None
           end.

(** The model ran out of fuel. *)
Definition diverge {A : Type} : M A := fun _ => None.

Declare Scope fw_scope.
Delimit Scope fw_scope with fw.
Bind Scope fw_scope with M.
Notation "x <- m ;; k" := (bind m (fun x => k))
  (at level 100, m at next level, right associativity) : fw_scope.
Notation "m ;; k" := (bind m (fun _ => k))
  (at level 100, right associativity) : fw_scope.
Open Scope fw_scope.

Definition emit (e : event) : M unit :=
  fun s => Some (tt, set_trace (e :: trace s) s).

Definition get {A : Type} (f : machine -> A) : M A := fun s => Some (f s, s).
Definition modify (f : machine -> machine) : M unit := fun s => Some (tt, f s).
Definition when (b : bool) (m : M unit) : M unit := if b then m else ret tt.

(** [for (i = 0; i < n; i++) body(i)], over the list of the values of [i]. *)
Fixpoint for_each {A : Type} (l : list A) (body : A -> M unit) : M unit :=
  match l with
  | [] => ret tt
  | i :: l' => body i ;; for_each l' body
  end.

(** A port read: the next value of the environment, eight bits wide. *)
Definition read_port (mk : Z -> event) : M Z :=
  fun s => let v := u8 (pin s (reads s)) in
           Some (v, set_trace (mk v :: trace s) (set_reads (S (reads s)) s)).

Definition DATA_PIN : M Z := read_port Sample.
Definition SLOW_SCK_PIN : M Z := read_port SampleSck.

(** Modelled from the spec: the pin macros of isp.h, which is not among the
    sources.  Following the pin interface of the specification (supply and
    programming-voltage enable lines, 8-bit data bus, register-context
    control lines, strobes, oscillator line), each macro drives one line to
    one level, or sets the direction or the value of the data bus, and is
    recorded as one event. *)
Definition VPP_HIGH := emit (Drive VPP HIGH).
Definition VPP_LOW := emit (Drive VPP LOW).
Definition VDD_HIGH := emit (Drive VDD HIGH).
Definition VDD_LOW := emit (Drive VDD LOW).
Definition XTAIL_HIGH := emit (Drive XTAIL HIGH).
Definition XTAIL_LOW := emit (Drive XTAIL LOW).
Definition XA0_HIGH := emit (Drive XA0 HIGH).
Definition XA0_LOW := emit (Drive XA0 LOW).
Definition XA1_HIGH := emit (Drive XA1 HIGH).
Definition XA1_LOW := emit (Drive XA1 LOW).
Definition BS1_HIGH := emit (Drive BS1 HIGH).
Definition BS1_LOW := emit (Drive BS1 LOW).
Definition BS2_HIGH := emit (Drive BS2 HIGH).
Definition BS2_LOW := emit (Drive BS2 LOW).
Definition PAGEL_HIGH := emit (Drive PAGEL HIGH).
Definition PAGEL_LOW := emit (Drive PAGEL LOW).
Definition WR_HIGH := emit (Drive WR HIGH).
Definition WR_LOW := emit (Drive WR LOW).
Definition OE_HIGH := emit (Drive OE HIGH).
Definition OE_LOW := emit (Drive OE LOW).
Definition SCI_HIGH := emit (Drive SCI HIGH).
Definition SCI_LOW := emit (Drive SCI LOW).
Definition SDI_HIGH := emit (Drive SDI HIGH).
Definition SDI_LOW := emit (Drive SDI LOW).
Definition SII_HIGH := emit (Drive SII HIGH).
Definition SII_LOW := emit (Drive SII LOW).
Definition SDO_LOW := emit (Drive SDO LOW).
Definition DATA_IN := emit (DataDir false).
Definition DATA_OUT := emit (DataDir true).
Definition DATA_PORT (v : Z) := emit (DataPort (u8 v)).
Definition _delay_us (n : Z) := emit (DelayUs n).
Definition _delay_ms (n : Z) := emit (DelayMs n).

Definition is_parallel (d : Z) : bool := (d =? 0) || (d =? 1).

(** ** clock.c *)

(** A read of the timer register TCNT0: the next value of the environment,
    eight bits wide.  No pin is driven, so the trace is left alone. *)
Definition TCNT0 : M Z :=
  fun s => Some (u8 (pin s (reads s)), set_reads (S (reads s)) s).

(** [while ((uint8_t)(TCNT0 - starttime) < (F_CPU / 8000000) * 320);]
    [F_CPU] is a macro of the build, taken as a parameter. *)
Fixpoint wait_320us (n : nat) (F_CPU starttime : Z) : M unit :=
  match n with
  | O => diverge
  | S n' =>
      t <- TCNT0 ;;
      if u8 (t - starttime) <? (F_CPU / 8000000) * 320
      then wait_320us n' F_CPU starttime
      else ret tt
  end.

(** [do { uint8_t starttime = TCNT0; while (...); } while (--time);] *)
Fixpoint clockWait_loop (n fuel : nat) (F_CPU time : Z) : M unit :=
  match n with
  | O => diverge
  | S n' =>
      starttime <- TCNT0 ;;
      wait_320us fuel F_CPU starttime ;;
      let time := u8 (time - 1) in
      if time =? 0 then ret tt else clockWait_loop n' fuel F_CPU time
  end.

Definition clockWait (fuel : nat) (F_CPU time : Z) : M unit :=
  clockWait_loop fuel fuel F_CPU (u8 time).

(** ** isp.c *)

Section Firmware.

(** Iterations granted to each busy-wait loop of the model. *)
Variable fuel : nat.

Definition avr_reset : M unit :=
  VPP_LOW ;; _delay_ms 10 ;; VPP_HIGH.

Definition puls_xt1 : M unit :=
  XTAIL_HIGH ;; _delay_us 5 ;; XTAIL_LOW ;; _delay_us 5.

(** One step of the loop of [avr_serialExchange], for loop index [i];
    [request] is the accumulator. *)
Definition serial_bit (command dat : Z) (i : Z) (request : Z) : M Z :=
  _delay_us 1 ;;
  (if Z.land (Z.shiftr command (10 - i)) 1 =? 0 then SII_LOW else SII_HIGH) ;;
  (if Z.land (Z.shiftr dat (10 - i)) 1 =? 0 then SDI_LOW else SDI_HIGH) ;;
  SCI_HIGH ;;
  _delay_us 1 ;;
  SCI_LOW ;;
  p <- DATA_PIN ;;
  ret (if Z.land p 1 =? 0 then request
       else Z.lor request (Z.shiftl 1 (10 - i))).

Fixpoint serial_bits (command dat : Z) (l : list Z) (request : Z) : M Z :=
  match l with
  | [] => ret request
  | i :: l' => r <- serial_bit command dat i request ;;
               serial_bits command dat l' r
  end.

Definition avr_serialExchange (instr data : Z) : M Z :=
  let command := Z.shiftl (u8 instr) 2 in
  let dat := Z.shiftl (u8 data) 2 in
  DATA_IN ;;
  request <- serial_bits command dat [0;1;2;3;4;5;6;7;8;9;10] 0 ;;
  ret (u8 (Z.shiftr request 3)).

(** [while(!(DATA_PIN & 0x01)) { _delay_us(10); delay++;
      if(delay == 0xFFF) { avr_reset(); return; } }] *)
Fixpoint bsy_loop (n : nat) (delay : Z) : M unit :=
  match n with
  | O => diverge
  | S n' =>
      p <- DATA_PIN ;;
      if Z.land p 1 =? 0 then
        _delay_us 10 ;;
        let delay := u16 (delay + 1) in
        if delay =? 0xFFF then avr_reset else bsy_loop n' delay
      else ret tt
  end.

Definition avr_bsySerial : M unit :=
  _delay_us 50 ;; bsy_loop fuel 0.

Definition avr_loadComm (command : Z) : M unit :=
  d <- get dev_type ;;
  when (is_parallel d)
    (DATA_OUT ;;
     DATA_PORT command ;;
     XA1_HIGH ;;
     XA0_LOW ;;
     BS1_LOW ;;
     when (d =? 0) BS2_LOW ;;
     _delay_us 1 ;;
     puls_xt1).

Definition avr_loadAdd (add : Z) (hi_lo : Z) : M unit :=
  d <- get dev_type ;;
  when (is_parallel d)
    (XA1_LOW ;;
     XA0_LOW ;;
     (if hi_lo =? 0 then BS1_LOW else BS1_HIGH) ;;
     when (d =? 0) BS2_LOW ;;
     DATA_OUT ;;
     DATA_PORT add ;;
     _delay_us 5 ;;
     puls_xt1).

Definition avr_getId (idadd : Z) : M Z :=
  d <- get dev_type ;;
  result <-
    (if is_parallel d then
       avr_loadComm 0x08 ;;
       avr_loadAdd idadd 0 ;;
       DATA_IN ;;
       OE_LOW ;;
       _delay_ms 1 ;;
       result <- DATA_PIN ;;
       OE_HIGH ;;
       ret result
     else
       avr_serialExchange 0x4C 0x08 ;;
       avr_serialExchange 0x0C idadd ;;
       avr_serialExchange 0x68 0x00 ;;
       avr_serialExchange 0x6C 0x00) ;;
  emit (Signature result) ;;
  ret result.

(** [while(avr_getId(0) != 0x1E) { if (timeout++ > 1000) break;
      _delay_ms(1); }] with [timeout] a [uint16_t]. *)
Fixpoint poll_id (n : nat) (timeout : Z) : M unit :=
  match n with
  | O => diverge
  | S n' =>
      id <- avr_getId 0 ;;
      if id =? 0x1E then ret tt
      else if timeout >? 1000 then ret tt
      else _delay_ms 1 ;; poll_id n' (u16 (timeout + 1))
  end.

Definition avr_progMode : M Z :=
  (* Full bus device - dev_type = 0 *)
  VPP_HIGH ;; XTAIL_LOW ;; XA0_HIGH ;; XA1_HIGH ;; _delay_ms 10 ;;
  VPP_LOW ;; _delay_ms 10 ;;
  for_each [0;1;2;3;4;5;6;7;8;9] (fun _ => puls_xt1 ;; _delay_us 10) ;;
  PAGEL_LOW ;; XA0_LOW ;; XA1_LOW ;; BS1_LOW ;; _delay_ms 20 ;;
  VPP_HIGH ;; _delay_ms 50 ;;
  modify (set_dev_type 0x00) ;;
  poll_id fuel 0 ;;
  id <- avr_getId 0 ;;
  if id =? 0x1E then ret 0 else
  (* Short bus device - dev_type = 1 *)
  VDD_LOW ;; _delay_ms 200 ;;
  XA0_LOW ;; XA1_LOW ;; BS1_LOW ;; WR_LOW ;; OE_LOW ;; VPP_LOW ;;
  _delay_ms 20 ;;
  VDD_HIGH ;; _delay_ms 10 ;;
  VPP_HIGH ;; _delay_ms 500 ;;
  WR_HIGH ;; OE_HIGH ;;
  modify (set_dev_type 0x01) ;;
  poll_id fuel 0 ;;
  id <- avr_getId 0 ;;
  if id =? 0x1E then ret 0 else
  (* Serial HV Programming *)
  VDD_LOW ;; SCI_LOW ;; DATA_OUT ;; SDI_LOW ;; SII_LOW ;; SDO_LOW ;; VPP_LOW ;;
  _delay_ms 10 ;;
  VDD_HIGH ;; VPP_HIGH ;; _delay_ms 20 ;;
  DATA_IN ;; _delay_us 500 ;;
  modify (set_dev_type 0x02) ;;
  poll_id fuel 0 ;;
  id <- avr_getId 0 ;;
  if id =? 0x1E then ret 0 else
  ret 1.

Definition avr_getFuse (bt : Z) : M Z :=
  let bt := if bt >? 3 then bt mod 3 else bt in
  d <- get dev_type ;;
  if is_parallel d then
    avr_loadComm 0x04 ;;
    DATA_IN ;;
    when (bt =? 0)
      (BS1_HIGH ;; if d =? 0 then BS2_HIGH else XA1_HIGH) ;;
    when (bt =? 1)
      (BS1_LOW ;; if d =? 0 then BS2_LOW else XA1_LOW) ;;
    when (bt =? 2)
      (BS1_LOW ;; when (d =? 0) BS2_HIGH ;; XA1_HIGH) ;;
    when (bt =? 3)
      (BS1_HIGH ;; when (d =? 0) BS2_LOW ;; XA1_LOW) ;;
    OE_LOW ;;
    _delay_ms 1 ;;
    result <- DATA_PIN ;;
    OE_HIGH ;;
    ret result
  else
    avr_serialExchange 0x4C 0x04 ;;
    r1 <- (if bt =? 1 then
             avr_serialExchange 0x68 0x00 ;; avr_serialExchange 0x6C 0x00
           else ret 0) ;;
    r0 <- (if bt =? 0 then
             avr_serialExchange 0x7A 0x00 ;; avr_serialExchange 0x7E 0x00
           else ret r1) ;;
    r2 <- (if bt =? 2 then
             avr_serialExchange 0x6A 0x00 ;; avr_serialExchange 0x6E 0x00
           else ret r0) ;;
    (if bt =? 3 then
       avr_serialExchange 0x78 0x00 ;; avr_serialExchange 0x7C 0x00
     else ret r2).

Definition avrSetFuse (fs vl : Z) : M unit :=
  d <- get dev_type ;;
  if is_parallel d then
    PAGEL_LOW ;;
    (if fs =? 0xE0 then avr_loadComm 0x20 else avr_loadComm 0x40) ;;
    _delay_us 10 ;;
    XA1_LOW ;;
    XA0_HIGH ;;
    DATA_PORT vl ;;
    _delay_us 10 ;;
    puls_xt1 ;;
    when (fs =? 0xA0)
      (BS1_LOW ;; if d =? 0 then BS2_LOW else XA1_LOW) ;;
    when (fs =? 0xA8)
      (BS1_HIGH ;; if d =? 0 then BS2_LOW else XA1_LOW) ;;
    when (fs =? 0xA4)
      (BS1_LOW ;; if d =? 0 then BS2_HIGH else XA1_HIGH) ;;
    _delay_us 10 ;;
    WR_LOW ;;
    _delay_ms 1 ;;
    WR_HIGH ;;
    _delay_ms 100
  else
    when (fs =? 0xA0)
      (avr_serialExchange 0x4C 0x40 ;; avr_serialExchange 0x2C vl ;;
       avr_serialExchange 0x64 0x00 ;; avr_serialExchange 0x6C 0x00 ;;
       avr_bsySerial) ;;
    when (fs =? 0xA8)
      (avr_serialExchange 0x4C 0x40 ;; avr_serialExchange 0x2C vl ;;
       avr_serialExchange 0x74 0x00 ;; avr_serialExchange 0x7C 0x00 ;;
       avr_bsySerial) ;;
    when (fs =? 0xA4)
      (avr_serialExchange 0x4C 0x40 ;; avr_serialExchange 0x2C vl ;;
       avr_serialExchange 0x66 0x00 ;; avr_serialExchange 0x6E 0x00 ;;
       avr_bsySerial) ;;
    when (fs =? 0xE0)
      (avr_serialExchange 0x4C 0x20 ;; avr_serialExchange 0x2C vl ;;
       avr_serialExchange 0x64 0x00 ;; avr_serialExchange 0x6C 0x00 ;;
       avr_bsySerial).

Definition avr_erase : M unit :=
  d <- get dev_type ;;
  when (is_parallel d)
    (avr_loadComm 0x80 ;; WR_LOW ;; _delay_us 200 ;; WR_HIGH ;; _delay_ms 150).

Definition ispSetSCKOption (option : Z) : M unit :=
  avr_serialExchange 0x4C 0x80 ;;
  avr_serialExchange 0x64 0x00 ;;
  avr_serialExchange 0x6C 0x00 ;;
  avr_bsySerial.

Definition ispConnect : M unit :=
  emit (ControlPort 0xFF) ;;
  emit (ControlDDR 0xFF) ;;
  DATA_IN ;;
  emit (PowerDDR true) ;;
  WR_HIGH ;;
  OE_HIGH ;;
  modify (set_isp_hiaddr 0).

Definition ispDisconnect : M unit :=
  DATA_IN ;;
  emit (ControlDDR 0x00) ;;
  VDD_LOW ;;
  VPP_LOW ;;
  emit (PowerDDR false).

Definition ispEnterProgrammingMode : M Z := avr_progMode.

(** The extended-address load of [ispUpdateExtended], oldest first. *)
Definition extended_load (curr_hi : Z) : list event :=
  [DataDir true; Drive XA0 LOW; Drive XA1 LOW; Drive BS1 LOW; Drive BS2 HIGH;
   DataPort (u8 curr_hi);
   Drive XTAIL HIGH; DelayUs 5; Drive XTAIL LOW; DelayUs 5].

Definition ispUpdateExtended (address : Z) : M unit :=
  let curr_hi := Z.land (Z.shiftr address 17) 0xFF in
  hi <- get isp_hiaddr ;;
  if Z.lxor hi curr_hi =? 0 then ret tt
  else
    modify (set_isp_hiaddr curr_hi) ;;
    DATA_OUT ;;
    XA0_LOW ;; XA1_LOW ;; BS1_LOW ;; BS2_HIGH ;;
    DATA_PORT curr_hi ;;
    puls_xt1.

Definition parallelReadFlash (address : Z) : M Z :=
  avr_loadComm 0x02 ;;
  ispUpdateExtended address ;;
  avr_loadAdd (Z.shiftr address 9) 1 ;;
  avr_loadAdd (Z.land (Z.shiftr address 1) 0xFF) 0 ;;
  DATA_IN ;;
  (if Z.land address 1 =? 0 then BS1_LOW else BS1_HIGH) ;;
  OE_LOW ;; _delay_us 1 ;;
  result <- DATA_PIN ;;
  OE_HIGH ;;
  ret result.

Definition serialReadFlash (address : Z) : M Z :=
  avr_serialExchange 0x4C 0x02 ;;
  avr_serialExchange 0x0C (Z.land (Z.shiftr address 1) 0xFF) ;;
  avr_serialExchange 0x1C (Z.shiftr address 9) ;;
  avr_serialExchange 0x68 0x00 ;;
  if Z.land address 1 =? 0 then
    avr_serialExchange 0x68 0x00 ;;
    avr_serialExchange 0x6C 0x00
  else
    avr_serialExchange 0x78 0x00 ;;
    avr_serialExchange 0x7C 0x00.

Definition ispReadFlash (address : Z) : M Z :=
  emit (Enter R_ispReadFlash address) ;;
  d <- get dev_type ;;
  if is_parallel d then parallelReadFlash address
  else serialReadFlash address.

Definition parallelWriteFlash (address data pollmode : Z) : M Z :=
  pc <- get prog_pagecounter ;;
  ps <- get prog_pagesize ;;
  when (pc >=? ps)
    (avr_loadComm 0x10 ;; modify (set_prog_pagecounter 0)) ;;
  if Z.land address 1 =? 0 then
    modify (set_low_byte data) ;;
    pc <- get prog_pagecounter ;;
    modify (set_prog_pagecounter (u8 (pc + 1))) ;;
    ret 0
  else
    avr_loadAdd (Z.land (Z.shiftr address 1) 0xFF) 0 ;;
    XA0_HIGH ;; XA1_LOW ;;
    lb <- get low_byte ;;
    DATA_PORT lb ;;
    puls_xt1 ;;
    BS1_HIGH ;;
    DATA_PORT data ;;
    puls_xt1 ;;
    PAGEL_HIGH ;; _delay_us 1 ;;
    PAGEL_LOW ;; _delay_us 1 ;;
    pc <- get prog_pagecounter ;;
    modify (set_prog_pagecounter (u8 (pc + 1))) ;;
    ret 0.

Definition serialWriteFlash (address data pollmode : Z) : M Z :=
  pc <- get prog_pagecounter ;;
  ps <- get prog_pagesize ;;
  when (pc >=? ps)
    (avr_serialExchange 0x4C 0x10 ;; modify (set_prog_pagecounter 0)) ;;
  if Z.land address 1 =? 0 then
    modify (set_low_byte data) ;;
    pc <- get prog_pagecounter ;;
    modify (set_prog_pagecounter (u8 (pc + 1))) ;;
    ret 0
  else
    avr_serialExchange 0x0C (Z.land (Z.shiftr address 1) 0xFF) ;;
    lb <- get low_byte ;;
    avr_serialExchange 0x2C lb ;;
    avr_serialExchange 0x3C data ;;
    avr_serialExchange 0x7D 0x00 ;;
    avr_serialExchange 0x7C 0x00 ;;
    pc <- get prog_pagecounter ;;
    modify (set_prog_pagecounter (u8 (pc + 1))) ;;
    ret 0.

Definition ispWriteFlash (address data pollmode : Z) : M Z :=
  emit (Enter R_ispWriteFlash address) ;;
  d <- get dev_type ;;
  if is_parallel d then parallelWriteFlash address data pollmode
  else serialWriteFlash address data pollmode.

Definition ispFlushPage (address pollvalue : Z) : M Z :=
  emit (Enter R_ispFlushPage address) ;;
  d <- get dev_type ;;
  if is_parallel d then
    avr_loadAdd (Z.shiftr address 9) 1 ;;
    ispUpdateExtended address ;;
    WR_LOW ;; _delay_us 1 ;;
    WR_HIGH ;; _delay_ms 8 ;;
    XA1_HIGH ;; XA0_LOW ;;
    DATA_PORT 0x00 ;;
    puls_xt1 ;;
    ret 0
  else
    avr_serialExchange 0x1C (Z.shiftr address 9) ;;
    avr_serialExchange 0x64 0x00 ;;
    avr_serialExchange 0x6C 0x00 ;;
    _delay_ms 8 ;;
    avr_serialExchange 0x4C 0x00 ;;
    ret 0.

(** [address] is a [uint16_t] here: callers pass [u16] of their value. *)
Definition ispReadEEPROM (address : Z) : M Z :=
  emit (Enter R_ispReadEEPROM address) ;;
  d <- get dev_type ;;
  if is_parallel d then
    avr_loadComm 0x03 ;;
    avr_loadAdd (Z.land address 0xFF) 1 ;;
    avr_loadAdd (Z.land address 0xFF) 0 ;;
    DATA_IN ;;
    BS1_LOW ;; OE_LOW ;; _delay_us 1 ;;
    result <- DATA_PIN ;;
    OE_HIGH ;;
    ret result
  else
    avr_serialExchange 0x4C 0x03 ;;
    avr_serialExchange 0x0C (Z.land address 0xFF) ;;
    avr_serialExchange 0x1C (Z.shiftr address 8) ;;
    avr_serialExchange 0x68 0x00 ;;
    avr_serialExchange 0x6C 0x00.

Definition ispWriteEEPROM (address data : Z) : M Z :=
  emit (Enter R_ispWriteEEPROM address) ;;
  d <- get dev_type ;;
  if is_parallel d then ret 0
  else
    avr_serialExchange 0x4C 0x11 ;;
    avr_serialExchange 0x0C (Z.land address 0xFF) ;;
    avr_serialExchange 0x1C (Z.shiftr address 8) ;;
    avr_serialExchange 0x2C data ;;
    avr_serialExchange 0x6D 0x00 ;;
    avr_serialExchange 0x64 0x00 ;;
    avr_serialExchange 0x6C 0x00 ;;
    avr_bsySerial ;;
    ret 0.

(** ** main.c: the command state machine *)

(** The function codes of a setup packet ([data[1]]).  usbasp.h, which
    numbers them, is not part of the sources: the numbering is the parameter
    [func_of] below. *)
Inductive usbasp_func : Type :=
| USBASP_FUNC_CONNECT | USBASP_FUNC_DISCONNECT
| USBASP_FUNC_READFLASH | USBASP_FUNC_READEEPROM
| USBASP_FUNC_ENABLEPROG
| USBASP_FUNC_WRITEFLASH | USBASP_FUNC_WRITEEEPROM
| USBASP_FUNC_SETLONGADDRESS | USBASP_FUNC_SETISPSCK
| USBASP_FUNC_TPI_CONNECT | USBASP_FUNC_TPI_DISCONNECT
| USBASP_FUNC_TPI_READBLOCK | USBASP_FUNC_TPI_WRITEBLOCK
| USBASP_FUNC_GETCAPABILITIES
| USBASP_FUNC_other.

(** Constants of usbasp.h and the data the TPI collaborator returns. *)
Variable func_of : Z -> usbasp_func.
Variable PROG_BLOCKFLAG_FIRST : Z.
Variable PROG_BLOCKFLAG_LAST : Z.
Variable USBASP_ISP_SCK_8 : Z.
Variable USBASP_CAP_0_TPI : Z.
Variable SLOW_SCK_NUM : Z.
Variable tpi_read_data : Z -> Z -> list Z.

(** The clock of the build, and [TPI_OP_SSTCS(TPISR)] of tpi_defs.h. *)
Variable F_CPU : Z.
Variable TPI_OP_SSTCS_TPISR : Z.

Definition get_prog {A : Type} (f : ProgrammingState -> A) : M A :=
  get (fun s => f (prog s)).
Definition mod_prog (f : ProgrammingState -> ProgrammingState) : M unit :=
  modify (fun s => set_prog (f (prog s)) s).

Definition byte (i : nat) (data : list Z) : Z := u8 (nth i data 0).

Fixpoint set_nth (i : nat) (v : Z) (l : list Z) : list Z :=
  match i, l with
  | _, [] => []
  | O, _ :: l' => v :: l'
  | S i', x :: l' => x :: set_nth i' v l'
  end.

Definition set_reply (i : nat) (v : Z) : M unit :=
  modify (fun s => set_replyBuffer (set_nth i (u8 v) (replyBuffer s)) s).

(** [(data[hi] << 8) | data[lo]], an [int]. *)
Definition word_of (data : list Z) (lo hi : nat) : Z :=
  Z.lor (Z.shiftl (byte hi data) 8) (byte lo data).

(** [if (!prog.address_newmode) prog.address = (data[3] << 8) | data[2];] *)
Definition short_address (data : list Z) : M unit :=
  nm <- get_prog address_newmode ;;
  when (nm =? 0) (mod_prog (set_address (int_to_ulong (word_of data 2 3)))).

Definition set_length (data : list Z) : M unit :=
  mod_prog (set_nbytes (u16 (word_of data 6 7))).

Definition usbFunctionSetup (data : list Z) : M Z :=
  match func_of (byte 1 data) with
  | USBASP_FUNC_CONNECT =>
      p <- SLOW_SCK_PIN ;;
      (if Z.land p (Z.shiftl 1 SLOW_SCK_NUM) =? 0
       then ispSetSCKOption USBASP_ISP_SCK_8
       else (o <- get_prog sck_option ;; ispSetSCKOption o)) ;;
      mod_prog (set_address_newmode 0) ;;
      emit (Led true) ;;
      ispConnect ;;
      ret 0
  | USBASP_FUNC_DISCONNECT =>
      ispDisconnect ;;
      emit (Led false) ;;
      ret 0
  | USBASP_FUNC_READFLASH =>
      short_address data ;;
      set_length data ;;
      mod_prog (set_state PROG_STATE_READFLASH) ;;
      ret 0xff
  | USBASP_FUNC_READEEPROM =>
      short_address data ;;
      set_length data ;;
      mod_prog (set_state PROG_STATE_READEEPROM) ;;
      ret 0xff
  | USBASP_FUNC_ENABLEPROG =>
      r <- ispEnterProgrammingMode ;;
      set_reply 0 r ;;
      ret 1
  | USBASP_FUNC_WRITEFLASH =>
      short_address data ;;
      mod_prog (set_pagesize (byte 4 data)) ;;
      mod_prog (set_blockflags (Z.land (byte 5 data) 0x0F)) ;;
      mod_prog (fun p =>
        set_pagesize
          (u16 (pagesize p + Z.shiftl (Z.land (byte 5 data) 0xF0) 4)) p) ;;
      bf <- get_prog blockflags ;;
      when (negb (Z.land bf PROG_BLOCKFLAG_FIRST =? 0))
        (mod_prog (fun p => set_pagecounter (u8 (pagesize p)) p)) ;;
      set_length data ;;
      mod_prog (set_state PROG_STATE_WRITEFLASH) ;;
      ret 0xff
  | USBASP_FUNC_WRITEEEPROM =>
      short_address data ;;
      mod_prog (set_pagesize 0) ;;
      mod_prog (set_blockflags 0) ;;
      set_length data ;;
      mod_prog (set_state PROG_STATE_WRITEEEPROM) ;;
      ret 0xff
  | USBASP_FUNC_SETLONGADDRESS =>
      mod_prog (set_address_newmode 1) ;;
      mod_prog (set_address
        (byte 2 data + Z.shiftl (byte 3 data) 8 + Z.shiftl (byte 4 data) 16
         + Z.shiftl (byte 5 data) 24)) ;;
      ret 0
  | USBASP_FUNC_SETISPSCK =>
      mod_prog (set_sck_option (byte 2 data)) ;;
      set_reply 0 0 ;;
      ret 1
  | USBASP_FUNC_TPI_CONNECT =>
      emit (Tpi TPI_set_delay
              (Z.lor (byte 2 data) (Z.shiftl (byte 3 data) 8)) 0) ;;
      emit (IspOut [ISP_RST] HIGH) ;;
      emit (IspDDR [ISP_RST] true) ;;
      clockWait fuel F_CPU 3 ;;
      emit (IspOut [ISP_RST] LOW) ;;
      emit (Led true) ;;
      clockWait fuel F_CPU 16 ;;
      emit (Tpi TPI_init 0 0) ;;
      ret 0
  | USBASP_FUNC_TPI_DISCONNECT =>
      emit (Tpi TPI_send_byte (u8 TPI_OP_SSTCS_TPISR) 0) ;;
      emit (Tpi TPI_send_byte 0 0) ;;
      clockWait fuel F_CPU 10 ;;
      emit (IspOut [ISP_RST] HIGH) ;;
      clockWait fuel F_CPU 5 ;;
      emit (IspOut [ISP_RST] LOW) ;;
      clockWait fuel F_CPU 5 ;;
      emit (IspDDR [ISP_RST; ISP_SCK; ISP_MOSI] false) ;;
      emit (IspOut [ISP_RST; ISP_SCK; ISP_MOSI] LOW) ;;
      emit (Led false) ;;
      ret 0
  | USBASP_FUNC_TPI_READBLOCK =>
      mod_prog (set_address (int_to_ulong (word_of data 2 3))) ;;
      set_length data ;;
      mod_prog (set_state PROG_STATE_TPI_READ) ;;
      ret 0xff
  | USBASP_FUNC_TPI_WRITEBLOCK =>
      mod_prog (set_address (int_to_ulong (word_of data 2 3))) ;;
      set_length data ;;
      mod_prog (set_state PROG_STATE_TPI_WRITE) ;;
      ret 0xff
  | USBASP_FUNC_GETCAPABILITIES =>
      set_reply 0 USBASP_CAP_0_TPI ;;
      set_reply 1 0 ;; set_reply 2 0 ;; set_reply 3 0 ;;
      ret 4
  | USBASP_FUNC_other => ret 0
  end.

Definition reading_state (st : prog_state) : bool :=
  match st with
  | PROG_STATE_READFLASH | PROG_STATE_READEEPROM | PROG_STATE_TPI_READ => true
  | _ => false
  end.

Definition writing_state (st : prog_state) : bool :=
  match st with
  | PROG_STATE_WRITEFLASH | PROG_STATE_WRITEEEPROM | PROG_STATE_TPI_WRITE => true
  | _ => false
  end.

Definition is_state (a b : prog_state) : bool :=
  match a, b with
  | PROG_STATE_IDLE, PROG_STATE_IDLE
  | PROG_STATE_WRITEFLASH, PROG_STATE_WRITEFLASH
  | PROG_STATE_READFLASH, PROG_STATE_READFLASH
  | PROG_STATE_READEEPROM, PROG_STATE_READEEPROM
  | PROG_STATE_WRITEEEPROM, PROG_STATE_WRITEEEPROM
  | PROG_STATE_TPI_READ, PROG_STATE_TPI_READ
  | PROG_STATE_TPI_WRITE, PROG_STATE_TPI_WRITE => true
  | _, _ => false
  end.

(** Body of the loop of [usbFunctionRead]: produces [data[i]]. *)
Definition read_byte : M Z :=
  st <- get_prog state ;;
  a <- get_prog address ;;
  b <- (if is_state st PROG_STATE_READFLASH then ispReadFlash a
        else ispReadEEPROM (u16 a)) ;;
  mod_prog (set_address (u32 (a + 1))) ;;
  ret b.

Fixpoint read_bytes (n : nat) : M (list Z) :=
  match n with
  | O => ret []
  | S n' => b <- read_byte ;; l <- read_bytes n' ;; ret (b :: l)
  end.

(** Returns the bytes stored into [data] and the return value. *)
Definition usbFunctionRead (len : Z) : M (list Z * Z) :=
  st <- get_prog state ;;
  if negb (reading_state st) then ret ([], 0xff)
  else if is_state st PROG_STATE_TPI_READ then
    a <- get_prog address ;;
    emit (Tpi TPI_read_block a len) ;;
    mod_prog (set_address (u32 (a + len))) ;;
    ret (tpi_read_data a len, len)
  else
    l <- read_bytes (Z.to_nat len) ;;
    when (len <? 8) (mod_prog (set_state PROG_STATE_IDLE)) ;;
    ret (l, len).

(** Body of the loop of [usbFunctionWrite] for the byte [d = data[i]];
    [retVal] is threaded through. *)
Definition write_byte (d : Z) (retVal : Z) : M Z :=
  st <- get_prog state ;;
  a <- get_prog address ;;
  (if is_state st PROG_STATE_WRITEFLASH then
     ps <- get_prog pagesize ;;
     if ps =? 0 then
       ispWriteFlash a d 1 ;; ret tt
     else
       ispWriteFlash a d 0 ;;
       mod_prog (fun p => set_pagecounter (u8 (pagecounter p - 1)) p) ;;
       pc <- get_prog pagecounter ;;
       if pc =? 0 then
         ispFlushPage a d ;;
         mod_prog (fun p => set_pagecounter (u8 (pagesize p)) p)
       else ret tt
   else
     ispWriteEEPROM (u16 a) d ;; ret tt) ;;
  mod_prog (fun p => set_nbytes (u16 (nbytes p - 1)) p) ;;
  n <- get_prog nbytes ;;
  r <- (if n =? 0 then
          mod_prog (set_state PROG_STATE_IDLE) ;;
          bf <- get_prog blockflags ;;
          pc <- get_prog pagecounter ;;
          ps <- get_prog pagesize ;;
          (if negb (Z.land bf PROG_BLOCKFLAG_LAST =? 0) && negb (pc =? ps)
           then ispFlushPage a d ;; ret tt
           else ret tt) ;;
          ret 1
        else ret retVal) ;;
  mod_prog (set_address (u32 (a + 1))) ;;
  ret r.

Fixpoint write_bytes (data : list Z) (retVal : Z) : M Z :=
  match data with
  | [] => ret retVal
  | d :: data' => r <- write_byte (u8 d) retVal ;; write_bytes data' r
  end.

(** [len] is the length of [data]. *)
Definition usbFunctionWrite (data : list Z) : M Z :=
  let len := Z.of_nat (length data) in
  st <- get_prog state ;;
  if negb (writing_state st) then ret 0xff
  else if is_state st PROG_STATE_TPI_WRITE then
    a <- get_prog address ;;
    emit (Tpi TPI_write_block a len) ;;
    mod_prog (set_address (u32 (a + len))) ;;
    mod_prog (fun p => set_nbytes (u16 (nbytes p - len)) p) ;;
    n <- get_prog nbytes ;;
    if n <=? 0 then mod_prog (set_state PROG_STATE_IDLE) ;; ret 1
    else ret 0
  else write_bytes data 0.

End Firmware.

(** ** Machines and constants used in the examples *)

(** The machine at power-on, as the initialisers of isp.c and main.c leave
    it, in front of the environment [p]. *)
Definition boot (p : nat -> Z) : machine :=
  mkMachine 0 0 0 0 0 (mkProg PROG_STATE_IDLE 0 0 0 0 0 0 0)
    [0; 0; 0; 0; 0; 0; 0; 0] p 0 [].

(** A target whose lines always read high, and one whose lines read low. *)
Definition pins_high : nat -> Z := fun _ => 0xFF.
Definition pins_low : nat -> Z := fun _ => 0x00.

(** The numbering of the function codes in upstream USBasp, and its block
    flags; the examples instantiate the parameters of the firmware with
    them. *)
Definition func_of_usbasp (v : Z) : usbasp_func :=
  match v with
  | 1 => USBASP_FUNC_CONNECT
  | 2 => USBASP_FUNC_DISCONNECT
  | 4 => USBASP_FUNC_READFLASH
  | 5 => USBASP_FUNC_ENABLEPROG
  | 6 => USBASP_FUNC_WRITEFLASH
  | 7 => USBASP_FUNC_READEEPROM
  | 8 => USBASP_FUNC_WRITEEEPROM
  | 9 => USBASP_FUNC_SETLONGADDRESS
  | 10 => USBASP_FUNC_SETISPSCK
  | 11 => USBASP_FUNC_TPI_CONNECT
  | 12 => USBASP_FUNC_TPI_DISCONNECT
  | 15 => USBASP_FUNC_TPI_READBLOCK
  | 16 => USBASP_FUNC_TPI_WRITEBLOCK
  | 127 => USBASP_FUNC_GETCAPABILITIES
  | _ => USBASP_FUNC_other
  end.
Definition FLAG_FIRST : Z := 1.
Definition FLAG_LAST : Z := 2.
Definition no_tpi_data : Z -> Z -> list Z := fun _ _ => [].

(** A machine in the middle of a paged flash write to a short-bus target. *)
Definition mid_write (p : nat -> Z) : machine :=
  set_dev_type 1
    (set_prog (mkProg PROG_STATE_WRITEFLASH 0 1 0x100 64 128 FLAG_LAST 100)
       (boot p)).

(** A machine that has just accepted a paged flash write of [n] bytes with
    page size [P] and block flags [flags]: the counter is armed as the
    first-block flag does. *)
Definition armed_write (p : nat -> Z) (P n flags : Z) : machine :=
  set_prog (mkProg PROG_STATE_WRITEFLASH 0 0 0 n P flags (u8 P)) (boot p).

(** A serial (high-voltage serial programming) target. *)
Definition serial_target (p : nat -> Z) : machine := set_dev_type 2 (boot p).

(** The data phase of a write command, delivered in the chunks [chunks];
    returns what [usbFunctionWrite] returned for each chunk. *)
Fixpoint write_stream (fuel : nat) (last : Z) (chunks : list (list Z))
    : M (list Z) :=
  match chunks with
  | [] => ret []
  | c :: cs =>
      r <- usbFunctionWrite fuel last c ;;
      rs <- write_stream fuel last cs ;;
      ret (r :: rs)
  end.

(** ** Reading traces *)

(** The machine after [n] more port reads and the events [new] (newest
    first); nothing else changes. *)
Definition advance (n : nat) (new : list event) (s : machine) : machine :=
  set_trace (new ++ trace s) (set_reads (n + reads s) s).

Definition count_events (f : event -> bool) (t : list event) : nat :=
  length (filter f t).

Definition is_enter (r : routine) (e : event) : bool :=
  match e, r with
  | Enter R_ispReadFlash _, R_ispReadFlash
  | Enter R_ispWriteFlash _, R_ispWriteFlash
  | Enter R_ispFlushPage _, R_ispFlushPage
  | Enter R_ispReadEEPROM _, R_ispReadEEPROM
  | Enter R_ispWriteEEPROM _, R_ispWriteEEPROM => true
  | _, _ => false
  end.

(** How often the entry point [r] was called in a trace. *)
Definition calls (r : routine) (t : list event) : nat :=
  count_events (is_enter r) t.

(** Events that reach the target, as opposed to instrumentation. *)
Definition on_bus (e : event) : bool :=
  match e with
  | Signature _ | Enter _ _ => false
  | _ => true
  end.

Definition bus_events (t : list event) : list event := filter on_bus t.

Definition is_signature (e : event) : bool :=
  match e with
  | Signature _ => true
  | _ => false
  end.

(** Events on the supply and programming-voltage lines; every entry
    sequence of [avr_progMode] starts with one. *)
Definition touches_power (e : event) : bool :=
  match e with
  | Drive VPP _ | Drive VDD _ => true
  | _ => false
  end.

(** The page-write command 0x10 put on the data bus of a parallel target. *)
Definition is_page_write_command (e : event) : bool :=
  match e with
  | DataPort v => v =? 0x10
  | _ => false
  end.

(** The address segment that [ispUpdateExtended] caches: bits 17 to 24. *)
Definition high_segment (a : Z) : Z := Z.land (Z.shiftr a 17) 0xFF.

(** In the traces of [ispReadFlash] and [ispFlushPage], BS2 is driven high
    by the extended-address load and by nothing else. *)
Definition is_extended_load (e : event) : bool :=
  match e with
  | Drive BS2 HIGH => true
  | _ => false
  end.

Definition extended_loads (t : list event) : nat :=
  count_events is_extended_load t.

(** ** The serial frame, as a function of the environment *)

Definition bit_level (x k : Z) : level :=
  if Z.land (Z.shiftr x k) 1 =? 0 then LOW else HIGH.

(** Events of one clocked bit (oldest first); [v] is the sample taken. *)
Definition bit_events (command dat i v : Z) : list event :=
  [DelayUs 1; Drive SII (bit_level command (10 - i));
   Drive SDI (bit_level dat (10 - i)); Drive SCI HIGH; DelayUs 1;
   Drive SCI LOW; Sample v].

Definition bit_value (i v request : Z) : Z :=
  if Z.land v 1 =? 0 then request else Z.lor request (Z.shiftl 1 (10 - i)).

(** Events (oldest first) and final accumulator of the bits [l] of a frame
    whose first sample is read number [start]. *)
Fixpoint frame_bits (c d : Z) (l : list Z) (p : nat -> Z) (start : nat)
    (request : Z) : list event * Z :=
  match l with
  | [] => ([], request)
  | i :: l' =>
      let v := u8 (p start) in
      let r := frame_bits c d l' p (S start) (bit_value i v request) in
      (bit_events c d i v ++ fst r, snd r)
  end.

Definition frame_of (instr data : Z) (p : nat -> Z) (start : nat) :=
  frame_bits (Z.shiftl (u8 instr) 2) (Z.shiftl (u8 data) 2)
    [0;1;2;3;4;5;6;7;8;9;10] p start 0.

Definition exchange_events (instr data : Z) (p : nat -> Z) (start : nat)
    : list event :=
  DataDir false :: fst (frame_of instr data p start).

Definition exchange_result (instr data : Z) (p : nat -> Z) (start : nat) : Z :=
  u8 (Z.shiftr (snd (frame_of instr data p start)) 3).

(** Events of consecutive frames (oldest first). *)
Fixpoint frames (l : list (Z * Z)) (p : nat -> Z) (start : nat) : list event :=
  match l with
  | [] => []
  | (instr, data) :: l' =>
      exchange_events instr data p start ++ frames l' p (11 + start)
  end.

(** ** The parallel register loads, as event lists (oldest first) *)

Definition pulse_events : list event :=
  [Drive XTAIL HIGH; DelayUs 5; Drive XTAIL LOW; DelayUs 5].

(** Events of [avr_loadComm command] on a device of type [d]. *)
Definition loadComm_events (d command : Z) : list event :=
  if is_parallel d then
    [DataDir true; DataPort (u8 command); Drive XA1 HIGH; Drive XA0 LOW;
     Drive BS1 LOW]
    ++ (if d =? 0 then [Drive BS2 LOW] else [])
    ++ [DelayUs 1] ++ pulse_events
  else [].

(** Events of [avr_loadAdd add hi_lo] on a device of type [d]. *)
Definition loadAdd_events (d add hi_lo : Z) : list event :=
  if is_parallel d then
    [Drive XA1 LOW; Drive XA0 LOW;
     Drive BS1 (if hi_lo =? 0 then LOW else HIGH)]
    ++ (if d =? 0 then [Drive BS2 LOW] else [])
    ++ [DataDir true; DataPort (u8 add); DelayUs 5] ++ pulse_events
  else [].

(** ** Detection, as event lists (oldest first) *)

(** Events, result and samples of [avr_getId idadd] on a device of type [d]
    whose first sample is read number [start]; the [Signature] event that
    closes the call is not included. *)
Definition getId_result (d idadd : Z) (p : nat -> Z) (start : nat) : Z :=
  if is_parallel d then u8 (p start)
  else exchange_result 0x6C 0x00 p (33 + start).

Definition getId_events (d idadd : Z) (p : nat -> Z) (start : nat)
    : list event :=
  if is_parallel d then
    loadComm_events d 0x08 ++ loadAdd_events d idadd 0
    ++ [DataDir false; Drive OE LOW; DelayMs 1; Sample (u8 (p start));
        Drive OE HIGH]
  else
    frames [(0x4C, 0x08); (0x0C, idadd); (0x68, 0x00); (0x6C, 0x00)] p start.

Definition getId_reads (d : Z) : nat := if is_parallel d then 1 else 44.




Definition no_power (e : event) : bool := negb (touches_power e).



(** ** Flash writes, as event lists (oldest first) *)

(** The page-commit check that opens [parallelWriteFlash] and
    [serialWriteFlash]: whether it fires, what it puts on the bus, how many
    samples it takes and the counter it leaves. *)
Definition page_commit_due (s : machine) : bool :=
  prog_pagecounter s >=? prog_pagesize s.

Definition page_commit_events (s : machine) : list event :=
  if page_commit_due s then
    if is_parallel (dev_type s) then loadComm_events (dev_type s) 0x10
    else exchange_events 0x4C 0x10 (pin s) (reads s)
  else [].

Definition page_commit_reads (s : machine) : nat :=
  if page_commit_due s then
    if is_parallel (dev_type s) then 0 else 11
  else 0.

Definition counter_after_commit (s : machine) : Z :=
  if page_commit_due s then 0 else prog_pagecounter s.

(** Loading one word into the page buffer of a parallel target: low
    address byte, low data byte and clock pulse, high data byte and clock
    pulse, PAGEL strobe. *)
Definition parallel_word_load (d a lb data : Z) : list event :=
  loadAdd_events d (Z.land (Z.shiftr a 1) 0xFF) 0
  ++ [Drive XA0 HIGH; Drive XA1 LOW; DataPort (u8 lb)] ++ pulse_events
  ++ [Drive BS1 HIGH; DataPort (u8 data)] ++ pulse_events
  ++ [Drive PAGEL HIGH; DelayUs 1; Drive PAGEL LOW; DelayUs 1].

(** The same on a serial target: five frames. *)
Definition serial_word_load (a lb data : Z) (p : nat -> Z) (start : nat)
    : list event :=
  frames [(0x0C, Z.land (Z.shiftr a 1) 0xFF); (0x2C, lb); (0x3C, data);
          (0x7D, 0x00); (0x7C, 0x00)] p start.

(** Events of [parallelReadFlash] before and after the place of the
    extended-address load; [v] is the byte sampled from the data bus. *)
Definition read_flash_prefix (d a : Z) : list event :=
  Enter R_ispReadFlash a :: loadComm_events d 0x02.

Definition read_flash_suffix (d a v : Z) : list event :=
  loadAdd_events d (Z.shiftr a 9) 1
  ++ loadAdd_events d (Z.land (Z.shiftr a 1) 0xFF) 0
  ++ [DataDir false; Drive BS1 (if Z.land a 1 =? 0 then LOW else HIGH);
      Drive OE LOW; DelayUs 1; Sample v; Drive OE HIGH].

(** ** The write data phase without the access layer *)

(** What one byte of a flash write does to [prog], and how many page flushes
    it issues: the body of the loop of [usbFunctionWrite] for
    [PROG_STATE_WRITEFLASH].  The first component of the count is the flush
    triggered by the page counter, the second the flush forced at the end of
    the last block. *)
Definition flash_byte (last : Z) (p : ProgrammingState)
    : ProgrammingState * (nat * nat) :=
  let paged := negb (pagesize p =? 0) in
  let pc1 := if paged then u8 (pagecounter p - 1) else pagecounter p in
  let hit := paged && (pc1 =? 0) in
  let pc2 := if hit then u8 (pagesize p) else pc1 in
  let n1 := u16 (nbytes p - 1) in
  let fin := n1 =? 0 in
  let forced :=
    fin && (negb (Z.land (blockflags p) last =? 0) && negb (pc2 =? pagesize p)) in
  (mkProg (if fin then PROG_STATE_IDLE else state p) (sck_option p)
     (address_newmode p) (u32 (address p + 1)) n1 (pagesize p) (blockflags p)
     pc2,
   (if hit then 1%nat else 0%nat, if forced then 1%nat else 0%nat)).

(** [k] bytes in a row. *)
Fixpoint flash_bytes (last : Z) (k : nat) (p : ProgrammingState)
    : ProgrammingState * (nat * nat) :=
  match k with
  | O => (p, (0%nat, 0%nat))
  | S k' =>
      let r1 := flash_byte last p in
      let r2 := flash_bytes last k' (fst r1) in
      (fst r2, ((fst (snd r1) + fst (snd r2))%nat,
                (snd (snd r1) + snd (snd r2))%nat))
  end.

(** ** clock.c *)

(** Number of turns of the outer loop of [clockWait time]. *)
Definition clockWait_turns (time : Z) : nat :=
  if u8 time =? 0 then 256%nat else Z.to_nat (u8 time).

(** ** Reading the serial frame *)

Definition bit0 (v : Z) : Z := if Z.land v 1 =? 0 then 0 else 1.

(** The byte whose bits, most significant first, are bit 0 of the eight
    reads that start at read number [start]. *)
Definition msb_first (p : nat -> Z) (start : nat) : Z :=
  fold_left (fun acc i => 2 * acc + bit0 (u8 (p (i + start)%nat)))
    (seq 0 8) 0.

(** The levels a line is driven to in a trace, in the order of the trace. *)
Definition line_eqb (a b : line) : bool :=
  match a, b with
  | VPP, VPP | VDD, VDD | XTAIL, XTAIL | XA0, XA0 | XA1, XA1 | BS1, BS1
  | BS2, BS2 | PAGEL, PAGEL | WR, WR | OE, OE | SCI, SCI | SDI, SDI
  | SII, SII | SDO, SDO => true
  | _, _ => false
  end.

Fixpoint levels_of (l : line) (t : list event) : list level :=
  match t with
  | [] => []
  | Drive l' v :: t' =>
      if line_eqb l l' then v :: levels_of l t' else levels_of l t'
  | _ :: t' => levels_of l t'
  end.

(** The eleven bits of a frame that carries the byte [x]: one leading zero,
    the eight bits of [x] from bit 7 down to bit 0, two trailing zeros. *)
Definition frame_levels (x : Z) : list level :=
  LOW
  :: map (fun j => if Z.testbit (u8 x) j then HIGH else LOW)
       [7; 6; 5; 4; 3; 2; 1; 0]
  ++ [LOW; LOW].

Definition level_eqb (a b : level) : bool :=
  match a, b with
  | LOW, LOW | HIGH, HIGH => true
  | _, _ => false
  end.

Fixpoint levels_eqb (a b : list level) : bool :=
  match a, b with
  | [], [] => true
  | x :: a', y :: b' => level_eqb x y && levels_eqb a' b'
  | _, _ => false
  end.

Definition is_write_strobe (e : event) : bool :=
  match e with
  | Drive WR LOW => true
  | _ => false
  end.


(** The state a streaming command of [usbFunctionSetup] selects for the data
    phase; [None] for the commands answered at once. *)
Definition streaming_state (f : usbasp_func) : option prog_state :=
  match f with
  | USBASP_FUNC_READFLASH => Some PROG_STATE_READFLASH
  | USBASP_FUNC_READEEPROM => Some PROG_STATE_READEEPROM
  | USBASP_FUNC_WRITEFLASH => Some PROG_STATE_WRITEFLASH
  | USBASP_FUNC_WRITEEEPROM => Some PROG_STATE_WRITEEEPROM
  | USBASP_FUNC_TPI_READBLOCK => Some PROG_STATE_TPI_READ
  | USBASP_FUNC_TPI_WRITEBLOCK => Some PROG_STATE_TPI_WRITE
  | _ => None
  end.

(** The commands whose branch waits in [clockWait]. *)
Definition waits_on_clock (f : usbasp_func) : bool :=
  match f with
  | USBASP_FUNC_TPI_CONNECT | USBASP_FUNC_TPI_DISCONNECT => true
  | _ => false
  end.

(** The number of write pulses (WR driven low) in a trace. *)
Definition write_strobes (t : list event) : nat :=
  count_events is_write_strobe t.

(** A machine in the data phase of a flash read of [n] bytes from [a], and
    one in the data phase of a TPI write of [n] bytes. *)
Definition flash_read (p : nat -> Z) (a n : Z) : machine :=
  set_prog (mkProg PROG_STATE_READFLASH 0 0 a n 0 0 0) (boot p).

Definition tpi_write (p : nat -> Z) (n : Z) : machine :=
  set_prog (mkProg PROG_STATE_TPI_WRITE 0 0 0 n 0 0 0) (boot p).
(** * Proofs *)

Arguments u8 : simpl never.
Arguments u16 : simpl never.
Arguments u32 : simpl never.

(** ** Running the firmware symbolically *)

(** Unfolds the monad, the pin macros, the setters and the projections.  It
    leaves the Z operations and the calls that the [_run] lemmas below
    rewrite. *)
Ltac fw_unfold :=
  cbv beta iota zeta delta
    [bind ret get modify emit when get_prog mod_prog for_each
     VPP_HIGH VPP_LOW VDD_HIGH VDD_LOW XTAIL_HIGH XTAIL_LOW XA0_HIGH XA0_LOW
     XA1_HIGH XA1_LOW BS1_HIGH BS1_LOW BS2_HIGH BS2_LOW PAGEL_HIGH PAGEL_LOW
     WR_HIGH WR_LOW OE_HIGH OE_LOW SCI_HIGH SCI_LOW SDI_HIGH SDI_LOW
     SII_HIGH SII_LOW SDO_LOW DATA_IN DATA_OUT DATA_PORT _delay_us _delay_ms
     DATA_PIN SLOW_SCK_PIN read_port puls_xt1 avr_reset advance
     set_dev_type set_isp_hiaddr set_prog_pagecounter set_low_byte set_prog
     set_replyBuffer set_reads set_trace
     set_state set_sck_option set_address_newmode set_address set_nbytes
     set_pagesize set_blockflags set_pagecounter
     dev_type isp_hiaddr prog_pagesize prog_pagecounter low_byte prog
     replyBuffer pin reads trace
     state sck_option address_newmode address nbytes pagesize blockflags
     pagecounter fst snd].

Tactic Notation "fw_unfold" "in" hyp(H) :=
  cbv beta iota zeta delta
    [advance
     set_dev_type set_isp_hiaddr set_prog_pagecounter set_low_byte set_prog
     set_replyBuffer set_reads set_trace
     set_state set_sck_option set_address_newmode set_address set_nbytes
     set_pagesize set_blockflags set_pagecounter
     dev_type isp_hiaddr prog_pagesize prog_pagecounter low_byte prog
     replyBuffer pin reads trace
     state sck_option address_newmode address nbytes pagesize blockflags
     pagecounter fst snd] in H.

Ltac destruct_machine s :=
  destruct s as [m_dev m_hi m_psize m_pcount m_low
                 [p_state p_sck p_newmode p_addr p_nbytes p_psize p_flags
                  p_pcount]
                 m_reply m_pin m_reads m_trace].

Ltac list_norm :=
  repeat (progress (cbn [frames rev app Nat.add];
                    rewrite ?rev_app_distr; rewrite <- ?app_assoc)).

(** Equality of two machines that differ in their reads and traces. *)
Lemma machine_eq_intro a b c d e f g h r r' t t' :
  r = r' -> t = t' ->
  mkMachine a b c d e f g h r t = mkMachine a b c d e f g h r' t'.
Proof. intros -> ->; reflexivity. Qed.

Ltac machine_eq :=
  fw_unfold; apply machine_eq_intro;
  [try reflexivity; lia | try reflexivity; list_norm; try reflexivity].

Lemma bind_run {A B : Type} (m : M A) (k : A -> M B) s a s' :
  m s = Some (a, s') -> bind m k s = k a s'.
Proof. intros H; unfold bind; rewrite H; reflexivity. Qed.

Lemma advance_advance n m new old s :
  advance n new (advance m old s) = advance (n + m) (new ++ old) s.
Proof. destruct_machine s. machine_eq. Qed.

Lemma advance_0_nil s : advance 0 [] s = s.
Proof. destruct_machine s. reflexivity. Qed.

Lemma serial_bit_run c d i r s :
  serial_bit c d i r s =
  Some (bit_value i (u8 (pin s (reads s))) r,
        advance 1 (rev (bit_events c d i (u8 (pin s (reads s))))) s).
Proof.
  unfold serial_bit, bit_events, bit_level, bit_value.
  destruct (Z.land (Z.shiftr c (10 - i)) 1 =? 0),
           (Z.land (Z.shiftr d (10 - i)) 1 =? 0); reflexivity.
Qed.

Lemma serial_bits_run c d l : forall r s,
  serial_bits c d l r s =
  Some (snd (frame_bits c d l (pin s) (reads s) r),
        advance (length l) (rev (fst (frame_bits c d l (pin s) (reads s) r))) s).
Proof.
  induction l as [|i l IH]; intros r s.
  - cbn. rewrite advance_0_nil. reflexivity.
  - cbn [serial_bits frame_bits fst snd length].
    rewrite (bind_run _ _ _ _ _ (serial_bit_run c d i r s)).
    rewrite IH, advance_advance, rev_app_distr.
    replace (length l + 1)%nat with (S (length l)) by lia.
    reflexivity.
Qed.

Lemma exchange_run instr data s :
  avr_serialExchange instr data s =
  Some (exchange_result instr data (pin s) (reads s),
        advance 11 (rev (exchange_events instr data (pin s) (reads s))) s).
Proof.
  unfold avr_serialExchange, exchange_result, exchange_events, frame_of.
  unfold DATA_IN.
  rewrite (bind_run _ _ _ _ _ (eq_refl : emit (DataDir false) s = Some (tt, _))).
  rewrite (bind_run _ _ _ _ _ (serial_bits_run _ _ _ _ _)).
  reflexivity.
Qed.

Lemma avr_loadComm_run c s :
  avr_loadComm c s
  = Some (tt, advance 0 (rev (loadComm_events (dev_type s) c)) s).
Proof.
  destruct_machine s. unfold avr_loadComm, loadComm_events. fw_unfold.
  match goal with |- context [is_parallel ?d] =>
    destruct (is_parallel d), (d =? 0) end; reflexivity.
Qed.

Lemma avr_loadAdd_run a h s :
  avr_loadAdd a h s
  = Some (tt, advance 0 (rev (loadAdd_events (dev_type s) a h)) s).
Proof.
  destruct_machine s. unfold avr_loadAdd, loadAdd_events. fw_unfold.
  match goal with |- context [is_parallel ?d] =>
    destruct (is_parallel d), (d =? 0), (h =? 0) end; reflexivity.
Qed.

(** One step of symbolic execution: unfold, then run the exchanges and
    register loads that have come to the front. *)
Ltac fw_step :=
  fw_unfold;
  repeat (first [rewrite exchange_run | rewrite avr_loadComm_run
                | rewrite avr_loadAdd_run]; fw_unfold).

Ltac fw_case :=
  match goal with
  | |- context [if ?c then _ else _] => destruct c eqn:?
  end.

(** ** Counting events *)

Lemma count_events_app f l1 l2 :
  count_events f (l1 ++ l2) = (count_events f l1 + count_events f l2)%nat.
Proof. unfold count_events. rewrite filter_app, length_app. reflexivity. Qed.

Lemma count_events_cons f e l :
  count_events f (e :: l)
  = ((if f e then 1 else 0) + count_events f l)%nat.
Proof. unfold count_events. cbn [filter]. destruct (f e); reflexivity. Qed.

Lemma count_events_rev f l : count_events f (rev l) = count_events f l.
Proof.
  induction l as [|e l IH]; [reflexivity|].
  cbn [rev]. rewrite count_events_app, !count_events_cons, IH.
  unfold count_events at 2. cbn [filter length]. lia.
Qed.

(** Instrumentation is counted by predicates that ignore what is on the
    bus. *)
Lemma count_bus_only f l :
  (forall e, on_bus e = true -> f e = false) ->
  forallb on_bus l = true -> count_events f l = 0%nat.
Proof.
  intros Hf. induction l as [|e l IH]; intros Hl; [reflexivity|].
  cbn [forallb] in Hl. apply andb_true_iff in Hl. destruct Hl as [He Hl].
  rewrite count_events_cons, (Hf e He), IH by exact Hl. reflexivity.
Qed.

Lemma is_enter_bus r e : on_bus e = true -> is_enter r e = false.
Proof. destruct e; try reflexivity; discriminate. Qed.

Lemma exchange_on_bus i d p n : forallb on_bus (exchange_events i d p n) = true.
Proof. reflexivity. Qed.

Lemma loadComm_on_bus d c : forallb on_bus (loadComm_events d c) = true.
Proof.
  unfold loadComm_events. destruct (is_parallel d), (d =? 0); reflexivity.
Qed.

Lemma loadAdd_on_bus d a h : forallb on_bus (loadAdd_events d a h) = true.
Proof.
  unfold loadAdd_events.
  destruct (is_parallel d), (d =? 0), (h =? 0); reflexivity.
Qed.

Lemma calls_exchange r i d p n :
  count_events (is_enter r) (exchange_events i d p n) = 0%nat.
Proof. apply count_bus_only; [apply is_enter_bus | apply exchange_on_bus]. Qed.

Lemma calls_loadComm r d c :
  count_events (is_enter r) (loadComm_events d c) = 0%nat.
Proof. apply count_bus_only; [apply is_enter_bus | apply loadComm_on_bus]. Qed.

Lemma calls_loadAdd r d a h :
  count_events (is_enter r) (loadAdd_events d a h) = 0%nat.
Proof. apply count_bus_only; [apply is_enter_bus | apply loadAdd_on_bus]. Qed.

Ltac count_norm :=
  unfold calls, extended_loads;
  repeat first [rewrite count_events_app | rewrite count_events_rev
               | rewrite count_events_cons];
  rewrite ?calls_exchange, ?calls_loadComm, ?calls_loadAdd;
  cbn [is_enter].

Lemma loadComm_no_extended_load d c :
  count_events is_extended_load (loadComm_events d c) = 0%nat.
Proof.
  unfold loadComm_events.
  destruct (is_parallel d), (d =? 0); reflexivity.
Qed.

Lemma loadAdd_no_extended_load d a h :
  count_events is_extended_load (loadAdd_events d a h) = 0%nat.
Proof.
  unfold loadAdd_events.
  destruct (is_parallel d), (d =? 0), (h =? 0); reflexivity.
Qed.


Lemma bus_events_nonempty e l :
  In e l -> on_bus e = true -> bus_events l <> [].
Proof.
  intros Hin Hb E.
  assert (H : In e (bus_events l)) by (apply filter_In; split; assumption).
  rewrite E in H. destruct H.
Qed.

(** ** The busy-wait of serial writes *)

Lemma DATA_PIN_run s :
  DATA_PIN s =
  Some (u8 (pin s (reads s)), advance 1 [Sample (u8 (pin s (reads s)))] s).
Proof. reflexivity. Qed.

(** The loop of [avr_bsySerial] ends within 0xFFF samples; when the busy
    line never rises it ends with the reset of the target. *)
Lemma bsy_loop_run : forall (n : nat) delay s,
  0 <= delay < 0xFFF -> 0xFFF - delay <= Z.of_nat n ->
  exists k new, bsy_loop n delay s = Some (tt, advance k new s) /\
    (Z.of_nat k <= 0xFFF - delay) /\
    ((forall j, Z.land (u8 (pin s j)) 1 = 0) ->
     exists new', new = Drive VPP HIGH :: DelayMs 10 :: Drive VPP LOW :: new').
Proof.
  induction n as [|n IH]; intros delay s Hd Hn; [lia|].
  cbn [bsy_loop].
  rewrite (bind_run _ _ _ _ _ (DATA_PIN_run s)).
  destruct (Z.land (u8 (pin s (reads s))) 1 =? 0) eqn:Hp.
  - unfold _delay_us.
    rewrite (bind_run _ _ _ _ _ (eq_refl : emit (DelayUs 10) _ = Some (tt, _))).
    assert (Hu : u16 (delay + 1) = delay + 1)
      by (unfold u16; apply Z.mod_small; lia).
    rewrite Hu.
    destruct (delay + 1 =? 0xFFF) eqn:He.
    + exists 1%nat.
      exists [Drive VPP HIGH; DelayMs 10; Drive VPP LOW; DelayUs 10;
              Sample (u8 (pin s (reads s)))].
      split; [reflexivity|]. split; [lia|].
      intros _. eexists. reflexivity.
    + apply Z.eqb_neq in He.
      match goal with |- context [bsy_loop n ?d ?st] =>
        destruct (IH d st) as (k & new & Hrun & Hk & Hto); [lia | lia |] end.
      rewrite Hrun.
      exists (k + 1)%nat.
      exists (new ++ [DelayUs 10; Sample (u8 (pin s (reads s)))]). split.
      * f_equal. f_equal. destruct_machine s. machine_eq.
      * split; [lia|]. intros Hall.
        destruct (Hto Hall) as (new' & ->). eexists. reflexivity.
  - exists 1%nat. exists [Sample (u8 (pin s (reads s)))].
    split; [reflexivity|]. split; [lia|].
    intros Hall. rewrite Hall in Hp. discriminate.
Qed.

Lemma avr_bsySerial_run (fuel : nat) s :
  (0xFFF <= fuel)%nat ->
  exists k new, avr_bsySerial fuel s = Some (tt, advance k new s) /\
    ((forall j, Z.land (u8 (pin s j)) 1 = 0) ->
     exists new', new = Drive VPP HIGH :: DelayMs 10 :: Drive VPP LOW :: new').
Proof.
  intros Hf. unfold avr_bsySerial, _delay_us.
  rewrite (bind_run _ _ _ _ _ (eq_refl : emit (DelayUs 50) s = Some (tt, _))).
  match goal with |- context [bsy_loop fuel 0 ?st] =>
    destruct (bsy_loop_run fuel 0 st) as (k & new & Hrun & _ & Hto);
      [lia | lia |] end.
  rewrite Hrun. exists k. exists (new ++ [DelayUs 50]). split.
  - f_equal. f_equal. destruct_machine s. machine_eq.
  - intros Hall. destruct (Hto Hall) as (new' & ->). eexists. reflexivity.
Qed.

(** Runs the busy-wait that has come to the front of the goal; [Hf] is the
    bound on the fuel. *)
Ltac run_bsy Hf k new Hto :=
  match goal with
  | |- context [avr_bsySerial ?fuel ?st] =>
      let Hrun := fresh "Hrun" in
      destruct (avr_bsySerial_run fuel st Hf) as (k & new & Hrun & Hto);
      rewrite Hrun; fw_unfold in Hto; fw_unfold
  end.

(** ** The access layer leaves the session alone *)

(** [ispWriteFlash] returns 0, leaves [prog] and [dev_type] alone and does
    not flush. *)
Lemma ispWriteFlash_frame a d p s :
  exists s', ispWriteFlash a d p s = Some (0, s')
    /\ prog s' = prog s /\ dev_type s' = dev_type s
    /\ calls R_ispFlushPage (trace s') = calls R_ispFlushPage (trace s).
Proof.
  destruct_machine s.
  unfold ispWriteFlash, parallelWriteFlash, serialWriteFlash.
  fw_step. repeat (fw_case; fw_step);
    (eexists; split; [reflexivity|]); fw_unfold; repeat split;
    count_norm; lia.
Qed.

Lemma ispFlushPage_frame a p s :
  exists s', ispFlushPage a p s = Some (0, s')
    /\ prog s' = prog s /\ dev_type s' = dev_type s
    /\ calls R_ispFlushPage (trace s')
       = S (calls R_ispFlushPage (trace s)).
Proof.
  destruct_machine s.
  unfold ispFlushPage, ispUpdateExtended.
  fw_step. repeat (fw_case; fw_step);
    (eexists; split; [reflexivity|]); fw_unfold; repeat split;
    count_norm; lia.
Qed.

Lemma ispWriteEEPROM_returns_0 (fuel : nat) a d s :
  (0xFFF <= fuel)%nat ->
  exists s', ispWriteEEPROM fuel a d s = Some (0, s') /\
    (is_parallel (dev_type s) = false ->
     (forall j, Z.land (u8 (pin s j)) 1 = 0) ->
     exists t, trace s' = Drive VPP HIGH :: DelayMs 10 :: Drive VPP LOW :: t).
Proof.
  intros Hf. destruct_machine s. unfold ispWriteEEPROM. fw_step.
  fw_case; fw_step.
  - eexists. split; [reflexivity|]. discriminate.
  - run_bsy Hf k new Hto.
    eexists. split; [reflexivity|]. fw_unfold.
    intros _ Hall. destruct (Hto Hall) as (new' & ->).
    eexists. reflexivity.
Qed.

(** ** The write data phase, byte by byte *)

Ltac use_frame :=
  match goal with
  | |- context [ispWriteFlash ?a ?d ?p ?st] =>
      let s1 := fresh "s" in
      let Hrun := fresh "Hrun" in
      let Hprog := fresh "Hprog" in
      let Hdev := fresh "Hdev" in
      let Hcalls := fresh "Hcalls" in
      let pr1 := fresh "pr" in
      let d1 := fresh "dt" in
      destruct (ispWriteFlash_frame a d p st)
        as (s1 & Hrun & Hprog & Hdev & Hcalls);
      rewrite Hrun; clear Hrun;
      destruct s1 as [d1 ? ? ? ? pr1 ? ? ? ?];
      fw_unfold in Hprog; fw_unfold in Hdev; fw_unfold in Hcalls;
      subst pr1 d1; fw_unfold
  | |- context [ispFlushPage ?a ?d ?st] =>
      let s1 := fresh "s" in
      let Hrun := fresh "Hrun" in
      let Hprog := fresh "Hprog" in
      let Hdev := fresh "Hdev" in
      let Hcalls := fresh "Hcalls" in
      let pr1 := fresh "pr" in
      let d1 := fresh "dt" in
      destruct (ispFlushPage_frame a d st)
        as (s1 & Hrun & Hprog & Hdev & Hcalls);
      rewrite Hrun; clear Hrun;
      destruct s1 as [d1 ? ? ? ? pr1 ? ? ? ?];
      fw_unfold in Hprog; fw_unfold in Hdev; fw_unfold in Hcalls;
      subst pr1 d1; fw_unfold
  end.

Ltac cmp_case :=
  match goal with
  | |- context [Z.eqb ?a ?b] => destruct (Z.eqb a b) eqn:?
  end.

Ltac cmp_known :=
  match goal with
  | H : Z.eqb ?a ?b = _ |- context [Z.eqb ?a ?b] => rewrite H
  end.

(** Runs the body of the write loop to its end. *)
Ltac run_write :=
  repeat (first [cmp_known | use_frame | cmp_case];
          cbn [andb negb orb]; fw_unfold).

Lemma write_byte_flash (fuel : nat) last d r s :
  state (prog s) = PROG_STATE_WRITEFLASH ->
  exists s',
    write_byte fuel last d r s
    = Some ((if u16 (nbytes (prog s) - 1) =? 0 then 1 else r), s')
    /\ prog s' = fst (flash_byte last (prog s))
    /\ calls R_ispFlushPage (trace s')
       = (calls R_ispFlushPage (trace s)
          + fst (snd (flash_byte last (prog s)))
          + snd (snd (flash_byte last (prog s))))%nat.
Proof.
  intros Hst. destruct_machine s. fw_unfold in Hst. subst.
  unfold write_byte, flash_byte. fw_unfold. cbn [is_state].
  run_write;
    (eexists; split; [reflexivity|]); fw_unfold; split;
    try reflexivity; lia.
Qed.

Lemma u16_small x : 0 <= x < 65536 -> u16 x = x.
Proof. intros H. unfold u16. apply Z.mod_small. lia. Qed.

Lemma flash_byte_facts last p :
  1 <= nbytes p <= 65535 ->
  nbytes (fst (flash_byte last p)) = nbytes p - 1
  /\ pagesize (fst (flash_byte last p)) = pagesize p
  /\ blockflags (fst (flash_byte last p)) = blockflags p
  /\ (nbytes p <> 1 -> state (fst (flash_byte last p)) = state p)
  /\ (nbytes p = 1 -> state (fst (flash_byte last p)) = PROG_STATE_IDLE).
Proof.
  intros Hn. destruct p as [st sck nm ad n ps bf pc].
  cbn [nbytes pagesize blockflags state] in *.
  unfold flash_byte. cbn [fst nbytes pagesize blockflags state].
  rewrite u16_small by lia.
  repeat split.
  - intros H1. destruct (n - 1 =? 0) eqn:E; [|reflexivity].
    apply Z.eqb_eq in E. lia.
  - intros ->. reflexivity.
Qed.

(** A run of bytes of a flash write follows [flash_bytes], as long as the
    bytes do not outnumber [prog.nbytes]. *)
Lemma write_bytes_flash (fuel : nat) last : forall data r s,
  state (prog s) = PROG_STATE_WRITEFLASH ->
  1 <= nbytes (prog s) <= 65535 ->
  Z.of_nat (length data) <= nbytes (prog s) ->
  exists r' s',
    write_bytes fuel last data r s = Some (r', s')
    /\ prog s' = fst (flash_bytes last (length data) (prog s))
    /\ calls R_ispFlushPage (trace s')
       = (calls R_ispFlushPage (trace s)
          + fst (snd (flash_bytes last (length data) (prog s)))
          + snd (snd (flash_bytes last (length data) (prog s))))%nat
    /\ r' = (if Z.of_nat (length data) =? nbytes (prog s) then 1 else r).
Proof.
  induction data as [|d data IH]; intros r s Hst Hn Hlen.
  - exists r, s. cbn [write_bytes length flash_bytes fst snd].
    split; [reflexivity|]. split; [reflexivity|]. split; [lia|].
    destruct (Z.of_nat 0 =? nbytes (prog s)) eqn:E; [|reflexivity].
    apply Z.eqb_eq in E. cbn in E. lia.
  - destruct (write_byte_flash fuel last (u8 d) r s Hst)
      as (s1 & Hrun & Hprog & Hcalls).
    destruct (flash_byte_facts last (prog s) Hn)
      as (Hn1 & Hps1 & Hbf1 & Hst1 & Hidle1).
    cbn [write_bytes length flash_bytes fst snd].
    rewrite (bind_run _ _ _ _ _ Hrun).
    cbn [length] in Hlen.
    destruct (Z.eq_dec (nbytes (prog s)) 1) as [E1|E1].
    + assert (data = []) as -> by (destruct data; [reflexivity|cbn in Hlen; lia]).
      exists (if u16 (nbytes (prog s) - 1) =? 0 then 1 else r), s1.
      cbn [write_bytes length flash_bytes fst snd].
      split; [reflexivity|]. split; [exact Hprog|]. split; [lia|].
      rewrite E1. reflexivity.
    + destruct (IH (if u16 (nbytes (prog s) - 1) =? 0 then 1 else r) s1)
        as (r' & s' & Hrun' & Hprog' & Hcalls' & Hr').
      * rewrite Hprog, Hst1 by exact E1. exact Hst.
      * rewrite Hprog, Hn1. lia.
      * rewrite Hprog, Hn1. lia.
      * exists r', s'. rewrite Hprog in Hprog', Hcalls', Hr'.
        split; [exact Hrun'|]. split; [exact Hprog'|]. split; [lia|].
        rewrite Hr', Hn1, u16_small by lia.
        replace (Z.of_nat (S (length data)) =? nbytes (prog s))
          with (Z.of_nat (length data) =? nbytes (prog s) - 1)
          by (destruct (Z.of_nat (length data) =? nbytes (prog s) - 1) eqn:A;
              destruct (Z.of_nat (S (length data)) =? nbytes (prog s)) eqn:B;
              try reflexivity;
              [apply Z.eqb_eq in A; apply Z.eqb_neq in B
              |apply Z.eqb_neq in A; apply Z.eqb_eq in B]; lia).
        destruct (Z.of_nat (length data) =? nbytes (prog s) - 1);
          [reflexivity|].
        destruct (nbytes (prog s) - 1 =? 0) eqn:E0; [|reflexivity].
        apply Z.eqb_eq in E0. lia.
Qed.

Lemma flash_bytes_add last k1 : forall k2 p,
  flash_bytes last (k1 + k2) p
  = (fst (flash_bytes last k2 (fst (flash_bytes last k1 p))),
     ((fst (snd (flash_bytes last k1 p))
       + fst (snd (flash_bytes last k2 (fst (flash_bytes last k1 p)))))%nat,
      (snd (snd (flash_bytes last k1 p))
       + snd (snd (flash_bytes last k2 (fst (flash_bytes last k1 p)))))%nat)).
Proof.
  induction k1 as [|k1 IH]; intros k2 p.
  - cbn [Nat.add flash_bytes fst snd].
    destruct (flash_bytes last k2 p) as [q [a b]]. reflexivity.
  - cbn [Nat.add flash_bytes fst snd]. rewrite IH. cbn [fst snd].
    f_equal. f_equal; lia.
Qed.

(** Before the byte count is used up the session stays in its state. *)
Lemma flash_bytes_interior last : forall k p,
  1 <= nbytes p <= 65535 -> Z.of_nat k < nbytes p ->
  nbytes (fst (flash_bytes last k p)) = nbytes p - Z.of_nat k
  /\ pagesize (fst (flash_bytes last k p)) = pagesize p
  /\ blockflags (fst (flash_bytes last k p)) = blockflags p
  /\ state (fst (flash_bytes last k p)) = state p
  /\ snd (snd (flash_bytes last k p)) = 0%nat.
Proof.
  induction k as [|k IH]; intros p Hn Hk.
  - cbn [flash_bytes fst snd]. repeat split. lia.
  - destruct (flash_byte_facts last p Hn) as (Hn1 & Hps1 & Hbf1 & Hst1 & _).
    cbn [flash_bytes fst snd].
    destruct (IH (fst (flash_byte last p))) as (A & B & C & D & E);
      [lia | lia |].
    rewrite A, B, C, D, E, Hn1, Hps1, Hbf1, Hst1 by lia.
    repeat split; try lia.
    unfold flash_byte. cbn [snd].
    rewrite u16_small by lia.
    destruct (nbytes p - 1 =? 0) eqn:E0; [apply Z.eqb_eq in E0; lia|].
    reflexivity.
Qed.

Lemma flash_bytes_final last k p :
  1 <= nbytes p <= 65535 -> Z.of_nat k = nbytes p ->
  state (fst (flash_bytes last k p)) = PROG_STATE_IDLE.
Proof.
  intros Hn Hk. destruct k as [|k]; [cbn in Hk; lia|].
  replace (S k) with (k + 1)%nat by lia.
  rewrite flash_bytes_add. cbn [fst snd flash_bytes].
  destruct (flash_bytes_interior last k p Hn) as (A & _); [lia|].
  apply flash_byte_facts; rewrite A; lia.
Qed.

Lemma usbFunctionWrite_flash (fuel : nat) last data s :
  state (prog s) = PROG_STATE_WRITEFLASH ->
  usbFunctionWrite fuel last data s = write_bytes fuel last data 0 s.
Proof.
  intros Hst. destruct_machine s. fw_unfold in Hst. subst.
  unfold usbFunctionWrite. fw_unfold. reflexivity.
Qed.

(** Empty chunks that arrive after the end of the transfer change
    nothing. *)
Lemma write_stream_idle (fuel : nat) last : forall chunks s,
  length (concat chunks) = 0%nat ->
  writing_state (state (prog s)) = false ->
  exists rs, write_stream fuel last chunks s = Some (rs, s).
Proof.
  induction chunks as [|c cs IH]; intros s Hlen Hst.
  - eexists. reflexivity.
  - cbn [concat] in Hlen. rewrite length_app in Hlen.
    destruct (IH s) as (rs & Hrs); [lia | exact Hst |].
    exists (0xff :: rs). cbn [write_stream].
    assert (Hc : usbFunctionWrite fuel last c s = Some (0xff, s)).
    { destruct_machine s. fw_unfold in Hst.
      unfold usbFunctionWrite. fw_unfold. rewrite Hst. reflexivity. }
    rewrite (bind_run _ _ _ _ _ Hc), (bind_run _ _ _ _ _ Hrs). reflexivity.
Qed.

(** A flash write delivered in chunks follows [flash_bytes] on the bytes of
    all the chunks, whatever the chunking. *)
Lemma write_stream_flash (fuel : nat) last : forall chunks s,
  state (prog s) = PROG_STATE_WRITEFLASH ->
  1 <= nbytes (prog s) <= 65535 ->
  Z.of_nat (length (concat chunks)) <= nbytes (prog s) ->
  exists rs s',
    write_stream fuel last chunks s = Some (rs, s')
    /\ prog s' = fst (flash_bytes last (length (concat chunks)) (prog s))
    /\ calls R_ispFlushPage (trace s')
       = (calls R_ispFlushPage (trace s)
          + fst (snd (flash_bytes last (length (concat chunks)) (prog s)))
          + snd (snd (flash_bytes last (length (concat chunks)) (prog s))))%nat.
Proof.
  induction chunks as [|c cs IH]; intros s Hst Hn Hlen.
  - exists [], s. cbn. repeat split. lia.
  - cbn [concat] in *. rewrite length_app in *.
    destruct (write_bytes_flash fuel last c 0 s Hst Hn)
      as (r1 & s1 & Hrun1 & Hprog1 & Hcalls1 & _); [lia|].
    cbn [write_stream].
    rewrite (bind_run _ _ _ _ _
               (eq_trans (usbFunctionWrite_flash fuel last c s Hst) Hrun1)).
    rewrite flash_bytes_add. cbn [fst snd].
    destruct (Z_lt_le_dec (Z.of_nat (length c)) (nbytes (prog s))) as [Hlt|Hge].
    + destruct (flash_bytes_interior last (length c) (prog s) Hn Hlt)
        as (A & _ & _ & D & _).
      destruct (IH s1) as (rs & s' & Hrun & Hprog & Hcalls).
      * rewrite Hprog1, D. exact Hst.
      * rewrite Hprog1, A. lia.
      * rewrite Hprog1, A. lia.
      * exists (r1 :: rs), s'. rewrite (bind_run _ _ _ _ _ Hrun).
        rewrite Hprog1 in Hprog, Hcalls.
        split; [reflexivity|]. split; [exact Hprog|]. lia.
    + assert (Hk : Z.of_nat (length c) = nbytes (prog s)) by lia.
      assert (Hcs : length (concat cs) = 0%nat) by lia.
      destruct (write_stream_idle fuel last cs s1 Hcs) as (rs & Hrun).
      { rewrite Hprog1, (flash_bytes_final last _ _ Hn Hk). reflexivity. }
      exists (r1 :: rs), s1. rewrite (bind_run _ _ _ _ _ Hrun).
      rewrite Hcs. cbn [flash_bytes fst snd].
      split; [reflexivity|]. split; [exact Hprog1|]. lia.
Qed.

(** ** The page counter of the state machine *)

Lemma u8_small x : 0 <= x < 256 -> u8 x = x.
Proof. intros H. unfold u8. apply Z.mod_small. lia. Qed.

Lemma u8_pred c : u8 (u8 c - 1) = u8 (c - 1).
Proof. unfold u8. apply Zminus_mod_idemp_l. Qed.

(** While the counter [c] is above the number of bytes, no flush is
    triggered by the counter. *)
Lemma flash_bytes_no_hit last : forall k p c,
  pagesize p <> 0 -> pagecounter p = u8 c ->
  Z.of_nat k < c <= 256 ->
  Z.of_nat k <= nbytes p <= 65535 ->
  pagecounter (fst (flash_bytes last k p)) = u8 (c - Z.of_nat k)
  /\ fst (snd (flash_bytes last k p)) = 0%nat.
Proof.
  induction k as [|k IH]; intros p c Hps Hpc Hc Hk.
  - cbn [flash_bytes fst snd]. rewrite Hpc. split; [|reflexivity].
    f_equal. lia.
  - assert (Hn : 1 <= nbytes p <= 65535) by lia.
    destruct (flash_byte_facts last p Hn) as (Hn1 & Hps1 & _).
    assert (Hstep : pagecounter (fst (flash_byte last p)) = u8 (c - 1)
                    /\ fst (snd (flash_byte last p)) = 0%nat).
    { destruct p as [st sck nm ad n ps bf pc].
      cbn [pagesize pagecounter nbytes] in *. subst pc.
      unfold flash_byte. cbn [fst snd pagesize pagecounter nbytes].
      apply Z.eqb_neq in Hps. rewrite Hps. cbn [negb andb].
      rewrite u8_pred.
      assert (Hne : (u8 (c - 1) =? 0) = false).
      { apply Z.eqb_neq. rewrite u8_small by lia. lia. }
      rewrite Hne. split; reflexivity. }
    destruct Hstep as (Hpc1 & Hhit1).
    cbn [flash_bytes fst snd].
    destruct (IH (fst (flash_byte last p)) (c - 1)) as (A & B);
      [rewrite Hps1; exact Hps | exact Hpc1 | lia | lia |].
    rewrite A, B, Hhit1. split; [f_equal; lia | reflexivity].
Qed.

(** A byte that finds the counter at 1 triggers a flush and re-arms it. *)
Lemma flash_byte_hit last p :
  pagesize p <> 0 -> pagecounter p = u8 1 ->
  pagecounter (fst (flash_byte last p)) = u8 (pagesize p)
  /\ fst (snd (flash_byte last p)) = 1%nat.
Proof.
  intros Hps Hpc. destruct p as [st sck nm ad n ps bf pc].
  cbn [pagesize pagecounter] in *. subst pc.
  unfold flash_byte. cbn [fst snd pagesize pagecounter nbytes].
  apply Z.eqb_neq in Hps. rewrite Hps. cbn [negb andb].
  rewrite u8_pred. change (u8 (1 - 1) =? 0) with true.
  split; reflexivity.
Qed.

(** The flush forced by the last byte of a transfer. *)
Lemma flash_byte_forced last p :
  nbytes p = 1 ->
  snd (snd (flash_byte last p))
  = if negb (Z.land (blockflags p) last =? 0)
       && negb (pagecounter (fst (flash_byte last p)) =? pagesize p)
    then 1%nat else 0%nat.
Proof.
  intros Hn. destruct p as [st sck nm ad n ps bf pc].
  cbn [nbytes] in Hn. subst n.
  unfold flash_byte. cbn [fst snd pagesize pagecounter nbytes blockflags].
  change (u16 (1 - 1) =? 0) with true. cbn [andb]. reflexivity.
Qed.

Lemma flash_byte_not_forced last p :
  1 <= nbytes p <= 65535 -> nbytes p <> 1 ->
  snd (snd (flash_byte last p)) = 0%nat.
Proof.
  intros Hn H1. destruct p as [st sck nm ad n ps bf pc].
  cbn [nbytes] in *.
  unfold flash_byte. cbn [fst snd pagesize pagecounter nbytes blockflags].
  rewrite u16_small by lia.
  destruct (n - 1 =? 0) eqn:E; [apply Z.eqb_eq in E; lia | reflexivity].
Qed.

(** A full page, starting with the counter armed: exactly one flush by the
    counter, at its last byte, and the counter is re-armed. *)
Lemma flash_bytes_page last p P :
  pagesize p = P -> 1 <= P <= 256 -> pagecounter p = u8 P ->
  1 <= nbytes p <= 65535 -> P <= nbytes p ->
  let r := flash_bytes last (Z.to_nat P) p in
  fst (snd r) = 1%nat
  /\ pagecounter (fst r) = u8 P
  /\ pagesize (fst r) = P
  /\ blockflags (fst r) = blockflags p
  /\ nbytes (fst r) = nbytes p - P
  /\ (P < nbytes p -> state (fst r) = state p /\ snd (snd r) = 0%nat)
  /\ (P = nbytes p ->
      state (fst r) = PROG_STATE_IDLE
      /\ snd (snd r)
         = if negb (Z.land (blockflags p) last =? 0) && negb (u8 P =? P)
           then 1%nat else 0%nat).
Proof.
  intros Hps HP Hpc Hn HPn r. subst r.
  replace (Z.to_nat P) with (Z.to_nat (P - 1) + 1)%nat by lia.
  rewrite flash_bytes_add. cbn [fst snd flash_bytes].
  set (q := fst (flash_bytes last (Z.to_nat (P - 1)) p)).
  destruct (flash_bytes_no_hit last (Z.to_nat (P - 1)) p P)
    as (Hq_pc & Hq_hit); [lia | exact Hpc | lia | lia |].
  destruct (flash_bytes_interior last (Z.to_nat (P - 1)) p Hn)
    as (Hq_n & Hq_ps & Hq_bf & Hq_st & Hq_forced); [lia|].
  fold q in Hq_pc, Hq_hit, Hq_n, Hq_ps, Hq_bf, Hq_st.
  rewrite Hq_hit, Hq_forced.
  replace (P - Z.of_nat (Z.to_nat (P - 1))) with 1 in Hq_pc by lia.
  assert (Hqn : 1 <= nbytes q <= 65535) by (rewrite Hq_n; lia).
  destruct (flash_byte_hit last q) as (Hpc' & Hhit');
    [rewrite Hq_ps; lia | exact Hq_pc |].
  destruct (flash_byte_facts last q Hqn) as (Hn' & Hps' & Hbf' & Hst' & Hidle').
  rewrite Hhit', Hpc', Hps', Hbf', Hn', Hq_ps, Hq_bf, Hq_n, Hps.
  repeat split; try lia.
  - rewrite Hst' by (rewrite Hq_n; lia). exact Hq_st.
  - rewrite Nat.add_0_r. cbn [Nat.add].
    apply flash_byte_not_forced; rewrite ?Hq_n; lia.
  - apply Hidle'. rewrite Hq_n. lia.
  - rewrite Nat.add_0_r. cbn [Nat.add].
    rewrite (flash_byte_forced last q) by (rewrite Hq_n; lia).
    rewrite Hpc', Hq_bf, Hq_ps, Hps. reflexivity.
Qed.


(** Two full pages that use up the byte count, without the last-block flag:
    two flushes by the counter, none forced. *)
Lemma flash_bytes_two_pages last p P :
  pagesize p = P -> 1 <= P <= 256 -> pagecounter p = u8 P ->
  nbytes p = 2 * P -> Z.land (blockflags p) last = 0 ->
  snd (flash_bytes last (Z.to_nat (2 * P)) p) = (2%nat, 0%nat)
  /\ pagecounter (fst (flash_bytes last (Z.to_nat (2 * P)) p)) = u8 P
  /\ state (fst (flash_bytes last (Z.to_nat (2 * P)) p)) = PROG_STATE_IDLE.
Proof.
  intros Hps HP Hpc Hn Hfl.
  replace (Z.to_nat (2 * P)) with (Z.to_nat P + Z.to_nat P)%nat by lia.
  rewrite flash_bytes_add. cbn [fst snd].
  destruct (flash_bytes_page last p P Hps HP Hpc)
    as (H1 & Hpc1 & Hps1 & Hbf1 & Hn1 & Hint1 & _); [lia | lia |].
  destruct Hint1 as (Hst1 & Hf1); [lia|].
  set (q := fst (flash_bytes last (Z.to_nat P) p)) in *.
  destruct (flash_bytes_page last q P Hps1 HP Hpc1)
    as (H2 & Hpc2 & _ & _ & _ & _ & Hfin2); [lia | lia |].
  destruct Hfin2 as (Hst2 & Hf2); [lia|].
  rewrite H1, H2, Hf1, Hf2, Hbf1, Hfl. cbn [Z.eqb negb andb].
  repeat split; assumption.
Qed.


(** ** Detection *)

Lemma avr_getId_run a s :
  avr_getId a s
  = Some (getId_result (dev_type s) a (pin s) (reads s),
          advance (getId_reads (dev_type s))
            (Signature (getId_result (dev_type s) a (pin s) (reads s))
             :: rev (getId_events (dev_type s) a (pin s) (reads s))) s).
Proof.
  destruct_machine s.
  unfold avr_getId, getId_result, getId_events, getId_reads.
  fw_step. fw_case; fw_step; f_equal; f_equal; machine_eq.
Qed.

Lemma getId_no_power d a p n :
  forallb no_power (getId_events d a p n) = true.
Proof.
  unfold getId_events, loadComm_events, loadAdd_events.
  destruct (is_parallel d), (d =? 0); reflexivity.
Qed.

Lemma getId_no_signature d a p n :
  count_events is_signature (getId_events d a p n) = 0%nat.
Proof.
  unfold getId_events, loadComm_events, loadAdd_events.
  destruct (is_parallel d), (d =? 0); reflexivity.
Qed.

(** The polling loop ends, reads at most [1002 - timeout] signatures and does
    not touch the power lines. *)
Lemma poll_id_run : forall (n : nat) timeout s,
  0 <= timeout <= 1001 -> 1002 - timeout <= Z.of_nat n ->
  exists k p,
    poll_id n timeout s = Some (tt, advance k (rev p) s)
    /\ forallb no_power p = true
    /\ Z.of_nat (count_events is_signature p) <= 1002 - timeout.
Proof.
  induction n as [|n IH]; intros timeout s Ht Hn; [lia|].
  cbn [poll_id].
  rewrite (bind_run _ _ _ _ _ (avr_getId_run 0 s)).
  set (id := getId_result (dev_type s) 0 (pin s) (reads s)).
  set (ev := getId_events (dev_type s) 0 (pin s) (reads s)).
  assert (Hev : forallb no_power (ev ++ [Signature id]) = true).
  { rewrite forallb_app. unfold ev. rewrite getId_no_power. reflexivity. }
  assert (Hsig : count_events is_signature (ev ++ [Signature id]) = 1%nat).
  { rewrite count_events_app. unfold ev. rewrite getId_no_signature.
    reflexivity. }
  destruct (id =? 0x1E) eqn:Hid; [|destruct (timeout >? 1000) eqn:Hto].
  - exists (getId_reads (dev_type s)), (ev ++ [Signature id]).
    split; [|split; [exact Hev | rewrite Hsig; lia]].
    unfold ret. f_equal. f_equal. f_equal.
    rewrite rev_app_distr. reflexivity.
  - exists (getId_reads (dev_type s)), (ev ++ [Signature id]).
    split; [|split; [exact Hev | rewrite Hsig; lia]].
    unfold ret. f_equal. f_equal. f_equal.
    rewrite rev_app_distr. reflexivity.
  - assert (Hlt : timeout <= 1000).
    { destruct (Z.gtb_spec timeout 1000); [discriminate | lia]. }
    unfold _delay_ms.
    rewrite (bind_run _ _ _ _ _ (eq_refl : emit (DelayMs 1) _ = Some (tt, _))).
    rewrite u16_small by lia.
    match goal with |- context [poll_id n ?t ?st] =>
      destruct (IH t st) as (k & p & Hrun & Hpow & Hcnt); [lia | lia |] end.
    rewrite Hrun.
    exists (k + getId_reads (dev_type s))%nat,
           ((ev ++ [Signature id]) ++ DelayMs 1 :: p).
    split; [|split].
    + f_equal. f_equal. destruct_machine s. subst id ev. machine_eq.
    + rewrite forallb_app, Hev. cbn [forallb andb]. exact Hpow.
    + rewrite count_events_app, Hsig, count_events_cons. cbn [is_signature].
      lia.
Qed.




Ltac run_poll p Hpow Hcnt :=
  match goal with
  | |- context [poll_id ?f ?t ?st] =>
      let k := fresh "k" in
      let Hrun := fresh "Hrun" in
      destruct (poll_id_run f t st) as (k & p & Hrun & Hpow & Hcnt);
      [lia | lia |];
      rewrite Hrun; clear Hrun; rewrite avr_getId_run; fw_unfold
  end.

(** * The properties of the specification *)

(** ** Out-of-state data phases (C6) *)

(** C6: a read data phase while [prog.state] is not a reading state, and a
    write data phase while it is not a writing state, return 0xff; the
    machine is left exactly as it was, so no access-layer routine ran and no
    event was produced. *)
Theorem out_of_state_data_phase :
  forall fuel last tpi (s : machine),
    (forall len, reading_state (state (prog s)) = false ->
       usbFunctionRead tpi len s = Some (([], 0xff), s)) /\
    (forall data, writing_state (state (prog s)) = false ->
       usbFunctionWrite fuel last data s = Some (0xff, s)).
Proof.
  intros fuel last tpi s; split; intros x H; destruct_machine s;
    fw_unfold in H.
  - unfold usbFunctionRead. fw_unfold. rewrite H. reflexivity.
  - unfold usbFunctionWrite. fw_unfold. rewrite H. reflexivity.
Qed.

(** ** No failure channel on the write path (C10) *)

(** C10: [ispWriteFlash], [ispFlushPage] and [ispWriteEEPROM] return 0 for
    every device type, address and data byte, from every machine state and
    whatever the target answers.  In particular, when the busy line never
    rises on a serial target, [avr_bsySerial] gives up after 0xFFF samples
    and resets the target (VPP low, 10 ms, VPP high are the last events),
    and [ispWriteEEPROM] still returns 0. *)
Theorem write_path_has_no_failure_return :
  forall (fuel : nat) (a d p : Z) (s : machine),
    (0xFFF <= fuel)%nat ->
    (exists s', ispWriteFlash a d p s = Some (0, s')) /\
    (exists s', ispFlushPage a p s = Some (0, s')) /\
    (exists s', ispWriteEEPROM fuel a d s = Some (0, s') /\
       (is_parallel (dev_type s) = false ->
        (forall j, Z.land (u8 (pin s j)) 1 = 0) ->
        exists t,
          trace s' = Drive VPP HIGH :: DelayMs 10 :: Drive VPP LOW :: t)).
Proof.
  intros fuel a d p s Hf. split; [|split].
  - destruct (ispWriteFlash_frame a d p s) as (s' & H & _).
    exists s'. exact H.
  - destruct (ispFlushPage_frame a p s) as (s' & H & _).
    exists s'. exact H.
  - apply ispWriteEEPROM_returns_0, Hf.
Qed.

(** ** EEPROM access by device family (C9) *)

(** C9, as the code has it: [ispReadEEPROM] and [ispWriteEEPROM] are
    accepted on every family and the write reports success, but a read is
    not a no-op on any family: on the serial family it shifts out the five
    frames of an EEPROM read and returns the byte of the last frame; on every
    family at least one sample of the target is taken and events reach the
    bus. *)
Theorem eeprom_read_reaches_the_target :
  forall (fuel : nat) (a d : Z) (s : machine),
    (0xFFF <= fuel)%nat ->
    (exists s', ispWriteEEPROM fuel a d s = Some (0, s')) /\
    (exists r k new,
       ispReadEEPROM a s = Some (r, advance k (rev new) s)
       /\ (1 <= k)%nat /\ bus_events new <> []) /\
    (is_parallel (dev_type s) = false ->
     ispReadEEPROM a s
     = Some (exchange_result 0x6C 0x00 (pin s) (44 + reads s),
             advance 55
               (rev (Enter R_ispReadEEPROM a
                     :: frames [(0x4C, 0x03); (0x0C, Z.land a 0xFF);
                                (0x1C, Z.shiftr a 8); (0x68, 0x00);
                                (0x6C, 0x00)] (pin s) (reads s))) s)).
Proof.
  intros fuel a d s Hf. split; [|split].
  - destruct (ispWriteEEPROM_returns_0 fuel a d s Hf) as (s' & H & _).
    exists s'. exact H.
  - destruct_machine s. unfold ispReadEEPROM. fw_step. fw_case; fw_step.
    + eexists. exists 1%nat.
      exists (Enter R_ispReadEEPROM a :: loadComm_events m_dev 3
              ++ loadAdd_events m_dev (Z.land a 255) 1
              ++ loadAdd_events m_dev (Z.land a 255) 0
              ++ [DataDir false; Drive BS1 LOW; Drive OE LOW; DelayUs 1;
                  Sample (u8 (m_pin m_reads)); Drive OE HIGH]).
      split; [f_equal; f_equal; machine_eq|]. split; [lia|].
      apply (bus_events_nonempty (Drive OE HIGH)); [|reflexivity].
      right. do 3 (apply in_or_app; right). cbn. auto 10.
    + eexists. exists 55%nat.
      exists (Enter R_ispReadEEPROM a
              :: frames [(0x4C, 0x03); (0x0C, Z.land a 0xFF);
                         (0x1C, Z.shiftr a 8); (0x68, 0x00); (0x6C, 0x00)]
                   m_pin m_reads).
      split; [f_equal; f_equal; machine_eq|]. split; [lia|].
      apply (bus_events_nonempty (DataDir false)); [|reflexivity].
      right. left. reflexivity.
  - intros Hp. destruct_machine s. fw_unfold in Hp.
    unfold ispReadEEPROM. fw_step. rewrite Hp. fw_step.
    first [reflexivity | f_equal; f_equal; machine_eq].
Qed.

(** ** Fuse kinds out of range (C8) *)

(** C8, as the code has it: a kind above 3 is reduced modulo 3 (not modulo
    the number of kinds, 4) before the fuse is read, so it is read as one of
    the kinds 0, 1 or 2 and never as kind 3; kinds 0..3 are read as they
    are. *)
Theorem getFuse_reduces_kind_modulo_3 :
  forall (bt : Z) (s : machine),
    3 < bt ->
    avr_getFuse bt s = avr_getFuse (bt mod 3) s /\ 0 <= bt mod 3 <= 2.
Proof.
  intros bt s Hbt.
  assert (Hm : 0 <= bt mod 3 < 3) by (apply Z.mod_pos_bound; lia).
  split; [|lia].
  unfold avr_getFuse.
  replace (bt >? 3) with true by (symmetry; apply Z.gtb_lt; lia).
  replace (bt mod 3 >? 3) with false; [reflexivity|].
  symmetry. apply not_true_is_false. intros H. apply Z.gtb_lt in H. lia.
Qed.

(** ** Disconnect (C7) *)

(** C7, as the code has it: a disconnect command releases the bus and takes
    the supply and programming voltage away, and that is all.  [prog] (state,
    address, byte count, page size, block flags, long-address mode),
    [dev_type] and the globals of isp.c are left as they were, and no page
    flush is issued.  The long-address mode and the cached address segment
    are cleared by a connect command. *)
Theorem disconnect_keeps_session :
  forall (fuel : nat) func_of first sck8 cap num F_CPU sstcs (data : list Z) (s : machine),
    (0xFFF <= fuel)%nat ->
    (func_of (byte 1 data) = USBASP_FUNC_DISCONNECT ->
     exists s',
       usbFunctionSetup fuel func_of first sck8 cap num F_CPU sstcs data s = Some (0, s')
       /\ s' = advance 0 (rev [DataDir false; ControlDDR 0; Drive VDD LOW;
                               Drive VPP LOW; PowerDDR false; Led false]) s
       /\ prog s' = prog s /\ dev_type s' = dev_type s
       /\ calls R_ispFlushPage (trace s') = calls R_ispFlushPage (trace s)) /\
    (func_of (byte 1 data) = USBASP_FUNC_CONNECT ->
     exists s',
       usbFunctionSetup fuel func_of first sck8 cap num F_CPU sstcs data s = Some (0, s')
       /\ address_newmode (prog s') = 0 /\ isp_hiaddr s' = 0
       /\ state (prog s') = state (prog s) /\ dev_type s' = dev_type s).
Proof.
  intros fuel func_of first sck8 cap num F_CPU sstcs data s Hf.
  destruct_machine s. split; intros Hc.
  - unfold usbFunctionSetup. rewrite Hc. unfold ispDisconnect.
    eexists. split; [reflexivity|]. repeat split.
  - unfold usbFunctionSetup. rewrite Hc.
    unfold ispSetSCKOption, ispConnect. fw_step.
    fw_case; fw_step; run_bsy Hf k new Hto;
      (eexists; split; [reflexivity|]); repeat split.
Qed.

(** ** The extended-address cache (C5) *)

Lemma parallel_read_run a s :
  is_parallel (dev_type s) = true ->
  ispReadFlash a s
  = Some (u8 (pin s (reads s)),
          set_isp_hiaddr (high_segment a)
            (advance 1
               (rev (read_flash_prefix (dev_type s) a
                     ++ (if high_segment a =? isp_hiaddr s then []
                         else extended_load (high_segment a))
                     ++ read_flash_suffix (dev_type s) a
                          (u8 (pin s (reads s))))) s)).
Proof.
  intros Hp. destruct_machine s. fw_unfold in Hp.
  unfold ispReadFlash, parallelReadFlash, ispUpdateExtended,
    read_flash_prefix, read_flash_suffix, extended_load.
  fold (high_segment a). fw_step. rewrite Hp. fw_step.
  destruct (Z.lxor m_hi (high_segment a) =? 0) eqn:Hx.
  - apply Z.eqb_eq in Hx.
    apply (proj1 (Z.lxor_eq_0_iff m_hi (high_segment a))) in Hx.
    rewrite <- Hx, Z.eqb_refl. fw_step.
    destruct (Z.land a 1 =? 0); fw_step; f_equal; f_equal; machine_eq.
  - assert (Hne : (high_segment a =? m_hi) = false).
    { apply Z.eqb_neq. intros E. rewrite E, Z.lxor_nilpotent in Hx.
      discriminate. }
    rewrite Hne. fw_step.
    destruct (Z.land a 1 =? 0); fw_step; f_equal; f_equal; machine_eq.
Qed.

Lemma parallel_read_loads d a v (b : bool) :
  extended_loads
    (read_flash_prefix d a
     ++ (if b then [] else extended_load (high_segment a))
     ++ read_flash_suffix d a v)
  = (if b then 0 else 1)%nat.
Proof.
  unfold read_flash_prefix, read_flash_suffix, extended_loads.
  rewrite !count_events_app, count_events_cons.
  rewrite loadComm_no_extended_load, !loadAdd_no_extended_load.
  destruct b; reflexivity.
Qed.

(** C5, as the code has it.  On a parallel target ([dev_type] 0 or 1)
    [ispReadFlash a] compares bits 17..24 of [a] with the cached segment by
    XOR: when they are equal no extended-address load is issued; when they
    differ exactly one load of the new segment is issued, after the
    read-flash command and before the address bytes and the data sample, and
    the cache becomes the new segment.  Hence of two consecutive reads whose
    addresses agree on the bits from 17 up, the second issues no load.  On a
    serial target [ispReadFlash] never issues an extended-address load and
    leaves the cache alone. *)
Theorem extended_address_cache :
  forall (a a2 : Z) (s : machine),
    (is_parallel (dev_type s) = true ->
     exists s' new,
       ispReadFlash a s = Some (u8 (pin s (reads s)), s')
       /\ trace s' = rev new ++ trace s
       /\ new = read_flash_prefix (dev_type s) a
                ++ (if high_segment a =? isp_hiaddr s then []
                    else extended_load (high_segment a))
                ++ read_flash_suffix (dev_type s) a (u8 (pin s (reads s)))
       /\ extended_loads new
          = (if high_segment a =? isp_hiaddr s then 0%nat else 1%nat)
       /\ isp_hiaddr s' = high_segment a
       /\ (Z.shiftr a 17 = Z.shiftr a2 17 ->
           exists r2 s2 new2,
             ispReadFlash a2 s' = Some (r2, s2)
             /\ trace s2 = rev new2 ++ trace s'
             /\ extended_loads new2 = 0%nat
             /\ isp_hiaddr s2 = isp_hiaddr s')) /\
    (is_parallel (dev_type s) = false ->
     exists r new,
       ispReadFlash a s = Some (r, advance 66 (rev new) s)
       /\ extended_loads new = 0%nat).
Proof.
  intros a a2 s. split; intros Hp.
  - eexists. eexists. split; [apply parallel_read_run, Hp|].
    split; [reflexivity|]. split; [reflexivity|].
    split; [apply parallel_read_loads|].
    split; [reflexivity|]. intros Hseg.
    match goal with |- context [ispReadFlash a2 ?st] => set (s1 := st) end.
    assert (Hp1 : is_parallel (dev_type s1) = true) by exact Hp.
    assert (Hh : (high_segment a2 =? isp_hiaddr s1) = true).
    { apply Z.eqb_eq. unfold high_segment. rewrite <- Hseg. reflexivity. }
    eexists. eexists. eexists.
    split; [apply parallel_read_run, Hp1|].
    split; [reflexivity|]. split.
    + rewrite parallel_read_loads, Hh. reflexivity.
    + apply Z.eqb_eq in Hh. exact Hh.
  - destruct_machine s. fw_unfold in Hp.
    unfold ispReadFlash, serialReadFlash. fw_step. rewrite Hp. fw_step.
    destruct (Z.land a 1 =? 0); fw_step.
    + eexists.
      exists (Enter R_ispReadFlash a
              :: frames [(0x4C, 0x02); (0x0C, Z.land (Z.shiftr a 1) 0xFF);
                         (0x1C, Z.shiftr a 9); (0x68, 0x00); (0x68, 0x00);
                         (0x6C, 0x00)] m_pin m_reads).
      split; [f_equal; f_equal; machine_eq | reflexivity].
    + eexists.
      exists (Enter R_ispReadFlash a
              :: frames [(0x4C, 0x02); (0x0C, Z.land (Z.shiftr a 1) 0xFF);
                         (0x1C, Z.shiftr a 9); (0x68, 0x00); (0x78, 0x00);
                         (0x7C, 0x00)] m_pin m_reads).
      split; [f_equal; f_equal; machine_eq | reflexivity].
Qed.

(** ** Word buffering of flash writes (C2) *)

(** C2, as the code has it: [ispWriteFlash a d] opens with the page-commit
    check, at even and odd addresses alike: when [prog_pagecounter] has
    reached [prog_pagesize] it loads the page-write command 0x10 (one frame
    on a serial target) and resets the counter to 0; when no commit is due
    the check does nothing.  After the check, at an even address it stores
    [d] in [low_byte], increments the counter and puts nothing more on the
    bus; at an odd address it loads the low address byte, drives [low_byte]
    (whatever it holds) and a clock pulse, then [d] and a second clock
    pulse, then strobes PAGEL (on a serial target: the five frames of a word
    load), increments the counter and leaves [low_byte] as it is. *)
Theorem writeFlash_word_buffering :
  forall (a d pm : Z) (s : machine),
    (Z.land a 1 = 0 ->
     ispWriteFlash a d pm s
     = Some (0, set_prog_pagecounter (u8 (counter_after_commit s + 1))
                  (set_low_byte d
                     (advance (page_commit_reads s)
                        (rev (Enter R_ispWriteFlash a
                              :: page_commit_events s)) s)))) /\
    (Z.land a 1 <> 0 -> is_parallel (dev_type s) = true ->
     ispWriteFlash a d pm s
     = Some (0, set_prog_pagecounter (u8 (counter_after_commit s + 1))
                  (advance 0
                     (rev (Enter R_ispWriteFlash a
                           :: page_commit_events s
                           ++ parallel_word_load (dev_type s) a
                                (low_byte s) d)) s))) /\
    (Z.land a 1 <> 0 -> is_parallel (dev_type s) = false ->
     ispWriteFlash a d pm s
     = Some (0, set_prog_pagecounter (u8 (counter_after_commit s + 1))
                  (advance (55 + page_commit_reads s)
                     (rev (Enter R_ispWriteFlash a
                           :: page_commit_events s
                           ++ serial_word_load a (low_byte s) d (pin s)
                                (page_commit_reads s + reads s))) s))) /\
    (page_commit_due s = false ->
     page_commit_events s = [] /\ page_commit_reads s = 0%nat
     /\ counter_after_commit s = prog_pagecounter s).
Proof.
  intros a d pm s. destruct_machine s.
  unfold ispWriteFlash, parallelWriteFlash, serialWriteFlash,
    page_commit_events, page_commit_reads, counter_after_commit,
    page_commit_due, parallel_word_load, serial_word_load, pulse_events.
  split; [|split; [|split]].
  - intros He. apply Z.eqb_eq in He. fw_step.
    destruct (is_parallel m_dev) eqn:Hp;
      destruct (m_pcount >=? m_psize) eqn:Hd;
      fw_step; rewrite ?Hp, ?He; fw_step; rewrite ?He;
      f_equal; f_equal; machine_eq.
  - intros Ho Hp. apply Z.eqb_neq in Ho. fw_unfold in Hp. fw_step. rewrite Hp.
    destruct (m_pcount >=? m_psize) eqn:Hd;
      fw_step; rewrite ?Hp, ?Ho; fw_step; rewrite ?Ho;
      f_equal; f_equal; machine_eq.
  - intros Ho Hp. apply Z.eqb_neq in Ho. fw_unfold in Hp. fw_step. rewrite Hp.
    destruct (m_pcount >=? m_psize) eqn:Hd;
      fw_step; rewrite ?Hp, ?Ho; fw_step; rewrite ?Ho;
      f_equal; f_equal; machine_eq.
  - fw_unfold. intros ->. repeat split.
Qed.

(** ** Device detection (C1) *)


(** ** Page flushes triggered by the counter (C3) *)

(** C3, as the code has it: the page counter of the state machine counts
    bytes.  A flash write of 2 x page size bytes (page size 1..256, counter
    armed to the page size as the first-block flag does, last-block flag
    clear), delivered in any chunks, issues exactly 2 calls of
    [ispFlushPage]: both are triggered by the counter reaching 0, none is
    forced by the end of the block, and the counter is re-armed to the page
    size after each. *)
Theorem page_auto_flush_counts_bytes :
  forall (fuel : nat) (last : Z) (chunks : list (list Z)) (s : machine) (P : Z),
    state (prog s) = PROG_STATE_WRITEFLASH ->
    pagesize (prog s) = P -> 1 <= P <= 256 ->
    pagecounter (prog s) = u8 P ->
    nbytes (prog s) = 2 * P ->
    Z.land (blockflags (prog s)) last = 0 ->
    Z.of_nat (length (concat chunks)) = 2 * P ->
    exists rs s',
      write_stream fuel last chunks s = Some (rs, s')
      /\ calls R_ispFlushPage (trace s')
         = (calls R_ispFlushPage (trace s) + 2)%nat
      /\ snd (flash_bytes last (length (concat chunks)) (prog s))
         = (2%nat, 0%nat)
      /\ pagecounter (prog s') = u8 P
      /\ state (prog s') = PROG_STATE_IDLE.
Proof.
  intros fuel last chunks s P Hst Hps HP Hpc Hn Hfl Hlen.
  destruct (write_stream_flash fuel last chunks s Hst)
    as (rs & s' & Hrun & Hprog & Hcalls); [lia | lia |].
  replace (length (concat chunks)) with (Z.to_nat (2 * P)) in * by lia.
  destruct (flash_bytes_two_pages last (prog s) P Hps HP Hpc Hn Hfl)
    as (Hcount & Hpc' & Hst').
  exists rs, s'. rewrite Hcount in Hcalls. cbn [fst snd] in Hcalls.
  rewrite Hprog.
  split; [exact Hrun|]. split; [lia|]. split; [exact Hcount|].
  split; assumption.
Qed.

(** ** The flush forced at the end of the last block (C4) *)


(** * Further properties of the code *)

(** ** clock.c *)

Lemma TCNT0_run s :
  TCNT0 s = Some (u8 (pin s (reads s)), set_reads (S (reads s)) s).
Proof. reflexivity. Qed.

Lemma u8_range x : 0 <= u8 x < 256.
Proof. unfold u8. apply Z.mod_pos_bound. lia. Qed.

Lemma wait_320us_never_ends F_CPU :
  8000000 <= F_CPU ->
  forall (n : nat) starttime s, wait_320us n F_CPU starttime s = None.
Proof.
  intros HF.
  assert (Hb : 256 <= F_CPU / 8000000 * 320).
  { assert (1 <= F_CPU / 8000000)
      by (apply Z.div_le_lower_bound; lia).
    lia. }
  induction n as [|n IH]; intros starttime s; [reflexivity|].
  cbn [wait_320us]. rewrite (bind_run _ _ _ _ _ (TCNT0_run s)).
  replace (u8 (u8 (pin s (reads s)) - starttime) <? F_CPU / 8000000 * 320)
    with true.
  - apply IH.
  - symmetry. apply Z.ltb_lt.
    pose proof (u8_range (u8 (pin s (reads s)) - starttime)). lia.
Qed.

(** X1.  [clockWait] with a clock of 8 MHz or more never returns: the bound of
    the inner loop, [(F_CPU / 8000000) * 320], is at least 320, and the
    eight-bit difference it is compared with is below 256 whatever the timer
    reads. *)
Theorem clockWait_never_returns :
  forall (F_CPU : Z) (fuel : nat) (time : Z) (s : machine),
    8000000 <= F_CPU ->
    clockWait fuel F_CPU time s = None.
Proof.
  intros F_CPU fuel time s HF. unfold clockWait.
  generalize (u8 time). generalize fuel at 2.
  destruct fuel as [|n]; intros fuel t; [reflexivity|].
  cbn [clockWait_loop]. rewrite (bind_run _ _ _ _ _ (TCNT0_run s)).
  unfold bind. rewrite wait_320us_never_ends by exact HF. reflexivity.
Qed.

Lemma wait_320us_at_once F_CPU (n : nat) starttime s :
  0 <= F_CPU < 8000000 ->
  wait_320us (S n) F_CPU starttime s
  = Some (tt, set_reads (S (reads s)) s).
Proof.
  intros HF. cbn [wait_320us]. rewrite (bind_run _ _ _ _ _ (TCNT0_run s)).
  rewrite Z.div_small by lia. cbn [Z.mul].
  replace (u8 (u8 (pin s (reads s)) - starttime) <? 0) with false;
    [reflexivity|].
  symmetry. apply Z.ltb_ge.
  pose proof (u8_range (u8 (pin s (reads s)) - starttime)). lia.
Qed.

Lemma clockWait_loop_turns F_CPU (fuel : nat) :
  0 <= F_CPU < 8000000 ->
  forall (k n : nat) time s,
    (k < n)%nat -> 1 <= time <= 255 -> Z.of_nat (S k) = time ->
    clockWait_loop n (S fuel) F_CPU time s
    = Some (tt, set_reads (2 * S k + reads s) s).
Proof.
  intros HF. induction k as [|k IH]; intros n time s Hn Ht Hk.
  - destruct n as [|n]; [lia|]. cbn [clockWait_loop].
    rewrite (bind_run _ _ _ _ _ (TCNT0_run s)).
    rewrite (bind_run _ _ _ _ _ (wait_320us_at_once F_CPU fuel _ _ HF)).
    replace time with 1 by lia. change (u8 (1 - 1) =? 0) with true.
    destruct_machine s. reflexivity.
  - destruct n as [|n]; [lia|]. cbn [clockWait_loop].
    rewrite (bind_run _ _ _ _ _ (TCNT0_run s)).
    rewrite (bind_run _ _ _ _ _ (wait_320us_at_once F_CPU fuel _ _ HF)).
    assert (Hu : u8 (time - 1) = time - 1)
      by (unfold u8; apply Z.mod_small; lia).
    rewrite Hu.
    replace (time - 1 =? 0) with false by (symmetry; apply Z.eqb_neq; lia).
    rewrite IH by lia.
    destruct_machine s; first [reflexivity | do 2 f_equal; machine_eq].
Qed.

(** X2.  With a clock below 8 MHz the bound is 0 and the inner loop ends at its
    first test: [clockWait time] makes [time] turns of two timer reads each,
    and 256 turns when [time] is 0, since [--time] wraps around before it is
    tested. *)
Theorem clockWait_turns_wrap_at_zero :
  forall (F_CPU : Z) (fuel : nat) (time : Z) (s : machine),
    0 <= F_CPU < 8000000 -> (256 <= fuel)%nat ->
    clockWait fuel F_CPU time s
    = Some (tt, set_reads (2 * clockWait_turns time + reads s) s).
Proof.
  intros F_CPU fuel time s HF Hfuel. unfold clockWait, clockWait_turns.
  destruct fuel as [|fuel]; [lia|].
  pose proof (u8_range time) as Hr.
  destruct (u8 time =? 0) eqn:E.
  - apply Z.eqb_eq in E. rewrite E.
    cbn [clockWait_loop].
    rewrite (bind_run _ _ _ _ _ (TCNT0_run s)).
    rewrite (bind_run _ _ _ _ _ (wait_320us_at_once F_CPU fuel _ _ HF)).
    change (u8 (0 - 1)) with 255. change (255 =? 0) with false.
    cbv beta iota.
    rewrite (clockWait_loop_turns F_CPU fuel HF 254) by (cbn; lia).
    destruct_machine s; first [reflexivity | do 2 f_equal; machine_eq].
  - apply Z.eqb_neq in E.
    rewrite (clockWait_loop_turns F_CPU fuel HF (Z.to_nat (u8 time) - 1))
      by lia.
    destruct_machine s; first [reflexivity | do 2 f_equal; machine_eq].
Qed.

(** ** The serial frame *)

Lemma exchange_result_msb_first instr data p start :
  exchange_result instr data p start = msb_first p start.
Proof.
  unfold exchange_result, frame_of, msb_first.
  cbn [frame_bits snd fold_left seq Nat.add].
  unfold bit_value, bit0.
  generalize (u8 (p start)) (u8 (p (S start))) (u8 (p (S (S start))))
    (u8 (p (S (S (S start))))) (u8 (p (S (S (S (S start))))))
    (u8 (p (S (S (S (S (S start)))))))
    (u8 (p (S (S (S (S (S (S start))))))))
    (u8 (p (S (S (S (S (S (S (S start)))))))))
    (u8 (p (S (S (S (S (S (S (S (S start))))))))))
    (u8 (p (S (S (S (S (S (S (S (S (S start)))))))))))
    (u8 (p (S (S (S (S (S (S (S (S (S (S start)))))))))))).
  intros v0 v1 v2 v3 v4 v5 v6 v7 v8 v9 v10.
  destruct (Z.land v0 1 =? 0), (Z.land v1 1 =? 0), (Z.land v2 1 =? 0),
    (Z.land v3 1 =? 0), (Z.land v4 1 =? 0), (Z.land v5 1 =? 0),
    (Z.land v6 1 =? 0), (Z.land v7 1 =? 0), (Z.land v8 1 =? 0),
    (Z.land v9 1 =? 0), (Z.land v10 1 =? 0); reflexivity.
Qed.

(** X3.  [avr_serialExchange] takes eleven samples of the data line and returns
    the byte made of the first eight, most significant bit first; the last
    three samples and the bytes sent have no influence on the result. *)
Theorem serial_exchange_returns_first_eight_bits :
  forall (instr data : Z) (s : machine),
    exists s',
      avr_serialExchange instr data s = Some (msb_first (pin s) (reads s), s')
      /\ reads s' = (11 + reads s)%nat
      /\ 0 <= msb_first (pin s) (reads s) < 256
      /\ prog s' = prog s /\ dev_type s' = dev_type s.
Proof.
  intros instr data s. eexists. split.
  - rewrite exchange_run, exchange_result_msb_first. reflexivity.
  - destruct_machine s. repeat split.
    + rewrite <- (exchange_result_msb_first 0 0). apply u8_range.
    + rewrite <- (exchange_result_msb_first 0 0). apply u8_range.
Qed.

Lemma forall_byte (P : Z -> bool) :
  forallb P (map Z.of_nat (seq 0 256)) = true ->
  forall x, 0 <= x < 256 -> P x = true.
Proof.
  intros H x Hx. rewrite forallb_forall in H. apply H.
  apply in_map_iff. exists (Z.to_nat x). split; [lia|].
  apply in_seq. lia.
Qed.

Lemma levels_eqb_eq a : forall b, levels_eqb a b = true -> a = b.
Proof.
  induction a as [|x a IH]; intros [|y b] H; try discriminate;
    [reflexivity|].
  cbn in H. apply andb_true_iff in H. destruct H as [H1 H2].
  f_equal; [destruct x, y; try discriminate; reflexivity | apply IH, H2].
Qed.

Lemma shifted_byte_levels x :
  0 <= x < 256 ->
  map (bit_level (Z.shiftl x 2)) [10; 9; 8; 7; 6; 5; 4; 3; 2; 1; 0]
  = LOW :: map (fun j => if Z.testbit x j then HIGH else LOW)
             [7; 6; 5; 4; 3; 2; 1; 0] ++ [LOW; LOW].
Proof.
  intros Hx. apply levels_eqb_eq.
  apply (forall_byte
           (fun x => levels_eqb
              (map (bit_level (Z.shiftl x 2)) [10; 9; 8; 7; 6; 5; 4; 3; 2; 1; 0])
              (LOW :: map (fun j => if Z.testbit x j then HIGH else LOW)
                        [7; 6; 5; 4; 3; 2; 1; 0] ++ [LOW; LOW])));
    [vm_compute; reflexivity | exact Hx].
Qed.

Lemma exchange_levels instr data p start :
  levels_of SII (exchange_events instr data p start) = frame_levels instr
  /\ levels_of SDI (exchange_events instr data p start) = frame_levels data
  /\ levels_of SCI (exchange_events instr data p start)
     = concat (repeat [HIGH; LOW] 11).
Proof.
  unfold frame_levels.
  rewrite <- (shifted_byte_levels (u8 instr)) by apply u8_range.
  rewrite <- (shifted_byte_levels (u8 data)) by apply u8_range.
  repeat split.
Qed.

(** X4.  On the wire a frame is eleven clocked bits: SII carries a zero, the
    instruction byte from bit 7 down to bit 0 and two zeros, and SDI carries
    the data byte in the same way; the clock line SCI is raised and lowered
    once per bit. *)
Theorem serial_frame_format :
  forall (instr data : Z) (s : machine),
    exists r s' new,
      avr_serialExchange instr data s = Some (r, s')
      /\ trace s' = rev new ++ trace s
      /\ levels_of SII new = frame_levels instr
      /\ levels_of SDI new = frame_levels data
      /\ levels_of SCI new = concat (repeat [HIGH; LOW] 11).
Proof.
  intros instr data s.
  exists (exchange_result instr data (pin s) (reads s)).
  eexists. exists (exchange_events instr data (pin s) (reads s)).
  split; [apply exchange_run|].
  split; [destruct_machine s; reflexivity|].
  apply exchange_levels.
Qed.

(** ** The busy-wait of serial writes, when the target answers *)

Lemma bsy_loop_early : forall (j n : nat) delay s,
  0 <= delay -> delay + Z.of_nat j < 0xFFF -> (j < n)%nat ->
  (forall i, (i < j)%nat -> Z.land (u8 (pin s (i + reads s)%nat)) 1 = 0) ->
  Z.land (u8 (pin s (j + reads s)%nat)) 1 <> 0 ->
  exists new,
    bsy_loop n delay s = Some (tt, advance (S j) new s)
    /\ forallb no_power new = true
    /\ count_events is_signature new = 0%nat.
Proof.
  induction j as [|j IH]; intros n delay s Hd Hj Hn Hlow Hhigh;
    (destruct n as [|n]; [lia|]); cbn [bsy_loop];
    rewrite (bind_run _ _ _ _ _ (DATA_PIN_run s)).
  - apply Z.eqb_neq in Hhigh. cbn [Nat.add] in Hhigh. rewrite Hhigh.
    exists [Sample (u8 (pin s (reads s)))]. repeat split.
  - pose proof (Hlow 0%nat ltac:(lia)) as H0. cbn [Nat.add] in H0.
    apply Z.eqb_eq in H0. rewrite H0.
    unfold _delay_us.
    rewrite (bind_run _ _ _ _ _ (eq_refl : emit (DelayUs 10) _ = Some (tt, _))).
    rewrite u16_small by lia.
    replace (delay + 1 =? 0xFFF) with false
      by (symmetry; apply Z.eqb_neq; lia).
    match goal with |- context [bsy_loop n ?d ?st] =>
      destruct (IH n d st) as (new & Hrun & Hpow & Hsig) end.
    + lia.
    + lia.
    + lia.
    + intros i Hi. destruct_machine s. fw_unfold. fw_unfold in Hlow.
      replace (i + (1 + m_reads))%nat with (S i + m_reads)%nat by lia.
      apply (Hlow (S i)). lia.
    + destruct_machine s. fw_unfold. fw_unfold in Hhigh.
      replace (j + (1 + m_reads))%nat with (S j + m_reads)%nat by lia.
      exact Hhigh.
    + rewrite Hrun.
      exists (new ++ [DelayUs 10; Sample (u8 (pin s (reads s)))]).
      split; [|split].
      * f_equal. f_equal. destruct_machine s. machine_eq.
      * rewrite forallb_app, Hpow. reflexivity.
      * rewrite count_events_app, Hsig. reflexivity.
Qed.

(** X5.  When the busy line rises at the sample number [j] (counted from 0,
    [j < 0xFFF]), [avr_bsySerial] returns after [j + 1] samples and does not
    reset the target: the power lines are not touched. *)
Theorem bsySerial_returns_when_ready :
  forall (fuel j : nat) (s : machine),
    (j < 0xFFF)%nat -> (j < fuel)%nat ->
    (forall i, (i < j)%nat -> Z.land (u8 (pin s (i + reads s)%nat)) 1 = 0) ->
    Z.land (u8 (pin s (j + reads s)%nat)) 1 <> 0 ->
    exists new,
      avr_bsySerial fuel s = Some (tt, advance (S j) new s)
      /\ forallb no_power new = true.
Proof.
  intros fuel j s Hj Hf Hlow Hhigh. unfold avr_bsySerial, _delay_us.
  rewrite (bind_run _ _ _ _ _ (eq_refl : emit (DelayUs 50) s = Some (tt, _))).
  match goal with |- context [bsy_loop fuel 0 ?st] =>
    destruct (bsy_loop_early j fuel 0 st) as (new & Hrun & Hpow & _) end.
  - lia.
  - lia.
  - exact Hf.
  - destruct_machine s. exact Hlow.
  - destruct_machine s. exact Hhigh.
  - rewrite Hrun. exists (new ++ [DelayUs 50]). split.
    + f_equal. f_equal. destruct_machine s. machine_eq.
    + rewrite forallb_app, Hpow. reflexivity.
Qed.

(** ** Fuses *)

Lemma result_eq_intro (A : Type) (r r' : A) (s s' : machine) :
  r = r' -> s = s' -> Some (r, s) = Some (r', s').
Proof. now intros -> ->. Qed.

(** X6.  An unknown fuse selector is not rejected.  On a serial target
    [avrSetFuse] then does nothing at all.  On a parallel target it still
    loads the write-fuse command 0x40 and the value and pulses WR, with the
    select lines as [avr_loadComm] left them. *)
Theorem setFuse_unknown_selector :
  forall (fuel : nat) (fs vl : Z) (s : machine),
    fs <> 0xA0 -> fs <> 0xA8 -> fs <> 0xA4 -> fs <> 0xE0 ->
    (is_parallel (dev_type s) = false ->
     avrSetFuse fuel fs vl s = Some (tt, s)) /\
    (is_parallel (dev_type s) = true ->
     avrSetFuse fuel fs vl s
     = Some (tt, advance 0
                   (rev ([Drive PAGEL LOW]
                         ++ loadComm_events (dev_type s) 0x40
                         ++ [DelayUs 10; Drive XA1 LOW; Drive XA0 HIGH;
                             DataPort (u8 vl); DelayUs 10]
                         ++ pulse_events
                         ++ [DelayUs 10; Drive WR LOW; DelayMs 1;
                             Drive WR HIGH; DelayMs 100])) s)).
Proof.
  intros fuel fs vl s H0 H8 H4 HE.
  apply Z.eqb_neq in H0, H8, H4, HE.
  destruct_machine s. unfold avrSetFuse, pulse_events.
  split; intros Hp; fw_unfold in Hp; fw_step;
    rewrite Hp, ?H0, ?H8, ?H4, ?HE; fw_step;
    rewrite ?H0, ?H8, ?H4, ?HE; fw_step.
  - reflexivity.
  - f_equal. f_equal. machine_eq.
Qed.

(** The events added in front of [tl] in the trace [T]. *)
Ltac strip_tail tl T :=
  lazymatch T with
  | tl => constr:(@nil event)
  | ?e :: ?T' => let r := strip_tail tl T' in constr:(e :: r)
  | ?l ++ ?T' => let r := strip_tail tl T' in constr:(l ++ r)
  end.

(** Answer [exists r new, Some (R, s') = Some (r, advance n new s) /\ _] from
    the machine reached. *)
Ltac give_run tl :=
  lazymatch goal with
  | |- exists r new,
        Some (?R, mkMachine _ _ _ _ _ _ _ _ _ ?T) = _ /\ _ =>
      let w := strip_tail tl T in
      exists R, w; split;
      [apply result_eq_intro; [reflexivity|]; apply machine_eq_intro;
       [try reflexivity; lia
       | cbn [app]; rewrite <- ?app_assoc; reflexivity]|]
  end.

(** X7.  [avr_getFuse] only reads: for every kind byte it returns a byte, takes
    one sample on a parallel target and 33 (three frames) on a serial one,
    never pulses WR, never touches the power lines, and leaves the session
    and the globals of isp.c as they were. *)
Theorem getFuse_only_reads :
  forall (bt : Z) (s : machine),
    0 <= bt <= 255 ->
    exists r new,
      avr_getFuse bt s
      = Some (r, advance (if is_parallel (dev_type s) then 1 else 33) new s)
      /\ 0 <= r < 256
      /\ forallb (fun e => negb (is_write_strobe e)) new = true
      /\ forallb no_power new = true.
Proof.
  intros bt s Hbt. unfold avr_getFuse.
  set (b := if bt >? 3 then bt mod 3 else bt).
  assert (Hb : b = 0 \/ b = 1 \/ b = 2 \/ b = 3).
  { unfold b. destruct (Z.gtb_spec bt 3) as [H|H].
    - pose proof (Z.mod_pos_bound bt 3 ltac:(lia)). lia.
    - lia. }
  clearbody b. destruct_machine s. fw_step.
  destruct (is_parallel m_dev) eqn:Hp.
  - fw_step. unfold loadComm_events, pulse_events. rewrite ?Hp.
    destruct (m_dev =? 0) eqn:Hd;
      destruct Hb as [-> | [-> | [-> | ->]]];
      cbv beta iota zeta delta [Z.eqb Pos.eqb]; fw_step; give_run m_trace;
      (split; [apply u8_range | split; reflexivity]).
  - destruct Hb as [-> | [-> | [-> | ->]]];
      cbv beta iota zeta delta [Z.eqb Pos.eqb]; fw_step; give_run m_trace;
      (split; [unfold exchange_result; apply u8_range | split; reflexivity]).
Qed.

(** ** Entering programming mode *)

(** Detection answers 0 or 1 and changes nothing but the device type, the
    read position and the trace. *)
Lemma avr_progMode_frame (fuel : nat) s :
  (1002 <= fuel)%nat ->
  exists r s',
    avr_progMode fuel s = Some (r, s')
    /\ (r = 0 \/ r = 1)
    /\ isp_hiaddr s' = isp_hiaddr s
    /\ prog_pagesize s' = prog_pagesize s
    /\ prog_pagecounter s' = prog_pagecounter s
    /\ low_byte s' = low_byte s
    /\ prog s' = prog s
    /\ replyBuffer s' = replyBuffer s
    /\ pin s' = pin s.
Proof.
  intros Hf. destruct_machine s. unfold avr_progMode. fw_unfold.
  run_poll p0 Hpow0 Hcnt0.
  fw_case; fw_unfold.
  { exists 0. eexists. split; [reflexivity|]. fw_unfold. repeat split.
    now left. }
  run_poll p1 Hpow1 Hcnt1.
  fw_case; fw_unfold.
  { exists 0. eexists. split; [reflexivity|]. fw_unfold. repeat split.
    now left. }
  run_poll p2 Hpow2 Hcnt2.
  fw_case; fw_unfold.
  { exists 0. eexists. split; [reflexivity|]. fw_unfold. repeat split.
    now left. }
  exists 1. eexists. split; [reflexivity|]. fw_unfold. repeat split.
  now right.
Qed.


(** ** Control requests *)

Lemma set_nth_length i v l : length (set_nth i v l) = length l.
Proof.
  revert i; induction l as [|x l IH]; intros [|i]; cbn; try reflexivity.
  now rewrite IH.
Qed.

(** X9.  [usbFunctionSetup] answers a request in one of two ways.  The six
    streaming commands only capture the header: they return 0xff, select the
    state of the data phase, and touch neither the target nor the reply
    buffer.  Every other command that does not wait on the clock returns a
    reply length of at most 4 and leaves the state and the remaining byte
    count of a data phase in progress as they were. *)
Theorem setup_streaming_or_immediate :
  forall (fuel : nat) (func_of : Z -> usbasp_func)
         (first sck8 cap num F_CPU sstcs : Z) (data : list Z) (s : machine),
    (0xFFF <= fuel)%nat ->
    waits_on_clock (func_of (byte 1 data)) = false ->
    exists len s',
      usbFunctionSetup fuel func_of first sck8 cap num F_CPU sstcs data s
      = Some (len, s')
      /\ length (replyBuffer s') = length (replyBuffer s)
      /\ match streaming_state (func_of (byte 1 data)) with
         | Some st =>
             len = 0xff /\ state (prog s') = st
             /\ trace s' = trace s /\ reads s' = reads s
             /\ dev_type s' = dev_type s
             /\ replyBuffer s' = replyBuffer s
         | None =>
             0 <= len <= 4
             /\ state (prog s') = state (prog s)
             /\ nbytes (prog s') = nbytes (prog s)
         end.
Proof.
  intros fuel func_of first sck8 cap num F_CPU sstcs data s Hf Hw.
  unfold usbFunctionSetup, short_address, set_length, set_reply.
  destruct (func_of (byte 1 data)); try discriminate Hw;
    cbn [streaming_state]; clear Hw.
  - (* CONNECT *)
    destruct_machine s. unfold ispSetSCKOption, ispConnect. fw_step.
    fw_case; fw_step; run_bsy Hf k new Hto;
      (eexists; eexists; split; [reflexivity|]); fw_unfold;
      repeat split; lia.
  - (* DISCONNECT *)
    destruct_machine s. unfold ispDisconnect. fw_step.
    eexists; eexists; split; [reflexivity|]; fw_unfold; repeat split; lia.
  - (* READFLASH *)
    destruct_machine s. fw_step. fw_case; fw_step;
      (eexists; eexists; split; [reflexivity|]); fw_unfold; repeat split.
  - (* READEEPROM *)
    destruct_machine s. fw_step. fw_case; fw_step;
      (eexists; eexists; split; [reflexivity|]); fw_unfold; repeat split.
  - (* ENABLEPROG *)
    unfold ispEnterProgrammingMode.
    destruct (avr_progMode_frame fuel s ltac:(lia))
      as (r & s' & Hrun & _ & _ & _ & _ & _ & Hprog & Hrep & _).
    rewrite (bind_run _ _ _ _ _ Hrun), <- Hprog, <- Hrep.
    destruct_machine s'. fw_step.
    eexists; eexists; split; [reflexivity|]; fw_unfold.
    rewrite set_nth_length. repeat split; lia.
  - (* WRITEFLASH *)
    destruct_machine s. fw_step. repeat (fw_case; fw_step);
      (eexists; eexists; split; [reflexivity|]); fw_unfold; repeat split.
  - (* WRITEEEPROM *)
    destruct_machine s. fw_step. fw_case; fw_step;
      (eexists; eexists; split; [reflexivity|]); fw_unfold; repeat split.
  - (* SETLONGADDRESS *)
    destruct_machine s. fw_step.
    eexists; eexists; split; [reflexivity|]; fw_unfold; repeat split; lia.
  - (* SETISPSCK *)
    destruct_machine s. fw_step.
    eexists; eexists; split; [reflexivity|]; fw_unfold.
    rewrite set_nth_length. repeat split; lia.
  - (* TPI_READBLOCK *)
    destruct_machine s. fw_step.
    eexists; eexists; split; [reflexivity|]; fw_unfold; repeat split.
  - (* TPI_WRITEBLOCK *)
    destruct_machine s. fw_step.
    eexists; eexists; split; [reflexivity|]; fw_unfold; repeat split.
  - (* GETCAPABILITIES *)
    destruct_machine s. fw_step.
    eexists; eexists; split; [reflexivity|]; fw_unfold.
    rewrite !set_nth_length. repeat split; lia.
  - (* any other request *)
    destruct_machine s. fw_step.
    eexists; eexists; split; [reflexivity|]; fw_unfold; repeat split; lia.
Qed.

(** ** Decoding the request header *)

Lemma forall_byte2 (P : Z -> Z -> bool) :
  forallb (fun x => forallb (P x) (map Z.of_nat (seq 0 256)))
    (map Z.of_nat (seq 0 256)) = true ->
  forall x y, 0 <= x < 256 -> 0 <= y < 256 -> P x y = true.
Proof.
  intros H x y Hx Hy.
  apply (forall_byte (P x)); [|exact Hy].
  apply (forall_byte
           (fun x => forallb (P x) (map Z.of_nat (seq 0 256)))); assumption.
Qed.

Lemma byte_range i data : 0 <= byte i data < 256.
Proof. apply u8_range. Qed.

(** [(data[hi] << 8) | data[lo]] is the little-endian word. *)
Lemma word_of_value data lo hi :
  word_of data lo hi = byte lo data + 256 * byte hi data.
Proof.
  unfold word_of. apply Z.eqb_eq.
  apply (forall_byte2
           (fun h l => Z.lor (Z.shiftl h 8) l =? l + 256 * h));
    [vm_compute; reflexivity | apply byte_range | apply byte_range].
Qed.

Lemma length_word data :
  u16 (word_of data 6 7) = byte 6 data + 256 * byte 7 data.
Proof.
  rewrite word_of_value. apply u16_small.
  pose proof (byte_range 6 data). pose proof (byte_range 7 data). lia.
Qed.

Lemma pagesize_word b4 b5 :
  0 <= b4 < 256 -> 0 <= b5 < 256 ->
  u16 (b4 + Z.shiftl (Z.land b5 0xF0) 4) = b4 + 256 * (b5 / 16)
  /\ u8 (u16 (b4 + Z.shiftl (Z.land b5 0xF0) 4)) = b4
  /\ Z.land b5 0x0F = b5 mod 16.
Proof.
  intros H4 H5.
  pose proof (forall_byte2
    (fun b5 b4 =>
       (u16 (b4 + Z.shiftl (Z.land b5 0xF0) 4) =? b4 + 256 * (b5 / 16))
       && (u8 (u16 (b4 + Z.shiftl (Z.land b5 0xF0) 4)) =? b4)
       && (Z.land b5 0x0F =? b5 mod 16))
    ltac:(vm_compute; reflexivity) b5 b4 H5 H4) as H.
  cbv beta in H. apply andb_true_iff in H. destruct H as [H H3].
  apply andb_true_iff in H. destruct H as [H1 H2].
  apply Z.eqb_eq in H1, H2, H3. auto.
Qed.

(** X10.  The header of a flash write, as [usbFunctionSetup] decodes it: the
    length is the little-endian word of bytes 6 and 7, the page size has
    byte 4 as its low byte and the high nibble of byte 5 above it, the block
    flags are the low nibble of byte 5.  With the first-block flag the 8-bit
    page counter is armed with the low byte of the page size only.  The
    address is left alone in long-address mode and is otherwise the word of
    bytes 2 and 3 (up to 0x7FFF). *)
Theorem writeflash_header_decode :
  forall (fuel : nat) (func_of : Z -> usbasp_func)
         (first sck8 cap num F_CPU sstcs : Z) (data : list Z) (s : machine),
    func_of (byte 1 data) = USBASP_FUNC_WRITEFLASH ->
    exists s',
      usbFunctionSetup fuel func_of first sck8 cap num F_CPU sstcs data s
      = Some (0xff, s')
      /\ nbytes (prog s') = byte 6 data + 256 * byte 7 data
      /\ pagesize (prog s') = byte 4 data + 256 * (byte 5 data / 16)
      /\ blockflags (prog s') = byte 5 data mod 16
      /\ pagecounter (prog s')
         = (if Z.land (byte 5 data mod 16) first =? 0
            then pagecounter (prog s) else byte 4 data)
      /\ (address_newmode (prog s) <> 0 ->
          address (prog s') = address (prog s))
      /\ (address_newmode (prog s) = 0 -> byte 3 data < 128 ->
          address (prog s') = byte 2 data + 256 * byte 3 data)
      /\ sck_option (prog s') = sck_option (prog s)
      /\ address_newmode (prog s') = address_newmode (prog s).
Proof.
  intros fuel func_of first sck8 cap num F_CPU sstcs data s Hfn.
  unfold usbFunctionSetup, short_address, set_length. rewrite Hfn.
  destruct (pagesize_word (byte 4 data) (byte 5 data)
              (byte_range 4 data) (byte_range 5 data)) as (Hps & Hpc & Hbf).
  pose proof (byte_range 2 data) as H2. pose proof (byte_range 3 data) as H3.
  assert (Hshort : byte 3 data < 128 ->
            int_to_ulong (word_of data 2 3)
            = byte 2 data + 256 * byte 3 data).
  { intros Hlt. unfold int_to_ulong. rewrite word_of_value.
    rewrite u16_small by lia.
    destruct (Z.ltb_spec (byte 2 data + 256 * byte 3 data) 32768);
      [reflexivity | lia]. }
  rewrite Hps in Hpc.
  destruct_machine s. fw_step. rewrite Hbf, Hps, length_word.
  destruct (p_newmode =? 0) eqn:Hnm; fw_step;
    destruct (Z.land (byte 5 data mod 16) first =? 0) eqn:Hfl; fw_step;
    (eexists; split; [reflexivity|]); fw_unfold;
    rewrite ?Hps, ?Hpc, ?Hfl;
    repeat split; try reflexivity; intros; try (apply Hshort; assumption);
    apply Z.eqb_neq in Hnm || apply Z.eqb_eq in Hnm; try contradiction;
    try reflexivity.
Qed.

(** X11.  In legacy addressing a 16-bit address with bit 15 set is captured
    sign-extended: [(data[3] << 8) | data[2]] is a negative [int] and its
    conversion to [unsigned long] sets the upper sixteen bits.  The segment
    that [ispUpdateExtended] derives from such an address is 0xFF. *)
Theorem legacy_address_sign_extends :
  forall (fuel : nat) (func_of : Z -> usbasp_func)
         (first sck8 cap num F_CPU sstcs : Z) (data : list Z) (s : machine),
    func_of (byte 1 data) = USBASP_FUNC_READFLASH ->
    address_newmode (prog s) = 0 ->
    128 <= byte 3 data ->
    exists s',
      usbFunctionSetup fuel func_of first sck8 cap num F_CPU sstcs data s
      = Some (0xff, s')
      /\ address (prog s')
         = 0xFFFF0000 + byte 2 data + 256 * byte 3 data
      /\ high_segment (address (prog s')) = 0xFF.
Proof.
  intros fuel func_of first sck8 cap num F_CPU sstcs data s Hfn Hnm Hhi.
  unfold usbFunctionSetup, short_address, set_length. rewrite Hfn.
  pose proof (byte_range 2 data) as H2. pose proof (byte_range 3 data) as H3.
  assert (Hlong : int_to_ulong (word_of data 2 3)
                  = 0xFFFF0000 + byte 2 data + 256 * byte 3 data).
  { unfold int_to_ulong. rewrite word_of_value.
    rewrite u16_small by lia.
    destruct (Z.ltb_spec (byte 2 data + 256 * byte 3 data) 32768); lia. }
  destruct_machine s. fw_unfold in Hnm. subst p_newmode. fw_step.
  cbv beta iota zeta delta [Z.eqb]. fw_step.
  eexists. split; [reflexivity|]. fw_unfold. rewrite Hlong.
  split; [reflexivity|].
  unfold high_segment.
  apply Z.eqb_eq.
  apply (forall_byte2
           (fun h l =>
              (h <? 128)
              || (Z.land (Z.shiftr (0xFFFF0000 + l + 256 * h) 17) 0xFF
                  =? 0xFF)) ltac:(vm_compute; reflexivity)
           (byte 3 data) (byte 2 data)) in H2 as Hb; [|exact H3].
  apply orb_true_iff in Hb. destruct Hb as [Hb|Hb]; [|exact Hb].
  apply Z.ltb_lt in Hb. lia.
Qed.

(** X12.  A long address set by SETLONGADDRESS is the little-endian 32-bit word of
    bytes 2 to 5, and the header of a following flash or EEPROM transfer
    leaves it alone, whatever its own bytes 2 and 3 are. *)
Theorem long_address_survives_header :
  forall (fuel : nat) (func_of : Z -> usbasp_func)
         (first sck8 cap num F_CPU sstcs : Z) (d1 d2 : list Z) (s : machine)
         (st : prog_state),
    func_of (byte 1 d1) = USBASP_FUNC_SETLONGADDRESS ->
    streaming_state (func_of (byte 1 d2)) = Some st ->
    st <> PROG_STATE_TPI_READ -> st <> PROG_STATE_TPI_WRITE ->
    exists s1 s2,
      usbFunctionSetup fuel func_of first sck8 cap num F_CPU sstcs d1 s = Some (0, s1)
      /\ usbFunctionSetup fuel func_of first sck8 cap num F_CPU sstcs d2 s1
         = Some (0xff, s2)
      /\ address (prog s2)
         = byte 2 d1 + 256 * byte 3 d1 + 65536 * byte 4 d1
           + 16777216 * byte 5 d1
      /\ address_newmode (prog s2) = 1
      /\ state (prog s2) = st.
Proof.
  intros fuel func_of first sck8 cap num F_CPU sstcs d1 d2 s st Hf1 Hf2 Hr Hw.
  assert (Hsecond : forall s1, address_newmode (prog s1) = 1 ->
            exists s2,
              usbFunctionSetup fuel func_of first sck8 cap num F_CPU sstcs d2 s1
              = Some (0xff, s2)
              /\ address (prog s2) = address (prog s1)
              /\ address_newmode (prog s2) = 1
              /\ state (prog s2) = st).
  { intros s1 Hnm. unfold usbFunctionSetup, short_address, set_length.
    destruct_machine s1. fw_unfold in Hnm. subst p_newmode.
    destruct (func_of (byte 1 d2)); try discriminate Hf2;
      cbn [streaming_state] in Hf2; injection Hf2 as <-;
      try contradiction; fw_step;
      cbv beta iota zeta delta [Z.eqb]; fw_step;
      repeat (fw_case; fw_step);
      (eexists; split; [reflexivity|]); fw_unfold; repeat split. }
  assert (Hfirst : exists s1,
            usbFunctionSetup fuel func_of first sck8 cap num F_CPU sstcs d1 s
            = Some (0, s1)
            /\ address (prog s1)
               = byte 2 d1 + 256 * byte 3 d1 + 65536 * byte 4 d1
                 + 16777216 * byte 5 d1
            /\ address_newmode (prog s1) = 1).
  { unfold usbFunctionSetup. rewrite Hf1.
    rewrite !Z.shiftl_mul_pow2 by lia.
    change (2 ^ 8) with 256. change (2 ^ 16) with 65536.
    change (2 ^ 24) with 16777216.
    destruct_machine s. fw_step.
    eexists. split; [reflexivity|]. fw_unfold. split; [lia | reflexivity]. }
  destruct Hfirst as (s1 & Hrun1 & Ha1 & Hn1).
  destruct (Hsecond s1 Hn1) as (s2 & Hrun2 & Ha2 & Hn2 & Hs2).
  exists s1, s2. rewrite Ha2, Ha1. auto.
Qed.

(** ** The read data phase *)

Lemma strobes_exchange i d p n :
  count_events is_write_strobe (exchange_events i d p n) = 0%nat.
Proof. reflexivity. Qed.

Lemma strobes_loadComm d c :
  count_events is_write_strobe (loadComm_events d c) = 0%nat.
Proof.
  unfold loadComm_events. destruct (is_parallel d), (d =? 0); reflexivity.
Qed.

Lemma strobes_loadAdd d a h :
  count_events is_write_strobe (loadAdd_events d a h) = 0%nat.
Proof.
  unfold loadAdd_events.
  destruct (is_parallel d), (d =? 0), (h =? 0); reflexivity.
Qed.

Ltac strobe_norm :=
  unfold write_strobes;
  repeat first [rewrite count_events_app | rewrite count_events_rev
               | rewrite count_events_cons];
  rewrite ?strobes_exchange, ?strobes_loadComm, ?strobes_loadAdd;
  cbn [is_write_strobe].

(** [ispReadFlash] returns a byte, takes one sample on a parallel target and
    66 on a serial one, and leaves the session alone. *)
Lemma ispReadFlash_frame a s :
  exists r s',
    ispReadFlash a s = Some (r, s')
    /\ 0 <= r < 256
    /\ prog s' = prog s /\ dev_type s' = dev_type s /\ pin s' = pin s
    /\ reads s' = ((if is_parallel (dev_type s) then 1 else 66) + reads s)%nat
    /\ (is_parallel (dev_type s) = true -> r = u8 (pin s (reads s)))
    /\ calls R_ispReadFlash (trace s') = S (calls R_ispReadFlash (trace s))
    /\ write_strobes (trace s') = write_strobes (trace s).
Proof.
  destruct_machine s.
  unfold ispReadFlash, parallelReadFlash, serialReadFlash, ispUpdateExtended.
  fw_step. repeat (fw_case; fw_step);
    (eexists; eexists; split; [reflexivity|]); fw_unfold;
    (split; [first [apply u8_range | unfold exchange_result; apply u8_range]|]);
    repeat split; try discriminate; try lia;
    first [count_norm; lia | strobe_norm; lia].
Qed.

Lemma set_address_same p : set_address (address p) p = p.
Proof. destruct p; reflexivity. Qed.

Lemma u32_range x : 0 <= u32 x < 4294967296.
Proof. unfold u32. apply Z.mod_pos_bound. lia. Qed.

Lemma u32_succ a n : u32 (u32 (a + 1) + n) = u32 (a + (1 + n)).
Proof.
  unfold u32. rewrite Z.add_mod_idemp_l by lia. f_equal. lia.
Qed.

(** One turn of the loop of [usbFunctionRead] during a flash read. *)
Lemma read_byte_flash s :
  state (prog s) = PROG_STATE_READFLASH ->
  exists b s',
    read_byte s = Some (b, s')
    /\ 0 <= b < 256
    /\ prog s' = set_address (u32 (address (prog s) + 1)) (prog s)
    /\ dev_type s' = dev_type s /\ pin s' = pin s
    /\ reads s' = ((if is_parallel (dev_type s) then 1 else 66) + reads s)%nat
    /\ (is_parallel (dev_type s) = true -> b = u8 (pin s (reads s)))
    /\ calls R_ispReadFlash (trace s') = S (calls R_ispReadFlash (trace s))
    /\ write_strobes (trace s') = write_strobes (trace s).
Proof.
  intros Hst.
  destruct (ispReadFlash_frame (address (prog s)) s)
    as (r & s1 & Hrun & Hr & Hprog & Hdev & Hpin & Hreads & Hval & Hc & Hw).
  unfold read_byte, get_prog, mod_prog, get, modify.
  cbv beta iota zeta delta [bind ret]. rewrite Hst. cbn [is_state].
  rewrite Hrun. exists r. eexists. split; [reflexivity|].
  split; [exact Hr|].
  cbv beta iota zeta delta [fst snd].
  destruct s1 as [? ? ? ? ? pr1 ? ? ? ?].
  cbn [prog dev_type pin reads trace set_prog] in *. subst pr1.
  repeat split; assumption.
Qed.

(** The loop of [usbFunctionRead] during a flash read. *)
Lemma read_bytes_flash : forall (n : nat) s,
  state (prog s) = PROG_STATE_READFLASH ->
  0 <= address (prog s) < 4294967296 ->
  exists l s',
    read_bytes n s = Some (l, s')
    /\ length l = n
    /\ Forall (fun b => 0 <= b < 256) l
    /\ prog s'
       = set_address (u32 (address (prog s) + Z.of_nat n)) (prog s)
    /\ dev_type s' = dev_type s /\ pin s' = pin s
    /\ reads s'
       = (n * (if is_parallel (dev_type s) then 1 else 66) + reads s)%nat
    /\ (is_parallel (dev_type s) = true ->
        l = map (fun i => u8 (pin s (i + reads s))) (seq 0 n))
    /\ calls R_ispReadFlash (trace s')
       = (n + calls R_ispReadFlash (trace s))%nat
    /\ write_strobes (trace s') = write_strobes (trace s).
Proof.
  induction n as [|n IH]; intros s Hst Ha.
  - exists [], s. cbn [read_bytes length map seq Nat.mul Nat.add].
    split; [reflexivity|]. split; [reflexivity|]. split; [constructor|].
    split.
    { rewrite Z.add_0_r. unfold u32. rewrite Z.mod_small by lia.
      symmetry. apply set_address_same. }
    repeat split.
  - destruct (read_byte_flash s Hst)
      as (b & s1 & Hrun & Hb & Hprog & Hdev & Hpin & Hreads & Hval & Hc & Hw).
    assert (Hst1 : state (prog s1) = PROG_STATE_READFLASH).
    { rewrite Hprog. destruct (prog s); exact Hst. }
    assert (Ha1 : address (prog s1) = u32 (address (prog s) + 1)).
    { rewrite Hprog. destruct (prog s); reflexivity. }
    destruct (IH s1 Hst1)
      as (l & s' & Hrun' & Hlen & Hall & Hprog' & Hdev' & Hpin' & Hreads'
          & Hval' & Hc' & Hw').
    { rewrite Ha1. apply u32_range. }
    exists (b :: l), s'. cbn [read_bytes].
    rewrite (bind_run _ _ _ _ _ Hrun), (bind_run _ _ _ _ _ Hrun').
    split; [reflexivity|]. split; [cbn [length]; lia|].
    split; [constructor; assumption|].
    split.
    { rewrite Hprog', Ha1, Hprog, u32_succ.
      replace (1 + Z.of_nat n) with (Z.of_nat (S n)) by lia.
      destruct (prog s); reflexivity. }
    split; [congruence|]. split; [congruence|].
    split; [rewrite Hreads', Hdev, Hreads; lia|].
    split.
    { intros Hp. rewrite Hdev in Hval'. rewrite (Hval Hp), (Hval' Hp).
      cbn [seq map Nat.add]. f_equal.
      rewrite <- seq_shift, map_map. apply map_ext. intros i.
      rewrite Hpin, Hreads, Hp. f_equal. f_equal. lia. }
    split; [rewrite Hc', Hc; lia | congruence].
Qed.

(** X13.  A data packet of a flash read.  [usbFunctionRead] fills the packet with
    [len] bytes, one [ispReadFlash] call each, and advances the address by
    [len].  It never decrements the remaining byte count: the phase ends
    when, and only when, a packet is shorter than 8 bytes.  Reading never
    pulses WR.  From a parallel target the bytes are the next [len] samples
    of the data bus. *)
Theorem read_flash_phase :
  forall (tpi : Z -> Z -> list Z) (len : Z) (s : machine),
    state (prog s) = PROG_STATE_READFLASH ->
    0 <= len <= 255 ->
    0 <= address (prog s) < 4294967296 ->
    exists l s',
      usbFunctionRead tpi len s = Some ((l, len), s')
      /\ length l = Z.to_nat len
      /\ Forall (fun b => 0 <= b < 256) l
      /\ address (prog s') = u32 (address (prog s) + len)
      /\ nbytes (prog s') = nbytes (prog s)
      /\ state (prog s')
         = (if len <? 8 then PROG_STATE_IDLE else PROG_STATE_READFLASH)
      /\ calls R_ispReadFlash (trace s')
         = (Z.to_nat len + calls R_ispReadFlash (trace s))%nat
      /\ write_strobes (trace s') = write_strobes (trace s)
      /\ (is_parallel (dev_type s) = true ->
          l = map (fun i => u8 (pin s (i + reads s))) (seq 0 (Z.to_nat len))).
Proof.
  intros tpi len s Hst Hlen Ha.
  destruct (read_bytes_flash (Z.to_nat len) s Hst Ha)
    as (l & s1 & Hrun & Hl & Hall & Hprog & Hdev & Hpin & Hreads & Hval
        & Hc & Hw).
  rewrite Z2Nat.id in Hprog by lia.
  unfold usbFunctionRead, get_prog, mod_prog, get, modify, when.
  cbv beta iota zeta delta [bind ret]. rewrite Hst.
  cbn [reading_state negb is_state]. rewrite Hrun.
  exists l.
  destruct s1 as [? ? ? ? ? pr1 ? ? ? ?].
  cbn [prog dev_type pin reads trace] in *. subst pr1.
  destruct (prog s) as [st sck nm ad nb ps bf pc].
  cbn [state address set_address] in *.
  destruct (len <? 8); (eexists; split; [reflexivity|]);
    cbv beta iota zeta delta [fst snd];
    cbn [prog trace set_prog set_state set_address state address nbytes
         sck_option address_newmode pagesize blockflags pagecounter];
    repeat split; assumption.
Qed.

(** ** The write data phase outside flash *)

(** The busy-wait only acts on the bus. *)
Lemma bsy_loop_bus : forall (n : nat) delay s,
  0 <= delay < 0xFFF -> 0xFFF - delay <= Z.of_nat n ->
  exists k new, bsy_loop n delay s = Some (tt, advance k new s)
    /\ forallb on_bus new = true.
Proof.
  induction n as [|n IH]; intros delay s Hd Hn; [lia|].
  cbn [bsy_loop].
  rewrite (bind_run _ _ _ _ _ (DATA_PIN_run s)).
  destruct (Z.land (u8 (pin s (reads s))) 1 =? 0) eqn:Hp.
  - unfold _delay_us.
    rewrite (bind_run _ _ _ _ _ (eq_refl : emit (DelayUs 10) _ = Some (tt, _))).
    assert (Hu : u16 (delay + 1) = delay + 1)
      by (unfold u16; apply Z.mod_small; lia).
    rewrite Hu.
    destruct (delay + 1 =? 0xFFF) eqn:He.
    + exists 1%nat.
      exists [Drive VPP HIGH; DelayMs 10; Drive VPP LOW; DelayUs 10;
              Sample (u8 (pin s (reads s)))].
      split; reflexivity.
    + apply Z.eqb_neq in He.
      match goal with |- context [bsy_loop n ?d ?st] =>
        destruct (IH d st) as (k & new & Hrun & Hbus); [lia | lia |] end.
      rewrite Hrun.
      exists (k + 1)%nat.
      exists (new ++ [DelayUs 10; Sample (u8 (pin s (reads s)))]). split.
      * f_equal. f_equal. destruct_machine s. machine_eq.
      * rewrite forallb_app, Hbus. reflexivity.
  - exists 1%nat. exists [Sample (u8 (pin s (reads s)))].
    split; reflexivity.
Qed.

Lemma avr_bsySerial_bus (fuel : nat) s :
  (0xFFF <= fuel)%nat ->
  exists k new, avr_bsySerial fuel s = Some (tt, advance k new s)
    /\ forallb on_bus new = true.
Proof.
  intros Hf. unfold avr_bsySerial, _delay_us.
  rewrite (bind_run _ _ _ _ _ (eq_refl : emit (DelayUs 50) s = Some (tt, _))).
  match goal with |- context [bsy_loop fuel 0 ?st] =>
    destruct (bsy_loop_bus fuel 0 st) as (k & new & Hrun & Hbus);
      [lia | lia |] end.
  rewrite Hrun. exists k. exists (new ++ [DelayUs 50]). split.
  - f_equal. f_equal. destruct_machine s. machine_eq.
  - rewrite forallb_app, Hbus. reflexivity.
Qed.

(** [ispWriteEEPROM] returns 0, leaves the session alone and calls no other
    routine of the access layer. *)
Lemma ispWriteEEPROM_frame (fuel : nat) a d s :
  (0xFFF <= fuel)%nat ->
  exists s', ispWriteEEPROM fuel a d s = Some (0, s')
    /\ prog s' = prog s /\ dev_type s' = dev_type s
    /\ calls R_ispWriteEEPROM (trace s')
       = S (calls R_ispWriteEEPROM (trace s))
    /\ calls R_ispWriteFlash (trace s') = calls R_ispWriteFlash (trace s)
    /\ calls R_ispFlushPage (trace s') = calls R_ispFlushPage (trace s).
Proof.
  intros Hf. destruct_machine s. unfold ispWriteEEPROM. fw_step.
  fw_case; fw_step.
  - eexists. split; [reflexivity|]. fw_unfold. repeat split;
      count_norm; lia.
  - match goal with |- context [avr_bsySerial ?fuel ?st] =>
      destruct (avr_bsySerial_bus fuel st Hf) as (k & new & Hrun & Hbus);
      rewrite Hrun; fw_unfold end.
    eexists. split; [reflexivity|]. fw_unfold. repeat split;
      count_norm;
      rewrite !(count_bus_only _ new (is_enter_bus _) Hbus); lia.
Qed.

(** [ispFlushPage] calls no other routine of the access layer. *)
Lemma ispFlushPage_calls a p s :
  exists s', ispFlushPage a p s = Some (0, s')
    /\ prog s' = prog s /\ dev_type s' = dev_type s
    /\ calls R_ispFlushPage (trace s')
       = S (calls R_ispFlushPage (trace s))
    /\ calls R_ispWriteEEPROM (trace s')
       = calls R_ispWriteEEPROM (trace s)
    /\ calls R_ispWriteFlash (trace s') = calls R_ispWriteFlash (trace s).
Proof.
  destruct_machine s.
  unfold ispFlushPage, ispUpdateExtended.
  fw_step. repeat (fw_case; fw_step);
    (eexists; split; [reflexivity|]); fw_unfold; repeat split;
    count_norm; lia.
Qed.

(** One turn of the loop of [usbFunctionWrite] in any state but a flash
    write: the byte goes to [ispWriteEEPROM]. *)
Lemma write_byte_eeprom (fuel : nat) last d r s :
  (0xFFF <= fuel)%nat ->
  is_state (state (prog s)) PROG_STATE_WRITEFLASH = false ->
  exists s',
    write_byte fuel last d r s
    = Some ((if u16 (nbytes (prog s) - 1) =? 0 then 1 else r), s')
    /\ prog s'
       = mkProg (if u16 (nbytes (prog s) - 1) =? 0 then PROG_STATE_IDLE
                 else state (prog s))
           (sck_option (prog s)) (address_newmode (prog s))
           (u32 (address (prog s) + 1)) (u16 (nbytes (prog s) - 1))
           (pagesize (prog s)) (blockflags (prog s)) (pagecounter (prog s))
    /\ dev_type s' = dev_type s
    /\ calls R_ispWriteEEPROM (trace s')
       = S (calls R_ispWriteEEPROM (trace s))
    /\ calls R_ispWriteFlash (trace s') = calls R_ispWriteFlash (trace s)
    /\ calls R_ispFlushPage (trace s')
       = (calls R_ispFlushPage (trace s)
          + (if ((u16 (nbytes (prog s) - 1) =? 0)
                 && (negb (Z.land (blockflags (prog s)) last =? 0)
                     && negb (pagecounter (prog s) =? pagesize (prog s))))%Z
             then 1 else 0))%nat.
Proof.
  intros Hf Hst. destruct_machine s. fw_unfold in Hst.
  unfold write_byte. fw_unfold. rewrite Hst.
  match goal with |- context [ispWriteEEPROM ?f ?a ?v ?st] =>
    destruct (ispWriteEEPROM_frame f a v st Hf)
      as (s1 & Hrun & Hprog & Hdev & He & Hw & Hfl);
    rewrite Hrun; clear Hrun;
    destruct s1 as [d1 ? ? ? ? pr1 ? ? ? ?];
    fw_unfold in Hprog; fw_unfold in Hdev; fw_unfold in He;
    fw_unfold in Hw; fw_unfold in Hfl; subst pr1 d1; fw_unfold end.
  destruct (u16 (p_nbytes - 1) =? 0) eqn:Hfin; fw_unfold;
    [|eexists; split; [reflexivity|]; fw_unfold; cbn [andb];
      repeat split; lia].
  destruct (Z.land p_flags last =? 0) eqn:Hbf; cbn [negb andb]; fw_unfold;
    [eexists; split; [reflexivity|]; fw_unfold; repeat split; lia|].
  destruct (p_pcount =? p_psize) eqn:Hpc; cbn [negb andb]; fw_unfold;
    [eexists; split; [reflexivity|]; fw_unfold; repeat split; lia|].
  match goal with |- context [ispFlushPage ?a ?v ?st] =>
    destruct (ispFlushPage_calls a v st)
      as (s2 & Hrun2 & Hprog2 & Hdev2 & Hfl2 & He2 & Hw2);
    rewrite Hrun2; clear Hrun2;
    destruct s2 as [d2 ? ? ? ? pr2 ? ? ? ?];
    fw_unfold in Hprog2; fw_unfold in Hdev2; fw_unfold in He2;
    fw_unfold in Hw2; fw_unfold in Hfl2; subst pr2 d2; fw_unfold end.
  eexists; split; [reflexivity|]; fw_unfold; repeat split; lia.
Qed.

(** A run of bytes of an EEPROM write, as long as the bytes do not outnumber
    [prog.nbytes] and the last-block flag is clear. *)
Lemma write_bytes_eeprom (fuel : nat) last : forall data r s,
  (0xFFF <= fuel)%nat ->
  state (prog s) = PROG_STATE_WRITEEEPROM ->
  Z.land (blockflags (prog s)) last = 0 ->
  1 <= nbytes (prog s) <= 65535 ->
  Z.of_nat (length data) <= nbytes (prog s) ->
  exists r' s',
    write_bytes fuel last data r s = Some (r', s')
    /\ r' = (if Z.of_nat (length data) =? nbytes (prog s) then 1 else r)
    /\ state (prog s')
       = (if Z.of_nat (length data) =? nbytes (prog s) then PROG_STATE_IDLE
          else PROG_STATE_WRITEEEPROM)
    /\ nbytes (prog s') = nbytes (prog s) - Z.of_nat (length data)
    /\ blockflags (prog s') = blockflags (prog s)
    /\ dev_type s' = dev_type s
    /\ calls R_ispWriteEEPROM (trace s')
       = (length data + calls R_ispWriteEEPROM (trace s))%nat
    /\ calls R_ispWriteFlash (trace s') = calls R_ispWriteFlash (trace s)
    /\ calls R_ispFlushPage (trace s') = calls R_ispFlushPage (trace s).
Proof.
  induction data as [|d data IH]; intros r s Hf Hst Hbf Hn Hlen.
  - exists r, s. cbn [write_bytes length Nat.add].
    assert (E : (Z.of_nat 0 =? nbytes (prog s)) = false)
      by (apply Z.eqb_neq; cbn; lia).
    rewrite E. repeat split; try assumption. cbn. lia.
  - destruct (write_byte_eeprom fuel last (u8 d) r s Hf)
      as (s1 & Hrun & Hprog & Hdev & He & Hw & Hfl).
    { rewrite Hst. reflexivity. }
    rewrite Hbf in Hfl. cbn [Z.eqb negb andb] in Hfl.
    rewrite andb_false_r in Hfl.
    rewrite u16_small in Hrun, Hprog by lia.
    cbn [write_bytes length] in *. rewrite (bind_run _ _ _ _ _ Hrun).
    destruct (Z.eq_dec (nbytes (prog s)) 1) as [E1|E1].
    + assert (data = []) as ->
        by (destruct data; [reflexivity | cbn in Hlen; lia]).
      rewrite E1 in *. cbn [write_bytes length Z.sub Z.eqb Z.of_nat
                            Pos.of_succ_nat Pos.eqb Z.pos_sub] in *.
      eexists. exists s1. split; [reflexivity|]. rewrite Hprog.
      cbn [state nbytes blockflags]. repeat split; try assumption; lia.
    + assert (E0 : (nbytes (prog s) - 1 =? 0) = false)
        by (apply Z.eqb_neq; lia).
      rewrite E0 in *.
      destruct (IH r s1 Hf) as (r' & s' & Hrun' & Hr' & Hst' & Hn' & Hbf'
                                 & Hdev' & He' & Hw' & Hfl').
      * rewrite Hprog. exact Hst.
      * rewrite Hprog. exact Hbf.
      * rewrite Hprog. cbn [nbytes]. lia.
      * rewrite Hprog. cbn [nbytes]. lia.
      * rewrite Hprog in Hr', Hst', Hn', Hbf'.
        cbn [nbytes blockflags] in Hr', Hst', Hn', Hbf'.
        replace (Z.of_nat (S (length data)) =? nbytes (prog s))
          with (Z.of_nat (length data) =? nbytes (prog s) - 1)
          by (destruct (Z.of_nat (length data) =? nbytes (prog s) - 1) eqn:A;
              destruct (Z.of_nat (S (length data)) =? nbytes (prog s)) eqn:B;
              try reflexivity;
              [apply Z.eqb_eq in A; apply Z.eqb_neq in B
              |apply Z.eqb_neq in A; apply Z.eqb_eq in B]; lia).
        exists r', s'. split; [exact Hrun'|].
        repeat split; try assumption; try congruence; lia.
Qed.

Lemma usbFunctionWrite_eeprom (fuel : nat) last data s :
  state (prog s) = PROG_STATE_WRITEEEPROM ->
  usbFunctionWrite fuel last data s = write_bytes fuel last data 0 s.
Proof.
  intros Hst. destruct_machine s. fw_unfold in Hst. subst.
  unfold usbFunctionWrite. fw_unfold. reflexivity.
Qed.

(** X14.  An EEPROM write, from its header to a data packet.  The header clears
    the page size and the block flags, so whatever the last-block mask is, a
    packet of [k] bytes, [k] at most the length announced, makes [k] calls
    of [ispWriteEEPROM] and none of [ispWriteFlash] or [ispFlushPage]; the
    packet that uses up the length returns 1 and ends the phase, any shorter
    one returns 0 and leaves the rest to come. *)
Theorem eeprom_write_phase :
  forall (fuel : nat) (func_of : Z -> usbasp_func)
         (first last sck8 cap num F_CPU sstcs : Z) (hdr data : list Z) (s : machine),
    (0xFFF <= fuel)%nat ->
    func_of (byte 1 hdr) = USBASP_FUNC_WRITEEEPROM ->
    1 <= Z.of_nat (length data) <= byte 6 hdr + 256 * byte 7 hdr ->
    exists s1 r s2,
      usbFunctionSetup fuel func_of first sck8 cap num F_CPU sstcs hdr s
      = Some (0xff, s1)
      /\ usbFunctionWrite fuel last data s1 = Some (r, s2)
      /\ r = (if Z.of_nat (length data) =? byte 6 hdr + 256 * byte 7 hdr
              then 1 else 0)
      /\ state (prog s2)
         = (if Z.of_nat (length data) =? byte 6 hdr + 256 * byte 7 hdr
            then PROG_STATE_IDLE else PROG_STATE_WRITEEEPROM)
      /\ nbytes (prog s2)
         = byte 6 hdr + 256 * byte 7 hdr - Z.of_nat (length data)
      /\ calls R_ispWriteEEPROM (trace s2)
         = (length data + calls R_ispWriteEEPROM (trace s))%nat
      /\ calls R_ispWriteFlash (trace s2) = calls R_ispWriteFlash (trace s)
      /\ calls R_ispFlushPage (trace s2) = calls R_ispFlushPage (trace s).
Proof.
  intros fuel func_of first last sck8 cap num F_CPU sstcs hdr data s Hf Hfn Hlen.
  pose proof (byte_range 6 hdr) as H6. pose proof (byte_range 7 hdr) as H7.
  assert (Hhdr : exists s1,
            usbFunctionSetup fuel func_of first sck8 cap num F_CPU sstcs hdr s
            = Some (0xff, s1)
            /\ state (prog s1) = PROG_STATE_WRITEEEPROM
            /\ blockflags (prog s1) = 0
            /\ nbytes (prog s1) = byte 6 hdr + 256 * byte 7 hdr
            /\ trace s1 = trace s).
  { unfold usbFunctionSetup, short_address, set_length. rewrite Hfn.
    rewrite length_word. destruct_machine s. fw_step.
    fw_case; fw_step; (eexists; split; [reflexivity|]); fw_unfold;
      repeat split. }
  destruct Hhdr as (s1 & Hrun1 & Hst1 & Hbf1 & Hn1 & Ht1).
  destruct (write_bytes_eeprom fuel last data 0 s1 Hf Hst1)
    as (r & s2 & Hrun2 & Hr & Hst2 & Hn2 & _ & _ & He & Hw & Hfl).
  { rewrite Hbf1. reflexivity. }
  { rewrite Hn1. lia. }
  { rewrite Hn1. lia. }
  exists s1, r, s2. rewrite Hn1 in *. rewrite Ht1 in *.
  split; [exact Hrun1|].
  split; [rewrite usbFunctionWrite_eeprom by exact Hst1; exact Hrun2|].
  repeat split; assumption.
Qed.

Lemma write_bytes_app (fuel : nat) last d1 : forall d2 r s,
  write_bytes fuel last (d1 ++ d2) r s
  = match write_bytes fuel last d1 r s with
    | Some (r1, s1) => write_bytes fuel last d2 r1 s1
    | None => None
    end.
Proof.
  induction d1 as [|d d1 IH]; intros d2 r s; [reflexivity|].
  cbn [app write_bytes]. unfold bind.
  destruct (write_byte fuel last (u8 d) r s) as [[r1 s1]|]; [|reflexivity].
  apply IH.
Qed.

Lemma flash_bytes_final_count last k p :
  1 <= nbytes p <= 65535 -> Z.of_nat k = nbytes p ->
  nbytes (fst (flash_bytes last k p)) = 0.
Proof.
  intros Hn Hk. destruct k as [|k]; [cbn in Hk; lia|].
  replace (S k) with (k + 1)%nat by lia.
  rewrite flash_bytes_add. cbn [fst snd flash_bytes].
  destruct (flash_bytes_interior last k p Hn) as (A & _); [lia|].
  destruct (flash_byte_facts last (fst (flash_bytes last k p))) as (B & _);
    [rewrite A; lia|].
  rewrite B, A. lia.
Qed.

(** X15.  A data packet that carries more bytes than the flash write has left.
    The byte that uses up the length ends the phase, but the loop of
    [usbFunctionWrite] goes on: the next byte of the packet is handed to
    [ispWriteEEPROM], the remaining length wraps around to 65535, and the
    packet still reports completion. *)
Theorem write_overrun_goes_to_eeprom :
  forall (fuel : nat) (last : Z) (data : list Z) (x : Z) (s : machine),
    (0xFFF <= fuel)%nat ->
    state (prog s) = PROG_STATE_WRITEFLASH ->
    1 <= nbytes (prog s) <= 65535 ->
    Z.of_nat (length data) = nbytes (prog s) ->
    exists s1 s2,
      usbFunctionWrite fuel last data s = Some (1, s1)
      /\ state (prog s1) = PROG_STATE_IDLE
      /\ usbFunctionWrite fuel last (data ++ [x]) s = Some (1, s2)
      /\ state (prog s2) = PROG_STATE_IDLE
      /\ nbytes (prog s2) = 65535
      /\ calls R_ispWriteEEPROM (trace s2)
         = S (calls R_ispWriteEEPROM (trace s1))
      /\ calls R_ispWriteFlash (trace s2) = calls R_ispWriteFlash (trace s1).
Proof.
  intros fuel last data x s Hf Hst Hn Hlen.
  destruct (write_bytes_flash fuel last data 0 s Hst Hn)
    as (r1 & s1 & Hrun1 & Hprog1 & _ & Hr1); [lia|].
  assert (E : (Z.of_nat (length data) =? nbytes (prog s)) = true)
    by (apply Z.eqb_eq; exact Hlen).
  rewrite E in Hr1. subst r1.
  assert (Hidle : state (prog s1) = PROG_STATE_IDLE).
  { rewrite Hprog1. apply flash_bytes_final; assumption. }
  assert (Hzero : nbytes (prog s1) = 0).
  { rewrite Hprog1. apply flash_bytes_final_count; assumption. }
  destruct (write_byte_eeprom fuel last (u8 x) 1 s1 Hf)
    as (s2 & Hrun2 & Hprog2 & _ & He & Hw & _).
  { rewrite Hidle. reflexivity. }
  rewrite Hzero in Hrun2, Hprog2.
  change (u16 (0 - 1) =? 0) with false in Hrun2, Hprog2.
  change (u16 (0 - 1)) with 65535 in Hprog2.
  exists s1, s2.
  rewrite !usbFunctionWrite_flash by exact Hst.
  rewrite write_bytes_app, Hrun1. cbn [write_bytes]. unfold bind at 1.
  rewrite Hrun2. unfold ret. rewrite Hprog2, Hidle.
  cbn [state nbytes]. repeat split; assumption.
Qed.

(** ** Flash writes without paging *)

Lemma flash_bytes_unpaged last : forall k p,
  pagesize p = 0 -> 1 <= nbytes p <= 65535 -> Z.of_nat k <= nbytes p ->
  pagecounter (fst (flash_bytes last k p)) = pagecounter p
  /\ fst (snd (flash_bytes last k p)) = 0%nat
  /\ snd (snd (flash_bytes last k p))
     = (if (Z.of_nat k =? nbytes p)
           && (negb (Z.land (blockflags p) last =? 0)
               && negb (pagecounter p =? 0))
        then 1%nat else 0%nat).
Proof.
  induction k as [|k IH]; intros p Hps Hn Hk.
  - cbn [flash_bytes fst snd].
    assert (E : (Z.of_nat 0 =? nbytes p) = false)
      by (apply Z.eqb_neq; cbn; lia).
    rewrite E. repeat split.
  - destruct (flash_byte_facts last p Hn) as (Hn1 & Hps1 & Hbf1 & _).
    assert (Hstep : pagecounter (fst (flash_byte last p)) = pagecounter p
                    /\ fst (snd (flash_byte last p)) = 0%nat
                    /\ snd (snd (flash_byte last p))
                       = (if (nbytes p =? 1)
                             && (negb (Z.land (blockflags p) last =? 0)
                                 && negb (pagecounter p =? 0))
                          then 1%nat else 0%nat)).
    { destruct p as [st sck nm ad n ps bf pc].
      cbn [pagesize pagecounter nbytes blockflags] in *. subst ps.
      unfold flash_byte.
      cbn [fst snd pagesize pagecounter nbytes blockflags Z.eqb negb andb].
      rewrite u16_small by lia.
      replace (n - 1 =? 0) with (n =? 1)
        by (destruct (n =? 1) eqn:A; destruct (n - 1 =? 0) eqn:B;
            try reflexivity;
            [apply Z.eqb_eq in A; apply Z.eqb_neq in B
            |apply Z.eqb_neq in A; apply Z.eqb_eq in B]; lia).
      repeat split. }
    destruct Hstep as (Hpc1 & Hhit1 & Hforced1).
    cbn [flash_bytes fst snd]. rewrite Hhit1, Hforced1.
    destruct (Z.eq_dec (nbytes p) 1) as [E1|E1].
    + assert (k = 0%nat) as -> by lia.
      cbn [flash_bytes fst snd]. rewrite E1, Hpc1.
      repeat split. cbn [Z.of_nat Pos.of_succ_nat Z.eqb Pos.eqb]. lia.
    + destruct (IH (fst (flash_byte last p))) as (A & B & C);
        [rewrite Hps1; exact Hps | lia | lia |].
      rewrite A, B, C, Hpc1, Hn1, Hbf1.
      assert (E0 : (nbytes p =? 1) = false) by (apply Z.eqb_neq; exact E1).
      rewrite E0. cbn [andb Nat.add].
      replace (Z.of_nat (S k) =? nbytes p)
        with (Z.of_nat k =? nbytes p - 1)
        by (destruct (Z.of_nat k =? nbytes p - 1) eqn:X;
            destruct (Z.of_nat (S k) =? nbytes p) eqn:Y;
            try reflexivity;
            [apply Z.eqb_eq in X; apply Z.eqb_neq in Y
            |apply Z.eqb_neq in X; apply Z.eqb_eq in Y]; lia).
      repeat split.
Qed.

(** X16.  A flash write with page size 0, in any chunking.  No byte triggers a
    page flush and the page counter is never touched.  The only flush is the
    one forced once by the byte that completes the transfer, and only when
    the last-block flag is set and the page counter is not 0. *)
Theorem unpaged_flash_write :
  forall (fuel : nat) (last : Z) (chunks : list (list Z)) (s : machine),
    state (prog s) = PROG_STATE_WRITEFLASH ->
    pagesize (prog s) = 0 ->
    1 <= nbytes (prog s) <= 65535 ->
    Z.of_nat (length (concat chunks)) = nbytes (prog s) ->
    exists rs s',
      write_stream fuel last chunks s = Some (rs, s')
      /\ state (prog s') = PROG_STATE_IDLE
      /\ pagecounter (prog s') = pagecounter (prog s)
      /\ calls R_ispFlushPage (trace s')
         = (calls R_ispFlushPage (trace s)
            + (if (negb (Z.land (blockflags (prog s)) last =? 0)
                   && negb (pagecounter (prog s) =? 0))%Z
               then 1 else 0))%nat.
Proof.
  intros fuel last chunks s Hst Hps Hn Hlen.
  destruct (write_stream_flash fuel last chunks s Hst Hn)
    as (rs & s' & Hrun & Hprog & Hcalls); [lia|].
  destruct (flash_bytes_unpaged last (length (concat chunks)) (prog s)
              Hps Hn) as (A & B & C); [lia|].
  exists rs, s'. split; [exact Hrun|].
  split; [rewrite Hprog; apply flash_bytes_final; assumption|].
  split; [rewrite Hprog; exact A|].
  rewrite Hcalls, B, C.
  assert (E : (Z.of_nat (length (concat chunks)) =? nbytes (prog s)) = true)
    by (apply Z.eqb_eq; exact Hlen).
  rewrite E. cbn [andb]. lia.
Qed.

(** ** Connecting, erasing, EEPROM reads, TPI blocks *)

(** X17.  A CONNECT request.  Whatever the jumper reads and whatever SCK option is
    stored, the same three frames 0x4C/0x80, 0x64/0x00, 0x6C/0x00 are
    clocked out and the busy line is awaited; then the LED is lit and the
    port is set up.  The request resets the long-address mode and the cached
    segment, and leaves the state of a data phase in progress alone. *)
Theorem connect_request :
  forall (fuel : nat) (func_of : Z -> usbasp_func)
         (first sck8 cap num F_CPU sstcs : Z) (data : list Z) (s : machine),
    (0xFFF <= fuel)%nat ->
    func_of (byte 1 data) = USBASP_FUNC_CONNECT ->
    exists new s',
      usbFunctionSetup fuel func_of first sck8 cap num F_CPU sstcs data s = Some (0, s')
      /\ trace s'
         = [Drive OE HIGH; Drive WR HIGH; PowerDDR true; DataDir false;
            ControlDDR 0xFF; ControlPort 0xFF; Led true]
           ++ new
           ++ rev (frames [(0x4C, 0x80); (0x64, 0x00); (0x6C, 0x00)]
                     (pin s) (S (reads s)))
           ++ SampleSck (u8 (pin s (reads s))) :: trace s
      /\ forallb on_bus new = true
      /\ isp_hiaddr s' = 0
      /\ address_newmode (prog s') = 0
      /\ state (prog s') = state (prog s)
      /\ sck_option (prog s') = sck_option (prog s).
Proof.
  intros fuel func_of first sck8 cap num F_CPU sstcs data s Hf Hfn.
  unfold usbFunctionSetup. rewrite Hfn.
  destruct_machine s. unfold ispSetSCKOption, ispConnect. fw_step.
  fw_case; fw_step;
    match goal with |- context [avr_bsySerial ?fuel ?st] =>
      destruct (avr_bsySerial_bus fuel st Hf) as (k & new & Hrun & Hbus);
      rewrite Hrun; fw_unfold end;
    (exists new; eexists; split; [reflexivity|]); fw_unfold;
    (split; [list_norm; reflexivity|]); repeat split; assumption.
Qed.

(** X18.  [avr_erase] erases a parallel target with one WR pulse and leaves the
    power lines alone; on a serial target it does nothing at all. *)
Theorem erase_only_on_parallel :
  forall (s : machine),
    (is_parallel (dev_type s) = false -> avr_erase s = Some (tt, s)) /\
    (is_parallel (dev_type s) = true ->
     exists new,
       avr_erase s = Some (tt, advance 0 new s)
       /\ write_strobes new = 1%nat
       /\ forallb no_power new = true).
Proof.
  intros s. destruct_machine s. unfold avr_erase.
  split; intros Hp; fw_unfold in Hp; fw_step; rewrite Hp; fw_step.
  - reflexivity.
  - eexists. split.
    + apply result_eq_intro; [reflexivity|]. apply machine_eq_intro;
        [reflexivity|].
      match goal with |- ?T = _ =>
        let w := strip_tail m_trace T in
        instantiate (1 := w); cbn [app]; rewrite <- ?app_assoc; reflexivity
      end.
    + split.
      * strobe_norm. reflexivity.
      * unfold loadComm_events, pulse_events. rewrite Hp.
        destruct (m_dev =? 0); reflexivity.
Qed.

(** X19.  On a parallel target [ispReadEEPROM] loads the low address byte twice,
    as the high and as the low byte: two addresses with the same low byte
    put the same signals on the bus and read the same sample. *)
Theorem eeprom_parallel_read_uses_low_byte_only :
  forall (a a' : Z) (s : machine),
    is_parallel (dev_type s) = true ->
    Z.land a 0xFF = Z.land a' 0xFF ->
    exists r new new',
      ispReadEEPROM a s = Some (r, advance 1 new s)
      /\ ispReadEEPROM a' s = Some (r, advance 1 new' s)
      /\ bus_events new = bus_events new'
      /\ bus_events new <> [].
Proof.
  intros a a' s Hp Ha. destruct_machine s. fw_unfold in Hp.
  unfold ispReadEEPROM. fw_step. rewrite Hp. fw_step. rewrite <- Ha.
  exists (u8 (m_pin m_reads)).
  match goal with
  | |- exists new new',
        Some (_, mkMachine _ _ _ _ _ _ _ _ _ ?T) = _
        /\ Some (_, mkMachine _ _ _ _ _ _ _ _ _ ?T') = _ /\ _ =>
      let w := strip_tail m_trace T in
      let w' := strip_tail m_trace T' in
      exists w, w'
  end.
  split; [apply result_eq_intro; [reflexivity|]; apply machine_eq_intro;
          [reflexivity | cbn [app]; rewrite <- ?app_assoc; reflexivity]|].
  split; [apply result_eq_intro; [reflexivity|]; apply machine_eq_intro;
          [reflexivity | cbn [app]; rewrite <- ?app_assoc; reflexivity]|].
  unfold bus_events. cbn [filter on_bus app]. rewrite !filter_app.
  cbn [filter on_bus]. split; [reflexivity | discriminate].
Qed.

(** X20.  TPI block transfers.  A TPI read packet advances the address and stays
    in the read state whatever its length, short packets included.  A TPI
    write packet ends the phase only when its length is exactly the length
    left; a longer packet wraps the 16-bit count around and the phase goes
    on. *)
Theorem tpi_block_phases :
  forall (fuel : nat) (last : Z) (tpi : Z -> Z -> list Z) (len : Z)
         (data : list Z) (s : machine),
    0 <= nbytes (prog s) < 65536 ->
    0 <= len <= 255 ->
    Z.of_nat (length data) = len ->
    (state (prog s) = PROG_STATE_TPI_READ ->
     exists s',
       usbFunctionRead tpi len s
       = Some ((tpi (address (prog s)) len, len), s')
       /\ state (prog s') = PROG_STATE_TPI_READ
       /\ address (prog s') = u32 (address (prog s) + len)
       /\ nbytes (prog s') = nbytes (prog s)
       /\ trace s' = Tpi TPI_read_block (address (prog s)) len :: trace s) /\
    (state (prog s) = PROG_STATE_TPI_WRITE ->
     exists s',
       usbFunctionWrite fuel last data s
       = Some ((if len =? nbytes (prog s) then 1 else 0), s')
       /\ state (prog s')
          = (if len =? nbytes (prog s) then PROG_STATE_IDLE
             else PROG_STATE_TPI_WRITE)
       /\ nbytes (prog s')
          = (if len <=? nbytes (prog s) then nbytes (prog s) - len
             else nbytes (prog s) - len + 65536)
       /\ trace s' = Tpi TPI_write_block (address (prog s)) len :: trace s).
Proof.
  intros fuel last tpi len data s Hn Hlen Hdata.
  destruct_machine s. fw_unfold in Hn.
  split; intros Hst; fw_unfold in Hst; subst p_state.
  - unfold usbFunctionRead. fw_unfold.
    eexists. split; [reflexivity|]. fw_unfold. repeat split.
  - unfold usbFunctionWrite. rewrite Hdata. fw_unfold.
    cbn [writing_state negb is_state]. fw_unfold.
    assert (Hw : u16 (p_nbytes - len)
                 = (if len <=? p_nbytes then p_nbytes - len
                    else p_nbytes - len + 65536)).
    { unfold u16. destruct (Z.leb_spec len p_nbytes).
      - apply Z.mod_small. lia.
      - symmetry. apply (Z.mod_unique _ _ (-1)); lia. }
    rewrite Hw.
    destruct (Z.leb_spec len p_nbytes) as [Hle|Hgt];
      destruct (Z.eqb_spec len p_nbytes) as [He|He];
      try lia.
    + destruct (Z.leb_spec (p_nbytes - len) 0); [|lia].
      eexists. split; [reflexivity|]. fw_unfold. repeat split.
    + destruct (Z.leb_spec (p_nbytes - len) 0); [lia|].
      eexists. split; [reflexivity|]. fw_unfold. repeat split.
    + destruct (Z.leb_spec (p_nbytes - len + 65536) 0); [lia|].
      eexists. split; [reflexivity|]. fw_unfold. repeat split.
Qed.

(** ** WR pulses of the write data phase *)

Ltac both_norm :=
  unfold calls, write_strobes;
  repeat first [rewrite count_events_app | rewrite count_events_rev
               | rewrite count_events_cons];
  rewrite ?calls_exchange, ?calls_loadComm, ?calls_loadAdd,
    ?strobes_exchange, ?strobes_loadComm, ?strobes_loadAdd;
  cbn [is_enter is_write_strobe].

(** Loading a byte into the page buffer of a parallel target pulses
    neither WR nor flushes. *)
Lemma ispWriteFlash_parallel a d p s :
  is_parallel (dev_type s) = true ->
  exists s', ispWriteFlash a d p s = Some (0, s')
    /\ prog s' = prog s /\ dev_type s' = dev_type s
    /\ write_strobes (trace s') = write_strobes (trace s)
    /\ calls R_ispFlushPage (trace s') = calls R_ispFlushPage (trace s).
Proof.
  intros Hp. destruct_machine s. fw_unfold in Hp.
  unfold ispWriteFlash, parallelWriteFlash.
  fw_step. rewrite Hp. fw_step. repeat (fw_case; fw_step);
    (eexists; split; [reflexivity|]); fw_unfold; repeat split;
    both_norm; lia.
Qed.

(** A page flush on a parallel target is one WR pulse. *)
Lemma ispFlushPage_parallel a p s :
  is_parallel (dev_type s) = true ->
  exists s', ispFlushPage a p s = Some (0, s')
    /\ prog s' = prog s /\ dev_type s' = dev_type s
    /\ write_strobes (trace s') = S (write_strobes (trace s))
    /\ calls R_ispFlushPage (trace s')
       = S (calls R_ispFlushPage (trace s)).
Proof.
  intros Hp. destruct_machine s. fw_unfold in Hp.
  unfold ispFlushPage, ispUpdateExtended.
  fw_step. rewrite Hp. fw_step. repeat (fw_case; fw_step);
    (eexists; split; [reflexivity|]); fw_unfold; repeat split;
    both_norm; lia.
Qed.

Lemma ispWriteEEPROM_parallel (fuel : nat) a d s :
  is_parallel (dev_type s) = true ->
  exists s', ispWriteEEPROM fuel a d s = Some (0, s')
    /\ prog s' = prog s /\ dev_type s' = dev_type s
    /\ write_strobes (trace s') = write_strobes (trace s)
    /\ calls R_ispFlushPage (trace s') = calls R_ispFlushPage (trace s).
Proof.
  intros Hp. destruct_machine s. fw_unfold in Hp.
  unfold ispWriteEEPROM. fw_step. rewrite Hp. fw_step.
  eexists. split; [reflexivity|]. fw_unfold. repeat split;
    both_norm; lia.
Qed.

(** Runs the access-layer call that has come to the front, on a parallel
    target; [Hp] says that the target is parallel. *)
Ltac use_parallel_frame Hp :=
  let s1 := fresh "s" in
  let Hrun := fresh "Hrun" in
  let Hprog := fresh "Hprog" in
  let Hdev := fresh "Hdev" in
  let Hw := fresh "Hw" in
  let Hc := fresh "Hc" in
  let pr1 := fresh "pr" in
  let d1 := fresh "dt" in
  match goal with
  | |- context [ispWriteFlash ?a ?d ?p ?st] =>
      destruct (ispWriteFlash_parallel a d p st Hp)
        as (s1 & Hrun & Hprog & Hdev & Hw & Hc)
  | |- context [ispFlushPage ?a ?d ?st] =>
      destruct (ispFlushPage_parallel a d st Hp)
        as (s1 & Hrun & Hprog & Hdev & Hw & Hc)
  | |- context [ispWriteEEPROM ?f ?a ?d ?st] =>
      destruct (ispWriteEEPROM_parallel f a d st Hp)
        as (s1 & Hrun & Hprog & Hdev & Hw & Hc)
  end;
  rewrite Hrun; clear Hrun;
  destruct s1 as [d1 ? ? ? ? pr1 ? ? ? ?];
  fw_unfold in Hprog; fw_unfold in Hdev; fw_unfold in Hw; fw_unfold in Hc;
  subst pr1 d1; fw_unfold.

Lemma write_byte_parallel (fuel : nat) last d r s :
  is_parallel (dev_type s) = true ->
  exists r' s',
    write_byte fuel last d r s = Some (r', s')
    /\ dev_type s' = dev_type s
    /\ (write_strobes (trace s') + calls R_ispFlushPage (trace s)
        = write_strobes (trace s) + calls R_ispFlushPage (trace s'))%nat.
Proof.
  intros Hp. destruct_machine s. fw_unfold in Hp.
  unfold write_byte. fw_unfold.
  destruct (is_state p_state PROG_STATE_WRITEFLASH); fw_unfold;
    repeat (first [cmp_known | use_parallel_frame Hp | cmp_case];
            cbn [andb negb orb]; fw_unfold);
    (eexists; eexists; split; [reflexivity|]); fw_unfold;
    (split; [reflexivity | lia]).
Qed.

Lemma write_bytes_parallel (fuel : nat) last : forall data r s,
  is_parallel (dev_type s) = true ->
  exists r' s',
    write_bytes fuel last data r s = Some (r', s')
    /\ dev_type s' = dev_type s
    /\ (write_strobes (trace s') + calls R_ispFlushPage (trace s)
        = write_strobes (trace s) + calls R_ispFlushPage (trace s'))%nat.
Proof.
  induction data as [|d data IH]; intros r s Hp.
  - exists r, s. repeat split.
  - destruct (write_byte_parallel fuel last (u8 d) r s Hp)
      as (r1 & s1 & Hrun & Hdev & Hinv).
    destruct (IH r1 s1) as (r' & s' & Hrun' & Hdev' & Hinv');
      [rewrite Hdev; exact Hp|].
    exists r', s'. cbn [write_bytes]. rewrite (bind_run _ _ _ _ _ Hrun).
    split; [exact Hrun'|]. split; [congruence | lia].
Qed.

Lemma usbFunctionWrite_parallel (fuel : nat) last data s :
  is_parallel (dev_type s) = true ->
  exists r s',
    usbFunctionWrite fuel last data s = Some (r, s')
    /\ dev_type s' = dev_type s
    /\ (write_strobes (trace s') + calls R_ispFlushPage (trace s)
        = write_strobes (trace s) + calls R_ispFlushPage (trace s'))%nat.
Proof.
  intros Hp.
  destruct (write_bytes_parallel fuel last data 0 s Hp)
    as (r & s' & Hrun & Hdev & Hinv).
  unfold usbFunctionWrite, get_prog, mod_prog, get, modify.
  cbv beta iota zeta delta [bind ret].
  destruct (state (prog s)); cbn [writing_state negb is_state];
    try (exists r, s'; repeat split; assumption);
    try (eexists; exists s; split; [reflexivity|]; split; [reflexivity|lia]).
  destruct_machine s. fw_unfold.
  fw_case; (eexists; eexists; split; [reflexivity|]); fw_unfold;
    (split; [reflexivity | both_norm; lia]).
Qed.

(** X21.  On a parallel target every WR pulse of a write data phase is a page
    flush.  Whatever the state, the header and the chunking, the data phase
    returns, and it adds as many WR pulses to the trace as it adds calls of
    [ispFlushPage]: loading bytes never commits anything by itself. *)
Theorem write_pulses_are_page_flushes :
  forall (fuel : nat) (last : Z) (chunks : list (list Z)) (s : machine),
    is_parallel (dev_type s) = true ->
    exists rs s',
      write_stream fuel last chunks s = Some (rs, s')
      /\ length rs = length chunks
      /\ dev_type s' = dev_type s
      /\ (write_strobes (trace s') + calls R_ispFlushPage (trace s)
          = write_strobes (trace s) + calls R_ispFlushPage (trace s'))%nat.
Proof.
  intros fuel last chunks. induction chunks as [|c cs IH]; intros s Hp.
  - exists [], s. repeat split.
  - destruct (usbFunctionWrite_parallel fuel last c s Hp)
      as (r & s1 & Hrun & Hdev & Hinv).
    destruct (IH s1) as (rs & s' & Hrun' & Hlen & Hdev' & Hinv');
      [rewrite Hdev; exact Hp|].
    exists (r :: rs), s'. cbn [write_stream].
    rewrite (bind_run _ _ _ _ _ Hrun), (bind_run _ _ _ _ _ Hrun').
    split; [reflexivity|]. split; [cbn [length]; lia|].
    split; [congruence | lia].
Qed.

(** ** Signature reads, register loads and the cache across a flush *)

(** X22.  The signature byte that [avr_getId] returns.  From a parallel target it
    is the one sample of the data bus.  From a serial target it is made of
    the first eight bits clocked in during the fourth frame, most
    significant first, 44 bits being clocked in all.  Reading a signature
    never pulses WR and never touches the power lines. *)
Theorem getId_value :
  forall (idadd : Z) (s : machine),
    exists new,
      avr_getId idadd s
      = Some ((if is_parallel (dev_type s) then u8 (pin s (reads s))
               else msb_first (pin s) (33 + reads s)),
              advance (if is_parallel (dev_type s) then 1 else 44) new s)
      /\ write_strobes new = 0%nat
      /\ forallb no_power new = true.
Proof.
  intros idadd s. rewrite avr_getId_run.
  eexists. split; [|split].
  - apply result_eq_intro; [|reflexivity].
    unfold getId_result. destruct (is_parallel (dev_type s));
      [reflexivity | apply exchange_result_msb_first].
  - unfold getId_events. strobe_norm.
    destruct (is_parallel (dev_type s)).
    + strobe_norm. reflexivity.
    + cbn [frames]. strobe_norm. reflexivity.
  - apply forallb_forall. intros e [<- | He]; [reflexivity|].
    apply in_rev in He. revert e He. apply forallb_forall.
    apply getId_no_power.
Qed.

(** X23.  The register loads [avr_loadComm] and [avr_loadAdd] sample nothing,
    never pulse WR and never touch the power lines; on a serial target they
    do nothing at all. *)
Theorem register_loads_are_silent :
  forall (c a h : Z) (s : machine),
    exists new1 new2,
      avr_loadComm c s = Some (tt, advance 0 new1 s)
      /\ avr_loadAdd a h s = Some (tt, advance 0 new2 s)
      /\ write_strobes new1 = 0%nat /\ write_strobes new2 = 0%nat
      /\ forallb no_power new1 = true /\ forallb no_power new2 = true
      /\ (is_parallel (dev_type s) = false -> new1 = [] /\ new2 = [])
      /\ (is_parallel (dev_type s) = true -> new1 <> [] /\ new2 <> []).
Proof.
  intros c a h s. rewrite avr_loadComm_run, avr_loadAdd_run.
  eexists. eexists. split; [reflexivity|]. split; [reflexivity|].
  unfold write_strobes. rewrite !count_events_rev.
  rewrite strobes_loadComm, strobes_loadAdd.
  unfold loadComm_events, loadAdd_events, pulse_events.
  destruct (is_parallel (dev_type s)), (dev_type s =? 0), (h =? 0);
    repeat split; try reflexivity; try discriminate;
    intros _; split; discriminate.
Qed.

(** X24.  A page flush on a parallel target goes through the same segment cache
    as the reads: it pulses WR once, issues an extended-address load only
    when its segment differs from the cached one, and leaves its own segment
    in the cache, so that a flash read in that segment issues no load. *)
Theorem flush_shares_segment_cache :
  forall (a a2 pollvalue : Z) (s : machine),
    is_parallel (dev_type s) = true ->
    exists s' new,
      ispFlushPage a pollvalue s = Some (0, s')
      /\ trace s' = rev new ++ trace s
      /\ write_strobes new = 1%nat
      /\ extended_loads new
         = (if high_segment a =? isp_hiaddr s then 0%nat else 1%nat)
      /\ isp_hiaddr s' = high_segment a
      /\ (high_segment a2 = high_segment a ->
          exists r2 s2 new2,
            ispReadFlash a2 s' = Some (r2, s2)
            /\ trace s2 = rev new2 ++ trace s'
            /\ extended_loads new2 = 0%nat).
Proof.
  intros a a2 pollvalue s Hp.
  assert (Hrun : exists s' new,
            ispFlushPage a pollvalue s = Some (0, s')
            /\ trace s' = rev new ++ trace s
            /\ write_strobes new = 1%nat
            /\ extended_loads new
               = (if high_segment a =? isp_hiaddr s then 0%nat else 1%nat)
            /\ isp_hiaddr s' = high_segment a
            /\ dev_type s' = dev_type s).
  { destruct_machine s. fw_unfold in Hp.
    unfold ispFlushPage, ispUpdateExtended. fold (high_segment a).
    fw_step. rewrite Hp. fw_step.
    destruct (Z.lxor m_hi (high_segment a) =? 0) eqn:Hx; fw_step.
    - apply Z.eqb_eq in Hx.
      apply (proj1 (Z.lxor_eq_0_iff m_hi (high_segment a))) in Hx.
      rewrite <- Hx, Z.eqb_refl.
      eexists.
      exists (Enter R_ispFlushPage a
              :: loadAdd_events m_dev (Z.shiftr a 9) 1
              ++ [Drive WR LOW; DelayUs 1; Drive WR HIGH; DelayMs 8;
                  Drive XA1 HIGH; Drive XA0 LOW; DataPort (u8 0)]
              ++ pulse_events).
      split; [reflexivity|]. fw_unfold.
      split; [unfold pulse_events; list_norm; reflexivity|].
      split; [unfold pulse_events; strobe_norm; reflexivity|].
      split; [unfold pulse_events; count_norm;
              rewrite loadAdd_no_extended_load; reflexivity|].
      split; reflexivity.
    - assert (Hne : (high_segment a =? m_hi) = false).
      { apply Z.eqb_neq. intros E. rewrite E, Z.lxor_nilpotent in Hx.
        discriminate. }
      rewrite Hne.
      eexists.
      exists (Enter R_ispFlushPage a
              :: loadAdd_events m_dev (Z.shiftr a 9) 1
              ++ extended_load (high_segment a)
              ++ [Drive WR LOW; DelayUs 1; Drive WR HIGH; DelayMs 8;
                  Drive XA1 HIGH; Drive XA0 LOW; DataPort (u8 0)]
              ++ pulse_events).
      split; [reflexivity|]. fw_unfold.
      split; [unfold pulse_events, extended_load; list_norm; reflexivity|].
      split; [unfold pulse_events, extended_load; strobe_norm; reflexivity|].
      split; [unfold pulse_events, extended_load; count_norm;
              rewrite loadAdd_no_extended_load; reflexivity|].
      split; reflexivity. }
  destruct Hrun as (s' & new & Hrun & Htr & Hw & Hx & Hhi & Hdev).
  exists s', new. repeat (split; [assumption|]).
  intros Hseg.
  assert (Hp' : is_parallel (dev_type s') = true) by (rewrite Hdev; exact Hp).
  eexists. eexists. eexists.
  split; [apply parallel_read_run, Hp'|].
  split; [reflexivity|].
  rewrite parallel_read_loads, Hhi, Hseg, Z.eqb_refl. reflexivity.
Qed.

(** ** The TPI requests wait on the clock *)

Lemma clockWait_short F_CPU (fuel : nat) time s :
  0 <= F_CPU < 8000000 -> 1 <= time <= 255 -> time <= Z.of_nat fuel ->
  clockWait fuel F_CPU time s
  = Some (tt, set_reads (2 * Z.to_nat time + reads s) s).
Proof.
  intros HF Ht Hfuel. unfold clockWait.
  destruct fuel as [|fuel]; [lia|].
  assert (Hu : u8 time = time) by (unfold u8; apply Z.mod_small; lia).
  rewrite Hu.
  rewrite (clockWait_loop_turns F_CPU fuel HF (Z.to_nat time - 1)) by lia.
  do 3 f_equal. lia.
Qed.

(** X25.  The TPI_CONNECT and TPI_DISCONNECT requests wait in [clockWait].
    With a clock of 8 MHz or more [usbFunctionSetup] therefore never returns
    from them.  With a slower clock it returns 0 after 19 and 20 turns of
    the wait, that is 38 and 40 timer reads, having set and cleared the
    reset bit (and, on disconnect, released the three ISP lines) in the
    order of the source, with the session left as it was. *)
Theorem tpi_requests_wait_on_the_clock :
  forall (fuel : nat) (func_of : Z -> usbasp_func)
         (first sck8 cap num F_CPU sstcs : Z) (data : list Z) (s : machine),
    waits_on_clock (func_of (byte 1 data)) = true ->
    (8000000 <= F_CPU ->
     usbFunctionSetup fuel func_of first sck8 cap num F_CPU sstcs data s
     = None) /\
    (0 <= F_CPU < 8000000 -> (16 <= fuel)%nat ->
     exists s',
       usbFunctionSetup fuel func_of first sck8 cap num F_CPU sstcs data s
       = Some (0, s')
       /\ prog s' = prog s /\ dev_type s' = dev_type s
       /\ reads s'
          = ((match func_of (byte 1 data) with
              | USBASP_FUNC_TPI_CONNECT => 38
              | _ => 40
              end) + reads s)%nat
       /\ trace s'
          = match func_of (byte 1 data) with
            | USBASP_FUNC_TPI_CONNECT =>
                [Tpi TPI_init 0 0; Led true; IspOut [ISP_RST] LOW;
                 IspDDR [ISP_RST] true; IspOut [ISP_RST] HIGH;
                 Tpi TPI_set_delay
                   (Z.lor (byte 2 data) (Z.shiftl (byte 3 data) 8)) 0]
            | _ =>
                [Led false; IspOut [ISP_RST; ISP_SCK; ISP_MOSI] LOW;
                 IspDDR [ISP_RST; ISP_SCK; ISP_MOSI] false;
                 IspOut [ISP_RST] LOW; IspOut [ISP_RST] HIGH;
                 Tpi TPI_send_byte 0 0; Tpi TPI_send_byte (u8 sstcs) 0]
            end ++ trace s).
Proof.
  intros fuel func_of first sck8 cap num F_CPU sstcs data s Hw.
  split.
  - intros HF.
    assert (Hstuck : forall time st, clockWait fuel F_CPU time st = None).
    { intros time st. unfold clockWait.
      generalize (u8 time). generalize fuel at 2.
      destruct fuel as [|n]; intros m t; [reflexivity|].
      cbn [clockWait_loop]. rewrite (bind_run _ _ _ _ _ (TCNT0_run st)).
      unfold bind. rewrite wait_320us_never_ends by exact HF. reflexivity. }
    destruct_machine s. unfold usbFunctionSetup.
    destruct (func_of (byte 1 data)); try discriminate Hw;
      fw_unfold; rewrite Hstuck; reflexivity.
  - intros HF Hfuel.
    assert (Hrun : forall time st, 1 <= time <= 16 ->
              clockWait fuel F_CPU time st
              = Some (tt, set_reads (2 * Z.to_nat time + reads st) st))
      by (intros time st Ht; apply clockWait_short; lia).
    destruct_machine s. unfold usbFunctionSetup.
    destruct (func_of (byte 1 data)); try discriminate Hw; fw_unfold;
      repeat (rewrite Hrun by lia; fw_unfold);
      (eexists; split; [reflexivity|]); fw_unfold; repeat split; lia.
Qed.

(** * Examples and counterexamples *)

(** ** Detection *)


(** A full-bus target that answers 0x1E at once is found after two
    signature reads; the supply is never dropped. *)
Example detection_finds_fullbus :
  exists s',
    ispEnterProgrammingMode 1002 (boot (fun _ => 0x1E)) = Some (0, s')
    /\ dev_type s' = 0 /\ reads s' = 2%nat
    /\ count_events is_signature (trace s') = 2%nat
    /\ ~ In (Drive VDD LOW) (trace s').
Proof.
  eexists. split; [vm_compute; reflexivity|].
  split; [reflexivity|]. split; [reflexivity|]. split; [reflexivity|].
  intros H. vm_compute in H.
  repeat (destruct H as [H|H]; [discriminate|]). exact H.
Qed.

(** With no target (all lines read high) the three variants are tried and
    given up: 1003 signature reads each, 46138 samples in all, and the
    result is 1 with [dev_type] left at 2. *)
Example detection_gives_up :
  option_map
    (fun x => (fst x, dev_type (snd x), Z.of_nat (reads (snd x)),
               Z.of_nat (count_events is_signature (trace (snd x)))))
    (ispEnterProgrammingMode 1002 (boot pins_high))
  = Some (1, 2, 46138, 3009).
Proof. vm_compute. reflexivity. Qed.

(** ** Word buffering *)

(** An odd-address write right after power-on, with no low byte buffered:
    the word is loaded with the low byte 0 that [low_byte] happens to
    hold. *)
Lemma writeFlash_word_buffering_witness :
  ispWriteFlash 0x01 0x22 0 (boot pins_high)
  = Some (0, set_prog_pagecounter
               (u8 (counter_after_commit (boot pins_high) + 1))
               (advance 0
                  (rev (Enter R_ispWriteFlash 0x01
                        :: page_commit_events (boot pins_high)
                        ++ parallel_word_load (dev_type (boot pins_high)) 0x01
                             (low_byte (boot pins_high)) 0x22))
                  (boot pins_high))).
Proof.
  apply (writeFlash_word_buffering 0x01 0x22 0 (boot pins_high)).
  - discriminate.
  - reflexivity.
Defined.

(** Two even-address writes after power-on, on a full-bus target: each
    stores its byte in [low_byte], but each also puts the page-write command
    0x10 on the bus, and the second leaves the counter at 1 instead of
    incrementing it. *)
Lemma even_write_is_not_only_buffering :
  exists s1 s2,
    ispWriteFlash 0x00 0x11 0 (boot pins_high) = Some (0, s1)
    /\ low_byte s1 = 0x11
    /\ prog_pagecounter s1 = 1
    /\ bus_events (rev (trace s1))
       = [DataDir true; DataPort 0x10; Drive XA1 HIGH; Drive XA0 LOW;
          Drive BS1 LOW; Drive BS2 LOW; DelayUs 1;
          Drive XTAIL HIGH; DelayUs 5; Drive XTAIL LOW; DelayUs 5]
    /\ bus_events (trace s1) <> bus_events (trace (boot pins_high))
    /\ ispWriteFlash 0x02 0x33 0 s1 = Some (0, s2)
    /\ low_byte s2 = 0x33
    /\ prog_pagecounter s2 = 1
    /\ prog_pagecounter s2 <> u8 (prog_pagecounter s1 + 1)
    /\ bus_events (trace s2) <> bus_events (trace s1).
Proof.
  eexists. eexists. split; [vm_compute; reflexivity|].
  split; [reflexivity|]. split; [reflexivity|].
  split; [vm_compute; reflexivity|]. split; [vm_compute; discriminate|].
  split; [vm_compute; reflexivity|].
  split; [reflexivity|]. split; [reflexivity|].
  split; vm_compute; discriminate.
Qed.

(** Byte 0x11 at address 0 and then byte 0x22 at address 1, on a full-bus
    target after power-on: the data bus carries the page-write command
    before each byte (a commit is always due while [prog_pagesize] is 0),
    then the low address byte 0, the low byte 0x11 and the high byte 0x22. *)
Example word_write_ordering :
  exists s1 s2,
    ispWriteFlash 0x00 0x11 0 (boot pins_high) = Some (0, s1)
    /\ ispWriteFlash 0x01 0x22 0 s1 = Some (0, s2)
    /\ low_byte s1 = 0x11
    /\ filter (fun e => match e with DataPort _ => true | _ => false end)
         (rev (trace s2))
       = [DataPort 0x10; DataPort 0x10; DataPort 0x00; DataPort 0x11;
          DataPort 0x22]
    /\ count_events
         (fun e => match e with Drive PAGEL HIGH => true | _ => false end)
         (trace s2) = 1%nat.
Proof.
  eexists. eexists. split; [vm_compute; reflexivity|].
  split; [vm_compute; reflexivity|]. repeat split.
Qed.

(** ** Page flushes *)

(** A write-flash command with page size 2, the first-block flag and a
    length of 8 arms the counter. *)
Example setup_arms_the_counter :
  usbFunctionSetup 0xFFF func_of_usbasp FLAG_FIRST 0 1 0 16000000 0xC0
    [0; 6; 0; 0; 2; 1; 8; 0] (boot pins_high)
  = Some (0xff, armed_write pins_high 2 8 FLAG_FIRST).
Proof. reflexivity. Qed.

(** Page size 2 and 2 x 2 words, that is 8 bytes, without the last-block
    flag: [ispFlushPage] is called 4 times, not twice, and the page-write
    command is loaded before every byte. *)
Lemma two_pages_of_words_flush_four_times :
  exists rs s',
    write_stream 0xFFF FLAG_LAST [[1; 2; 3; 4; 5; 6; 7; 8]]
      (armed_write pins_high 2 8 FLAG_FIRST) = Some (rs, s')
    /\ calls R_ispFlushPage (trace s') = 4%nat
    /\ count_events is_page_write_command (trace s') = 8%nat.
Proof.
  eexists. eexists. split; [vm_compute; reflexivity|].
  split; reflexivity.
Qed.

Lemma page_auto_flush_counts_bytes_witness :
  exists rs s',
    write_stream 0xFFF FLAG_LAST [[1; 2; 3]; [4]]
      (armed_write pins_high 2 4 FLAG_FIRST) = Some (rs, s')
    /\ calls R_ispFlushPage (trace s')
       = (calls R_ispFlushPage (trace (armed_write pins_high 2 4 FLAG_FIRST))
          + 2)%nat
    /\ snd (flash_bytes FLAG_LAST (length (concat [[1; 2; 3]; [4]]))
              (prog (armed_write pins_high 2 4 FLAG_FIRST)))
       = (2%nat, 0%nat)
    /\ pagecounter (prog s') = u8 2
    /\ state (prog s') = PROG_STATE_IDLE.
Proof.
  apply (page_auto_flush_counts_bytes 0xFFF FLAG_LAST [[1; 2; 3]; [4]]
           (armed_write pins_high 2 4 FLAG_FIRST) 2);
    try reflexivity; lia.
Defined.



(** ** The extended-address cache *)

(** On a serial target a read from segment 1 with segment 0 cached issues
    no extended-address load and leaves the cache at 0.  On a parallel
    target an address that differs from the cached segment only above bit 24
    issues no load either. *)
Lemma serial_read_skips_the_extended_load :
  (exists r s',
     ispReadFlash 0x20000 (serial_target pins_high) = Some (r, s')
     /\ high_segment 0x20000 = 1
     /\ isp_hiaddr (serial_target pins_high) = 0
     /\ extended_loads (trace s') = 0%nat
     /\ isp_hiaddr s' = 0) /\
  (exists r s',
     ispReadFlash 0x2000000 (boot pins_high) = Some (r, s')
     /\ Z.shiftr 0x2000000 17 = 256
     /\ isp_hiaddr (boot pins_high) = 0
     /\ extended_loads (trace s') = 0%nat).
Proof.
  split.
  - eexists. eexists. split; [vm_compute; reflexivity|].
    repeat split.
  - eexists. eexists. split; [vm_compute; reflexivity|].
    repeat split.
Qed.

Lemma extended_address_cache_witness :
  exists s' new,
    ispReadFlash 0x20000 (boot pins_high) = Some (0xFF, s')
    /\ trace s' = rev new ++ trace (boot pins_high)
    /\ extended_loads new = 1%nat
    /\ isp_hiaddr s' = 1
    /\ exists r2 s2 new2,
         ispReadFlash 0x20001 s' = Some (r2, s2)
         /\ trace s2 = rev new2 ++ trace s'
         /\ extended_loads new2 = 0%nat
         /\ isp_hiaddr s2 = isp_hiaddr s'.
Proof.
  destruct (extended_address_cache 0x20000 0x20001 (boot pins_high))
    as [H _].
  destruct (H eq_refl) as (s' & new & Hrun & Htr & _ & Hloads & Hhi & Hnext).
  exists s', new. split; [exact Hrun|]. split; [exact Htr|].
  split; [exact Hloads|]. split; [exact Hhi|].
  apply Hnext. reflexivity.
Defined.

(** ** Out-of-state data phases *)

Lemma out_of_state_data_phase_witness :
  usbFunctionRead no_tpi_data 8 (boot pins_high)
    = Some (([], 0xff), boot pins_high) /\
  usbFunctionWrite 0xFFF FLAG_LAST [0x11; 0x22] (boot pins_high)
    = Some (0xff, boot pins_high).
Proof.
  split.
  - apply (out_of_state_data_phase 0xFFF FLAG_LAST no_tpi_data
             (boot pins_high)). reflexivity.
  - apply (out_of_state_data_phase 0xFFF FLAG_LAST no_tpi_data
             (boot pins_high)). reflexivity.
Defined.

(** ** Disconnect *)

(** A disconnect in the middle of a flash write leaves the session in the
    writing state, with its device type, address mode, count, page size and
    flags. *)
Lemma disconnect_does_not_reset_session :
  exists s',
    usbFunctionSetup 0xFFF func_of_usbasp FLAG_FIRST 0 1 0 16000000 0xC0
      [0; 2; 0; 0; 0; 0; 0; 0] (mid_write pins_high) = Some (0, s') /\
    state (prog s') = PROG_STATE_WRITEFLASH /\
    state (prog s') <> PROG_STATE_IDLE /\
    dev_type s' = 1 /\ address_newmode (prog s') = 1 /\
    address (prog s') = 0x100 /\ nbytes (prog s') = 64 /\
    pagesize (prog s') = 128 /\ blockflags (prog s') = FLAG_LAST.
Proof.
  eexists. split; [vm_compute; reflexivity|].
  cbn. repeat split. discriminate.
Qed.

Lemma disconnect_keeps_session_witness :
  exists s',
    usbFunctionSetup 0xFFF func_of_usbasp FLAG_FIRST 0 1 0 16000000 0xC0
      [0; 2; 0; 0; 0; 0; 0; 0] (mid_write pins_high) = Some (0, s')
    /\ s' = advance 0 (rev [DataDir false; ControlDDR 0; Drive VDD LOW;
                            Drive VPP LOW; PowerDDR false; Led false])
               (mid_write pins_high)
    /\ prog s' = prog (mid_write pins_high)
    /\ dev_type s' = dev_type (mid_write pins_high)
    /\ calls R_ispFlushPage (trace s')
       = calls R_ispFlushPage (trace (mid_write pins_high)).
Proof.
  apply (disconnect_keeps_session 0xFFF func_of_usbasp FLAG_FIRST 0 1 0 16000000 0xC0
           [0; 2; 0; 0; 0; 0; 0; 0] (mid_write pins_high));
    [apply Nat.le_refl | reflexivity].
Defined.

(** ** Fuse kinds *)

(** Kind 4 is read as kind 1 (4 mod 3), not as kind 0 (4 mod 4): on a
    full-bus target the select lines BS1 and BS2 are driven low for kind 4
    and high for kind 0. *)
Lemma getFuse_kind_4_is_kind_1 :
  avr_getFuse 4 (boot pins_high) = avr_getFuse 1 (boot pins_high) /\
  exists s4 s0,
    avr_getFuse 4 (boot pins_high) = Some (0xFF, s4) /\
    avr_getFuse (4 mod 4) (boot pins_high) = Some (0xFF, s0) /\
    In (Drive BS2 LOW) (firstn 6 (trace s4)) /\
    In (Drive BS2 HIGH) (firstn 6 (trace s0)) /\
    trace s4 <> trace s0.
Proof.
  split; [reflexivity|].
  eexists. eexists.
  split; [vm_compute; reflexivity|].
  split; [vm_compute; reflexivity|].
  split; [cbn; tauto|].
  split; [cbn; tauto|].
  cbn. discriminate.
Qed.

Lemma getFuse_reduces_kind_modulo_3_witness :
  avr_getFuse 7 (boot pins_high) = avr_getFuse (7 mod 3) (boot pins_high)
  /\ 0 <= 7 mod 3 <= 2.
Proof.
  apply (getFuse_reduces_kind_modulo_3 7 (boot pins_high)). reflexivity.
Defined.

(** ** EEPROM *)

(** On a serial target [ispReadEEPROM] and [ispWriteEEPROM] do reach the
    target: 55 and 78 samples are taken and the bus is driven. *)
Lemma eeprom_serial_is_accessed :
  (exists r s', ispReadEEPROM 0 (serial_target pins_high) = Some (r, s') /\
     reads s' = 55%nat /\ bus_events (trace s') <> []) /\
  (exists s', ispWriteEEPROM 0xFFF 0 0x55 (serial_target pins_high)
              = Some (0, s') /\
     reads s' = 78%nat /\ bus_events (trace s') <> []).
Proof.
  split.
  - eexists. eexists. split; [vm_compute; reflexivity|].
    split; [reflexivity | vm_compute; discriminate].
  - eexists. split; [vm_compute; reflexivity|].
    split; [reflexivity | vm_compute; discriminate].
Qed.

Lemma eeprom_read_reaches_the_target_witness :
  ispReadEEPROM 0x10 (serial_target pins_high)
  = Some (exchange_result 0x6C 0x00 pins_high 44,
          advance 55
            (rev (Enter R_ispReadEEPROM 0x10
                  :: frames [(0x4C, 0x03); (0x0C, Z.land 0x10 0xFF);
                             (0x1C, Z.shiftr 0x10 8); (0x68, 0x00);
                             (0x6C, 0x00)] pins_high 0))
            (serial_target pins_high)).
Proof.
  apply (eeprom_read_reaches_the_target 0xFFF 0x10 0x55
           (serial_target pins_high));
    [apply Nat.le_refl | reflexivity].
Defined.

(** ** The write path *)

(** A serial target whose busy line stays low: the EEPROM write times out,
    resets the target and reports success. *)
Lemma write_path_has_no_failure_return_witness :
  exists s',
    ispWriteEEPROM 0xFFF 0x10 0x55 (serial_target pins_low) = Some (0, s') /\
    exists t, trace s' = Drive VPP HIGH :: DelayMs 10 :: Drive VPP LOW :: t.
Proof.
  destruct (write_path_has_no_failure_return 0xFFF 0x10 0x55 0
              (serial_target pins_low)) as (_ & _ & s' & Hrun & Hto);
    [apply Nat.le_refl|].
  exists s'. split; [exact Hrun|].
  apply Hto; [reflexivity | intros j; reflexivity].
Defined.

(** * Examples for the further properties *)

Lemma clockWait_never_returns_witness :
  clockWait 1000 16000000 3 (boot pins_high) = None.
Proof.
  apply (clockWait_never_returns 16000000 1000 3 (boot pins_high)). lia.
Defined.

Lemma clockWait_turns_wrap_at_zero_witness :
  clockWait 256 4000000 0 (boot pins_high)
  = Some (tt, set_reads (2 * clockWait_turns 0 + reads (boot pins_high))
                (boot pins_high)).
Proof.
  apply (clockWait_turns_wrap_at_zero 4000000 256 0 (boot pins_high)); lia.
Defined.

Lemma bsySerial_returns_when_ready_witness :
  exists new,
    avr_bsySerial 0xFFF
      (serial_target (fun n => if (n <? 2)%nat then 0 else 1))
    = Some (tt, advance 3 new
                  (serial_target (fun n => if (n <? 2)%nat then 0 else 1)))
    /\ forallb no_power new = true.
Proof.
  apply (bsySerial_returns_when_ready 0xFFF 2
           (serial_target (fun n => if (n <? 2)%nat then 0 else 1))).
  - lia.
  - lia.
  - intros i Hi. destruct i as [|[|i]]; [reflexivity | reflexivity | lia].
  - discriminate.
Defined.

Lemma setFuse_unknown_selector_witness :
  avrSetFuse 0xFFF 0x55 0xFF (serial_target pins_high)
  = Some (tt, serial_target pins_high).
Proof.
  apply (setFuse_unknown_selector 0xFFF 0x55 0xFF (serial_target pins_high));
    try discriminate; reflexivity.
Defined.

Lemma getFuse_only_reads_witness :
  exists r new,
    avr_getFuse 1 (boot pins_high)
    = Some (r, advance (if is_parallel (dev_type (boot pins_high)) then 1
                        else 33) new (boot pins_high))
    /\ 0 <= r < 256
    /\ forallb (fun e => negb (is_write_strobe e)) new = true
    /\ forallb no_power new = true.
Proof.
  apply (getFuse_only_reads 1 (boot pins_high)). lia.
Defined.


Lemma setup_streaming_or_immediate_witness :
  exists len s',
    usbFunctionSetup 0xFFF func_of_usbasp FLAG_FIRST 0 0 0 16000000 0xC0
      [0; 4; 0; 0; 0; 0; 8; 0] (boot pins_high) = Some (len, s')
    /\ length (replyBuffer s') = length (replyBuffer (boot pins_high))
    /\ (len = 0xff /\ state (prog s') = PROG_STATE_READFLASH
        /\ trace s' = trace (boot pins_high)
        /\ reads s' = reads (boot pins_high)
        /\ dev_type s' = dev_type (boot pins_high)
        /\ replyBuffer s' = replyBuffer (boot pins_high)).
Proof.
  apply (setup_streaming_or_immediate 0xFFF func_of_usbasp FLAG_FIRST 0 0 0 16000000 0xC0
           [0; 4; 0; 0; 0; 0; 8; 0] (boot pins_high));
    [lia | reflexivity].
Defined.

Lemma writeflash_header_decode_witness :
  exists s',
    usbFunctionSetup 0 func_of_usbasp FLAG_FIRST 0 0 0 16000000 0xC0
      [0; 6; 0x00; 0x01; 0x80; 0x13; 0x40; 0x00] (boot pins_high)
    = Some (0xff, s')
    /\ nbytes (prog s') = 0x40
    /\ pagesize (prog s') = 0x180
    /\ blockflags (prog s') = 3
    /\ pagecounter (prog s') = 0x80.
Proof.
  destruct (writeflash_header_decode 0 func_of_usbasp FLAG_FIRST 0 0 0 16000000 0xC0
              [0; 6; 0x00; 0x01; 0x80; 0x13; 0x40; 0x00] (boot pins_high)
              eq_refl)
    as (s' & Hrun & Hn & Hps & Hbf & Hpc & _).
  exists s'. repeat split; assumption.
Defined.

Lemma legacy_address_sign_extends_witness :
  exists s',
    usbFunctionSetup 0 func_of_usbasp FLAG_FIRST 0 0 0 16000000 0xC0
      [0; 4; 0x00; 0x80; 0; 0; 8; 0] (boot pins_high) = Some (0xff, s')
    /\ address (prog s') = 0xFFFF8000
    /\ high_segment (address (prog s')) = 0xFF.
Proof.
  apply (legacy_address_sign_extends 0 func_of_usbasp FLAG_FIRST 0 0 0 16000000 0xC0
           [0; 4; 0x00; 0x80; 0; 0; 8; 0] (boot pins_high));
    [reflexivity | reflexivity | vm_compute; discriminate].
Defined.

Lemma long_address_survives_header_witness :
  exists s1 s2,
    usbFunctionSetup 0 func_of_usbasp FLAG_FIRST 0 0 0 16000000 0xC0
      [0; 9; 0x00; 0x00; 0x02; 0x00; 0; 0] (boot pins_high) = Some (0, s1)
    /\ usbFunctionSetup 0 func_of_usbasp FLAG_FIRST 0 0 0 16000000 0xC0
         [0; 4; 0x34; 0x12; 0; 0; 8; 0] s1 = Some (0xff, s2)
    /\ address (prog s2) = 0x20000
    /\ address_newmode (prog s2) = 1
    /\ state (prog s2) = PROG_STATE_READFLASH.
Proof.
  apply (long_address_survives_header 0 func_of_usbasp FLAG_FIRST 0 0 0 16000000 0xC0
           [0; 9; 0x00; 0x00; 0x02; 0x00; 0; 0]
           [0; 4; 0x34; 0x12; 0; 0; 8; 0] (boot pins_high)
           PROG_STATE_READFLASH);
    [reflexivity | reflexivity | discriminate | discriminate].
Defined.

Lemma read_flash_phase_witness :
  exists l s',
    usbFunctionRead no_tpi_data 4 (flash_read pins_high 0x100 4)
    = Some ((l, 4), s')
    /\ length l = 4%nat
    /\ Forall (fun b => 0 <= b < 256) l
    /\ address (prog s') = 0x104
    /\ nbytes (prog s') = 4
    /\ state (prog s') = PROG_STATE_IDLE
    /\ calls R_ispReadFlash (trace s') = 4%nat
    /\ write_strobes (trace s') = 0%nat
    /\ l = [0xFF; 0xFF; 0xFF; 0xFF].
Proof.
  destruct (read_flash_phase no_tpi_data 4 (flash_read pins_high 0x100 4))
    as (l & s' & Hrun & Hl & Hall & Ha & Hn & Hst & Hc & Hw & Hval);
    [reflexivity | lia | vm_compute; split; [discriminate | reflexivity] |].
  exists l, s'. repeat split; try assumption.
  apply Hval. reflexivity.
Defined.

Lemma eeprom_write_phase_witness :
  exists s1 r s2,
    usbFunctionSetup 0xFFF func_of_usbasp FLAG_FIRST 0 0 0 16000000 0xC0
      [0; 8; 0; 0; 0; 0; 3; 0] (serial_target pins_high) = Some (0xff, s1)
    /\ usbFunctionWrite 0xFFF FLAG_LAST [1; 2; 3] s1 = Some (r, s2)
    /\ r = 1
    /\ state (prog s2) = PROG_STATE_IDLE
    /\ nbytes (prog s2) = 0
    /\ calls R_ispWriteEEPROM (trace s2) = 3%nat
    /\ calls R_ispWriteFlash (trace s2) = 0%nat
    /\ calls R_ispFlushPage (trace s2) = 0%nat.
Proof.
  apply (eeprom_write_phase 0xFFF func_of_usbasp FLAG_FIRST FLAG_LAST 0 0 0 16000000 0xC0
           [0; 8; 0; 0; 0; 0; 3; 0] [1; 2; 3] (serial_target pins_high));
    [lia | reflexivity | vm_compute; split; discriminate].
Defined.

Lemma write_overrun_goes_to_eeprom_witness :
  exists s1 s2,
    usbFunctionWrite 0xFFF FLAG_LAST [1; 2] (armed_write pins_high 4 2 0)
    = Some (1, s1)
    /\ state (prog s1) = PROG_STATE_IDLE
    /\ usbFunctionWrite 0xFFF FLAG_LAST ([1; 2] ++ [3])
         (armed_write pins_high 4 2 0) = Some (1, s2)
    /\ state (prog s2) = PROG_STATE_IDLE
    /\ nbytes (prog s2) = 65535
    /\ calls R_ispWriteEEPROM (trace s2)
       = S (calls R_ispWriteEEPROM (trace s1))
    /\ calls R_ispWriteFlash (trace s2) = calls R_ispWriteFlash (trace s1).
Proof.
  apply (write_overrun_goes_to_eeprom 0xFFF FLAG_LAST [1; 2] 3
           (armed_write pins_high 4 2 0));
    [lia | reflexivity | vm_compute; split; discriminate | reflexivity].
Defined.

Lemma unpaged_flash_write_witness :
  exists rs s',
    write_stream 0xFFF FLAG_LAST [[1]; [2]]
      (armed_write pins_high 0 2 FLAG_LAST) = Some (rs, s')
    /\ state (prog s') = PROG_STATE_IDLE
    /\ pagecounter (prog s') = 0
    /\ calls R_ispFlushPage (trace s') = 0%nat.
Proof.
  apply (unpaged_flash_write 0xFFF FLAG_LAST [[1]; [2]]
           (armed_write pins_high 0 2 FLAG_LAST));
    [reflexivity | reflexivity | vm_compute; split; discriminate
    | reflexivity].
Defined.

Lemma connect_request_witness :
  exists new s',
    usbFunctionSetup 0xFFF func_of_usbasp FLAG_FIRST 0 0 0 16000000 0xC0
      [0; 1; 0; 0; 0; 0; 0; 0] (boot pins_high) = Some (0, s')
    /\ trace s'
       = [Drive OE HIGH; Drive WR HIGH; PowerDDR true; DataDir false;
          ControlDDR 0xFF; ControlPort 0xFF; Led true]
         ++ new
         ++ rev (frames [(0x4C, 0x80); (0x64, 0x00); (0x6C, 0x00)]
                   pins_high 1)
         ++ [SampleSck 0xFF]
    /\ forallb on_bus new = true
    /\ isp_hiaddr s' = 0
    /\ address_newmode (prog s') = 0
    /\ state (prog s') = PROG_STATE_IDLE
    /\ sck_option (prog s') = 0.
Proof.
  apply (connect_request 0xFFF func_of_usbasp FLAG_FIRST 0 0 0 16000000 0xC0
           [0; 1; 0; 0; 0; 0; 0; 0] (boot pins_high));
    [lia | reflexivity].
Defined.

Lemma erase_only_on_parallel_witness :
  avr_erase (serial_target pins_high) = Some (tt, serial_target pins_high).
Proof.
  apply (proj1 (erase_only_on_parallel (serial_target pins_high))).
  reflexivity.
Defined.

Lemma eeprom_parallel_read_uses_low_byte_only_witness :
  exists r new new',
    ispReadEEPROM 0x005 (boot pins_high)
    = Some (r, advance 1 new (boot pins_high))
    /\ ispReadEEPROM 0x105 (boot pins_high)
       = Some (r, advance 1 new' (boot pins_high))
    /\ bus_events new = bus_events new'
    /\ bus_events new <> [].
Proof.
  apply (eeprom_parallel_read_uses_low_byte_only 0x005 0x105
           (boot pins_high)); reflexivity.
Defined.

Lemma tpi_block_phases_witness :
  exists s',
    usbFunctionWrite 0 FLAG_LAST [1; 2; 3; 4; 5; 6; 7; 8]
      (tpi_write pins_high 4) = Some (0, s')
    /\ state (prog s') = PROG_STATE_TPI_WRITE
    /\ nbytes (prog s') = 65532
    /\ trace s' = [Tpi TPI_write_block 0 8].
Proof.
  apply (proj2 (tpi_block_phases 0 FLAG_LAST no_tpi_data 8
                  [1; 2; 3; 4; 5; 6; 7; 8] (tpi_write pins_high 4)
                  ltac:(vm_compute; split; [discriminate | reflexivity])
                  ltac:(lia) eq_refl)).
  reflexivity.
Defined.

Lemma write_pulses_are_page_flushes_witness :
  exists rs s',
    write_stream 0 FLAG_LAST [[1; 2]; [3; 4]]
      (armed_write pins_high 2 4 FLAG_FIRST) = Some (rs, s')
    /\ length rs = 2%nat
    /\ dev_type s' = 0
    /\ (write_strobes (trace s') + 0 = 0 + calls R_ispFlushPage (trace s'))%nat.
Proof.
  apply (write_pulses_are_page_flushes 0 FLAG_LAST [[1; 2]; [3; 4]]
           (armed_write pins_high 2 4 FLAG_FIRST)).
  reflexivity.
Defined.

Lemma flush_shares_segment_cache_witness :
  exists s' new,
    ispFlushPage 0x20000 0xFF (boot pins_high) = Some (0, s')
    /\ trace s' = rev new ++ trace (boot pins_high)
    /\ write_strobes new = 1%nat
    /\ extended_loads new = 1%nat
    /\ isp_hiaddr s' = 1.
Proof.
  destruct (flush_shares_segment_cache 0x20000 0x20002 0xFF (boot pins_high)
              eq_refl)
    as (s' & new & Hrun & Htr & Hw & Hx & Hhi & _).
  exists s', new. repeat split; assumption.
Defined.

Lemma tpi_requests_wait_on_the_clock_witness :
  usbFunctionSetup 0xFFF func_of_usbasp FLAG_FIRST 0 0 0 16000000 0xC0
    [0; 11; 0; 0; 0; 0; 0; 0] (boot pins_high) = None.
Proof.
  apply (proj1 (tpi_requests_wait_on_the_clock 0xFFF func_of_usbasp
                  FLAG_FIRST 0 0 0 16000000 0xC0 [0; 11; 0; 0; 0; 0; 0; 0]
                  (boot pins_high) eq_refl)).
  lia.
Defined.
